(** * goutils/logger: severity-gated logger with a rotating file sink

    A shallow embedding of the Go package [logger] (the current version of
    the package and its predecessor [logger/logger.go], kept in module
    [Legacy]) together with the properties of its validator, its facade
    (Debugf / Infof / Errorf), its rotation task and its retention pass.

    Effects are explicit: a call is a function from the world (the log
    output folder, the open files, the loggers, what was written so far, the
    clock) to an outcome, which says whether the call returned, panicked or
    ended the process.  The rotation goroutine is followed one pass of its
    loop at a time; interleavings with other goroutines are not modelled. *)

From stdpp Require Import gmap strings list sorting pretty.
From Stdlib Require Import ZArith Ascii Lia.

Local Open Scope Z_scope.

(** ** Fragments of the Go standard library used by the package *)

(** Go strings are byte sequences; [string] is a list of 8-bit characters. *)

Definition byte_val (c : ascii) : Z := Z.of_N (N_of_ascii c).

(** [utf8.RuneSelf] is 0x80: bytes below it are single-byte runes. *)
Fixpoint isASCII (s : string) : bool :=
  match s with
  | EmptyString => true
  | String c s' => bool_decide (byte_val c < 128) && isASCII s'
  end.

Definition lowerByte (c : ascii) : ascii :=
  if bool_decide (65 ≤ byte_val c ≤ 90)
  then ascii_of_N (N_of_ascii c + 32) else c.

Fixpoint asciiToLower (s : string) : string :=
  match s with
  | EmptyString => EmptyString
  | String c s' => String (lowerByte c) (asciiToLower s')
  end.

(** What the package takes from the Go runtime without this development
    looking inside: the values passed to a variadic [...interface{}], and the
    rune-wise lower-casing that [strings.ToLower] falls back to when its
    argument holds a byte outside ASCII. *)
Class GoLib := {
  any : Type;
  unicode_ToLower : string → string;
}.

(** [strings.ToLower]: ASCII-only strings are lowered byte by byte, any other
    string goes through [strings.Map(unicode.ToLower, s)]. *)
Definition ToLower `{GoLib} (s : string) : string :=
  if isASCII s then asciiToLower s else unicode_ToLower s.

(** [len(s)] as a Go [int]. *)
Definition len {A} (l : list A) : Z := Z.of_nat (length l).

(** Go's [int] and [int64] on the 64-bit platforms: two's complement
    wrap-around of a mathematical integer. *)
Definition wrap64 (x : Z) : Z := (x + 2^63) `mod` 2^64 - 2^63.

Definition int64_range (x : Z) : Prop := - 2^63 ≤ x < 2^63.

(** [%d] of an [int]. *)
Definition fmt_d (x : Z) : string := pretty x.

(** ** Configuration *)

Definition LogLevelError : Z := 0.
Definition LogLevelInfo : Z := 1.
Definition LogLevelDebug : Z := 2.

Record LoggerConfig := mkLoggerConfig {
  LoggerName : string;
  Level : string;
  EnableConsoleLog : bool;
  EnableSyslog : bool;
  SyslogHost : string;
  SyslogPort : Z;
  SyslogProtocol : string;
  OutputFolder : string;
  RotationBySize : bool;
  MaxFileSizeMB : Z;
  MaxLogFiles : Z;
  RotationIntervalHour : Z;
}.

(** A Go [error] is represented by its message; [None] is [nil]. *)
Definition error := string.

Section validate.
Context `{GoLib}.

Definition Validate (c : LoggerConfig) : option error :=
  if decide (LoggerName c = "") then
    Some "logger name cannot be empty"
  else
  let logLevel := ToLower (Level c) in
  if decide (logLevel ≠ "error" ∧ logLevel ≠ "info" ∧ logLevel ≠ "debug") then
    Some ("invalid log level: " +:+ Level c +:+
          " (must be error, info, or debug)")
  else
  let syslogCheck : option error :=
    if EnableSyslog c then
      if decide (SyslogHost c = "") then
        Some "syslog host cannot be empty when syslog is enabled"
      else if decide (SyslogPort c ≤ 0 ∨ SyslogPort c > 65535) then
        Some ("invalid syslog port: " +:+ fmt_d (SyslogPort c) +:+
              " (must be between 1 and 65535)")
      else
        let protocol := ToLower (SyslogProtocol c) in
        if decide (protocol ≠ "udp" ∧ protocol ≠ "tcp") then
          Some ("invalid syslog protocol: " +:+ SyslogProtocol c +:+
                " (must be udp or tcp)")
        else None
    else None in
  match syslogCheck with
  | Some e => Some e
  | None =>
    let rotationCheck : option error :=
      if RotationBySize c then
        if decide (MaxFileSizeMB c ≤ 0) then
          Some "log max file size must be greater than 0 when size-based rotation is enabled"
        else None
      else
        if decide (RotationIntervalHour c ≤ 0) then
          Some "log rotation interval must be greater than 0 when time-based rotation is enabled"
        else None in
    match rotationCheck with
    | Some e => Some e
    | None =>
      if decide (MaxLogFiles c ≤ 0) then
        Some "maximum number of log files must be greater than 0"
      else None
    end
  end.
End validate.

(** ** Time *)

(** The fields of a [time.Time] the package reads. *)
Record Time := mkTime {
  year : Z;
  month : Z;
  day : Z;
  hour : Z;
}.

Fixpoint zeros (n : nat) : string :=
  match n with O => "" | S n' => String "0" (zeros n') end.

(** The ASCII digit of a number below ten. *)
Definition digit (n : Z) : ascii := ascii_of_N (48 + Z.to_N n).

(** The decimal digits of [u], most significant first, in front of [acc]:
    the loop of [time.appendInt] that fills its 20-byte buffer from the
    end. *)
Fixpoint decimal (fuel : nat) (u : Z) (acc : string) : string :=
  match fuel with
  | O => acc
  | S fuel' =>
      if bool_decide (10 ≤ u)
      then decimal fuel' (u / 10) (String (digit (u `mod` 10)) acc)
      else String (digit u) acc
  end.

(** [time.appendInt]: an optional sign, then the decimal digits of the
    magnitude padded with zeros up to [width] digits. *)
Definition appendInt (x : Z) (width : nat) : string :=
  let sign := if bool_decide (x < 0) then "-" else "" in
  let digits := decimal 20 (Z.abs x) "" in
  sign +:+ zeros (width - String.length digits) +:+ digits.

(** [Time.Format] on layouts made of the reference chunks "2006" (year),
    "01" (month), "02" (day of the month), "15" (hour, 00-23) and literal
    bytes; chunks are looked for from left to right, as in the library's
    [nextStdChunk], and any other byte is copied. *)
Fixpoint Format (t : Time) (layout : string) : string :=
  match layout with
  | String "2" (String "0" (String "0" (String "6" rest))) =>
      appendInt (year t) 4 +:+ Format t rest
  | String "0" (String "1" rest) => appendInt (month t) 2 +:+ Format t rest
  | String "0" (String "2" rest) => appendInt (day t) 2 +:+ Format t rest
  | String "1" (String "5" rest) => appendInt (hour t) 2 +:+ Format t rest
  | String c rest => String c (Format t rest)
  | EmptyString => EmptyString
  end.

(** [time.Duration] is an [int64] count of nanoseconds. *)
Definition Hour : Z := 3600000000000.

(** [time.Duration(n) * time.Hour]. *)
Definition hoursDuration (n : Z) : Z := wrap64 (wrap64 n * Hour).

(** [int(d.Hours())].  [Hours] returns [float64(d / Hour) + float64(d % Hour)
    / 3.6e12] with Go's truncated division; the two summands have the same
    sign and the second one is below 1 in magnitude, so the conversion to
    [int] gives the quotient.  (When [d % Hour] is 0 the float is the integer
    [d / Hour] itself, which is the case in every result below.) *)
Definition intHours (d : Z) : Z := Z.quot d Hour.

(** ** Sorting *)

(** [sort.Strings]: ascending byte-wise order. *)
Definition sort_Strings (l : list string) : list string :=
  merge_sort String.le l.

(** ** The world the package runs in *)

Definition nl : string := String (ascii_of_nat 10) "".

(** An entry of the log output folder: a regular file with its content, or a
    subdirectory. *)
Inductive Entry :=
| File (data : string)
| Dir.

(** What [os.ReadDir] yields for an entry: its name and its kind. *)
Definition DirEntry : Type := string * Entry.

Definition Name (f : DirEntry) : string := f.1.

Definition IsDir (f : DirEntry) : bool :=
  match f.2 with Dir => true | File _ => false end.

(** An [*os.File]: the entry it was opened on and whether it is still open. *)
Record Handle := mkHandle {
  h_name : string;
  h_open : bool;
}.

(** A [*log.Logger]: its line prefix, its flags, and whether its writer also
    copies to the console. *)
Record LogObj := mkLogObj {
  lg_prefix : string;
  lg_flags : Z;
  lg_console : bool;
}.

Definition Ldate : Z := 1.
Definition Ltime : Z := 2.
Definition Llongfile : Z := 8.
Definition Lshortfile : Z := 16.
Definition LstdFlags : Z := Z.lor Ldate Ltime.

Inductive Severity := SevDebug | SevInfo | SevErr.

(** A connected [*srslog.Writer]. *)
Record SyslogWriter := mkSyslogWriter {
  sw_network : string;
  sw_raddr : string;
  sw_tag : string;
}.

(** The variables captured by the rotation goroutine of a file sink. *)
Record Task := mkTask {
  t_logDir : string;
  t_fileName : string;
  t_logFile : option nat;
  t_rotateBySize : bool;
  t_maxSize : Z;
  t_maxLogFiles : Z;
  t_rotationInterval : Z;
}.

(** The answers of the operating system that the directory content does not
    determine: [None] lets the call succeed, [Some e] makes it fail with
    error [e]. *)
Record Faults := mkFaults {
  mkdirErr : option error;
  openErr : option error;
  closeErr : option error;
  renameErr : option error;
  readDirErr : option error;
  removeErr : string → option error;
  dialErr : option error;
  statSize : Z + error;
}.

Definition noFaults : Faults :=
  mkFaults None None None None None (λ _, None) None (inl 0).

(** ** Call-site introspection *)

(** [strings.LastIndex(s, sep)] for a one-byte separator: the index of the
    last occurrence, or -1. *)
Fixpoint lastIndexFrom (i found : Z) (c : ascii) (s : string) : Z :=
  match s with
  | EmptyString => found
  | String a s' =>
      lastIndexFrom (i + 1) (if decide (a = c) then i else found) c s'
  end.

Definition LastIndex (s : string) (c : ascii) : Z := lastIndexFrom 0 (-1) c s.

(** [s[n:]] *)
Fixpoint sliceFrom (n : nat) (s : string) : string :=
  match n, s with
  | S n', String _ s' => sliceFrom n' s'
  | _, _ => s
  end.

(** The frames above a facade method, innermost first: the function that
    called the method, then its caller, and so on.  A frame is the qualified
    name [runtime.FuncForPC] reports, or [None] when it reports nothing. *)
Definition CallStack : Type := list (option string).

(** [getCallerFuncName], called from a facade method: [runtime.Caller(2)] is
    the first frame of [callers]. *)
Definition getCallerFuncName (callers : CallStack) : string :=
  match callers with
  | [] => "unknown"
  | None :: _ => "unknown"
  | Some name :: _ =>
      let lastSlash := LastIndex name "/" in
      let name :=
        if decide (0 ≤ lastSlash)
        then sliceFrom (Z.to_nat (lastSlash + 1)) name else name in
      let dotIndex := LastIndex name "." in
      let name :=
        if decide (0 ≤ dotIndex)
        then sliceFrom (Z.to_nat (dotIndex + 1)) name else name in
      name
  end.

Section world.
Context `{GoLib}.

(** What the package makes observable. *)
Inductive Event :=
| Stdout (text : string)
    (** [fmt.Printf] / [fmt.Println] *)
| Stderr (text : string)
    (** the standard logger, used by [log.Fatalf] *)
| SyslogSend (sev : Severity) (format : string) (args : list any)
    (** [w.Debug|Info|Err(fmt.Sprintf(format, args...))] on a syslog writer *)
| LogLine (lg : LogObj) (format : string) (args : list any)
    (** [l.Printf(format, args...)] on a [*log.Logger] in state [lg]: one
        line made of the prefix, the header chosen by the flags and the
        formatted text *).

Record World := mkWorld {
  dir : gmap string Entry;
    (** the log output folder, by entry name *)
  handles : gmap nat Handle;
  logs : gmap nat LogObj;
  trace : list Event;
  clock : nat → Time;
    (** the successive readings of the wall clock *)
  ticks : nat;
  quitRotation : bool;
    (** the flag shared by the rotation goroutine and the shutdown hook *)
  tasks : list Task;
    (** the goroutines started so far *)
  faults : Faults;
}.

Definition set_dir (d : gmap string Entry) (w : World) : World :=
  mkWorld d (handles w) (logs w) (trace w) (clock w) (ticks w)
          (quitRotation w) (tasks w) (faults w).
Definition set_handles (h : gmap nat Handle) (w : World) : World :=
  mkWorld (dir w) h (logs w) (trace w) (clock w) (ticks w)
          (quitRotation w) (tasks w) (faults w).
Definition set_logs (l : gmap nat LogObj) (w : World) : World :=
  mkWorld (dir w) (handles w) l (trace w) (clock w) (ticks w)
          (quitRotation w) (tasks w) (faults w).
Definition emit (e : Event) (w : World) : World :=
  mkWorld (dir w) (handles w) (logs w) (trace w ++ [e]) (clock w) (ticks w)
          (quitRotation w) (tasks w) (faults w).
Definition tick (w : World) : World :=
  mkWorld (dir w) (handles w) (logs w) (trace w) (clock w) (S (ticks w))
          (quitRotation w) (tasks w) (faults w).
Definition set_quitRotation (b : bool) (w : World) : World :=
  mkWorld (dir w) (handles w) (logs w) (trace w) (clock w) (ticks w)
          b (tasks w) (faults w).
Definition spawn (t : Task) (w : World) : World :=
  mkWorld (dir w) (handles w) (logs w) (trace w) (clock w) (ticks w)
          (quitRotation w) (tasks w ++ [t]) (faults w).

(** How a call ends: it returns, it panics, or the process exits. *)
Inductive Outcome (A : Type) :=
| Returns (a : A) (w : World)
| Panics (reason : string) (w : World)
| Exits (code : Z) (w : World).
Global Arguments Returns {A} a w.
Global Arguments Panics {A} reason w.
Global Arguments Exits {A} code w.

Definition Go (A : Type) : Type := World → Outcome A.

Global Instance Go_ret : MRet Go := λ A a w, Returns a w.
Global Instance Go_bind : MBind Go := λ A B f m w,
  match m w with
  | Returns a w' => f a w'
  | Panics r w' => Panics r w'
  | Exits c w' => Exits c w'
  end.

Definition panic {A} (reason : string) : Go A := λ w, Panics reason w.

Fixpoint forEach {A} (l : list A) (body : A → Go unit) : Go unit :=
  match l with
  | [] => mret tt
  | x :: l' => body x ;; forEach l' body
  end.

Definition fmt_Print (text : string) : Go unit :=
  λ w, Returns tt (emit (Stdout text) w).

(** [log.Fatalf]: a line on the standard logger, then [os.Exit(1)]. *)
Definition log_Fatal {A} (text : string) : Go A :=
  λ w, Exits 1 (emit (Stderr text) w).

Definition time_Now : Go Time :=
  λ w, Returns (clock w (ticks w)) (tick w).

(** *** Files.  A path [filepath.Join(folder, n)] inside the log output
    folder is represented by the entry name [n]. *)

Definition filepath_Join (folder name : string) : string :=
  folder +:+ "/" +:+ name.

Definition os_MkdirAll : Go (option error) :=
  λ w, Returns (mkdirErr (faults w)) w.

(** [os.ReadDir]: the entries sorted by file name, or an error. *)
Definition os_ReadDir : Go (list DirEntry + error) :=
  λ w, match readDirErr (faults w) with
       | Some e => Returns (inr e) w
       | None =>
           Returns (inl (merge_sort (λ a b, String.le (Name a) (Name b))
                                    (map_to_list (dir w)))) w
       end.

(** [os.Remove] of a regular file of the folder. *)
Definition os_Remove (name : string) : Go (option error) :=
  λ w, match dir w !! name with
       | None => Returns (Some "no such file or directory") w
       | Some Dir => Returns (Some "directory not empty") w
       | Some (File _) =>
           match removeErr (faults w) name with
           | Some e => Returns (Some e) w
           | None => Returns None (set_dir (delete name (dir w)) w)
           end
       end.

(** [os.Rename] of a regular file; an existing regular file under the new
    name is replaced. *)
Definition os_Rename (old new : string) : Go (option error) :=
  λ w, match dir w !! old with
       | None => Returns (Some "no such file or directory") w
       | Some Dir => Returns (Some "is a directory") w
       | Some (File data) =>
           match dir w !! new, renameErr (faults w) with
           | Some Dir, _ => Returns (Some "file exists") w
           | _, Some e => Returns (Some e) w
           | _, None =>
               Returns None
                 (set_dir (<[new := File data]> (delete old (dir w))) w)
           end
       end.

Definition fresh_handle (w : World) : nat := size (handles w).

(** [os.OpenFile(name, O_APPEND|O_CREATE|O_WRONLY, 0644)]: the new handle,
    or [None] (a nil [*os.File]) with an error. *)
Definition os_OpenFile (name : string) : Go (option nat * option error) :=
  λ w, match dir w !! name, openErr (faults w) with
       | Some Dir, _ => Returns (None, Some "is a directory") w
       | _, Some e => Returns (None, Some e) w
       | o, None =>
           let d := match o with
                    | None => <[name := File ""]> (dir w)
                    | Some _ => dir w
                    end in
           let h := fresh_handle w in
           Returns (Some h, None)
             (set_handles (<[h := mkHandle name true]> (handles w))
                          (set_dir d w))
       end.

(** An [*os.File] variable holds [None] (nil) or the address of a handle.
    [f.Close()] fails on nil and on a handle that is already closed. *)
Definition file_Close (f : option nat) : Go (option error) :=
  λ w, match f ≫= (λ n, handles w !! n) with
       | None => Returns (Some "invalid argument") w
       | Some h =>
           if h_open h then
             match closeErr (faults w) with
             | Some e => Returns (Some e) w
             | None =>
                 Returns None
                   (set_handles
                      (alter (λ h, mkHandle (h_name h) false) (default O f)
                             (handles w)) w)
             end
           else Returns (Some "file already closed") w
       end.

(** [f.Stat()] followed by [Size()]. *)
Definition file_Stat_Size (f : option nat) : Go (Z + error) :=
  λ w, match f with
       | None => Returns (inr "invalid argument") w
       | Some _ => Returns (statSize (faults w)) w
       end.

(** [*dst = *src] on two [*os.File]; a nil operand is a nil dereference. *)
Definition file_assign (dst src : option nat) : Go unit :=
  λ w, match dst, src ≫= (λ n, handles w !! n) with
       | Some d, Some h =>
           Returns tt (set_handles (<[d := h]> (handles w)) w)
       | _, _ =>
           Panics "invalid memory address or nil pointer dereference" w
       end.

(** [log.New], [Flags], [SetFlags], [SetPrefix], [Printf]. *)
Definition log_New (console : bool) (prefix : string) (flags : Z) : Go nat :=
  λ w, let l := size (logs w) in
       Returns l (set_logs (<[l := mkLogObj prefix flags console]> (logs w)) w).

Definition log_Flags (l : nat) : Go Z :=
  λ w, match logs w !! l with
       | Some lg => Returns (lg_flags lg) w
       | None => Panics "invalid memory address or nil pointer dereference" w
       end.

Definition log_update (f : LogObj → LogObj) (l : nat) : Go unit :=
  λ w, match logs w !! l with
       | Some lg => Returns tt (set_logs (<[l := f lg]> (logs w)) w)
       | None => Panics "invalid memory address or nil pointer dereference" w
       end.

Definition log_SetFlags (l : nat) (flags : Z) : Go unit :=
  log_update (λ lg, mkLogObj (lg_prefix lg) flags (lg_console lg)) l.

Definition log_SetPrefix (l : nat) (prefix : string) : Go unit :=
  log_update (λ lg, mkLogObj prefix (lg_flags lg) (lg_console lg)) l.

Definition log_Printf (l : nat) (format : string) (v : list any) : Go unit :=
  λ w, match logs w !! l with
       | Some lg => Returns tt (emit (LogLine lg format v) w)
       | None => Panics "invalid memory address or nil pointer dereference" w
       end.

(** The severity-tagged sends of a syslog writer; send errors are dropped
    by the callers. *)
Definition syslog_Send (sev : Severity) (format : string) (v : list any)
  : Go unit :=
  λ w, Returns tt (emit (SyslogSend sev format v) w).

(** [srslog.Dial]. *)
Definition srslog_Dial (network raddr tag : string)
  : Go (option SyslogWriter * option error) :=
  λ w, match dialErr (faults w) with
       | Some e => Returns (None, Some e) w
       | None => Returns (Some (mkSyslogWriter network raddr tag), None) w
       end.

(** ** Retention and rotation *)

Definition cleanupLogFiles (logOutputFolder : string) (maxLogFiles : Z)
  : Go unit :=
  r ← os_ReadDir;
  match r with
  | inr err =>
      fmt_Print ("failed to read log output folder: " +:+ err +:+ nl)
  | inl files =>
      let logFiles :=
        Name <$> filter (λ file, Name file ≠ "kodo.log" ∧ IsDir file = false)
                        files in
      let logFiles := sort_Strings logFiles in
      if decide (len logFiles > maxLogFiles) then
        (* logFiles[:len(logFiles)-maxLogFiles]: Go checks the bound against
           the capacity of the slice, which is not tracked here; a bound
           beyond the length (a negative maxLogFiles) is taken as out of
           range. *)
        if decide (len logFiles - maxLogFiles > len logFiles) then
          panic "slice bounds out of range"
        else
        let filesToDelete :=
          take (Z.to_nat (len logFiles - maxLogFiles)) logFiles in
        forEach filesToDelete (λ file,
          let filePath := filepath_Join logOutputFolder file in
          err ← os_Remove file;
          match err with
          | Some e =>
              fmt_Print ("failed to delete old log file " +:+ filePath +:+
                         ": " +:+ e)
          | None => mret tt
          end)
      else mret tt
  end.

Definition rotateLogFile (logFile : option nat) (fileName : string)
  : Go unit :=
  err ← file_Close logFile;
  match err with
  | Some e =>
      fmt_Print ("log rotation: failed to closed current log file: " +:+ e
                 +:+ nl)
  | None =>
      now ← time_Now;
      let timestamp := Format now "20060102-15" in
      let rotatedFileName := fileName +:+ "." +:+ timestamp in
      err ← os_Rename fileName rotatedFileName;
      match err with
      | Some e =>
          fmt_Print ("log rotation: failed to rotate log file: " +:+ e)
      | None => mret tt
      end;;
      r ← os_OpenFile fileName;
      match r.2 with
      | Some e =>
          fmt_Print ("log rotation: failed to open new log file: " +:+ e)
      | None => mret tt
      end;;
      file_assign logFile r.1
  end.

(** *** The rotation goroutine of [createCustomFileLogger] *)

(** Before the loop: one retention pass, then the current hour. *)
Definition rotationStart (t : Task) : Go Z :=
  cleanupLogFiles (t_logDir t) (t_maxLogFiles t);;
  now ← time_Now;
  mret (hour now).

(** One pass through the body of the [for] loop ([time.Sleep] left out).
    The result is [None] when the goroutine returns and the new value of
    [lastHour] otherwise. *)
Definition rotationIteration (t : Task) (lastHour : Z) : Go (option Z) :=
  λ w,
  if quitRotation w then Returns None w
  else
    (if t_rotateBySize t then
       r ← file_Stat_Size (t_logFile t);
       match r with
       | inl size =>
           if decide (t_maxSize t ≤ size) then
             rotateLogFile (t_logFile t) (t_fileName t);;
             cleanupLogFiles (t_logDir t) (t_maxLogFiles t)
           else mret tt
       | inr _ => mret tt
       end;;
       mret (Some lastHour)
     else
       now ← time_Now;
       let currentHour := hour now in
       if decide (currentHour ≠ lastHour) then
         let n := intHours (t_rotationInterval t) in
         (if decide (n = 0) then panic "integer divide by zero"
          else if decide (Z.rem currentHour n = 0) then
            fmt_Print ("rotating log file by time" +:+ nl);;
            rotateLogFile (t_logFile t) (t_fileName t);;
            cleanupLogFiles (t_logDir t) (t_maxLogFiles t)
          else mret tt);;
         mret (Some currentHour)
       else mret (Some lastHour)) w.

(** The loop, cut after [fuel] passes. *)
Fixpoint rotationLoop (fuel : nat) (t : Task) (lastHour : Z) : Go unit :=
  match fuel with
  | O => mret tt
  | S fuel' =>
      r ← rotationIteration t lastHour;
      match r with
      | None => mret tt
      | Some lastHour' => rotationLoop fuel' t lastHour'
      end
  end.

(** [createCustomFileLogger]; the main log file [filepath.Join(logDir,
    loggerName+".log")] is the entry [loggerName+".log"] of the folder (a
    logger name without path separators). *)
Definition createCustomFileLogger
    (loggerName logDir : string) (rotateBySize : bool)
    (maxSize maxLogFiles rotationInterval : Z) (EnableConsoleLog : bool)
  : Go (nat * Go unit) :=
  err ← os_MkdirAll;
  match err with
  | Some e => log_Fatal ("failed to create log directory: " +:+ e)
  | None =>
      let fileName := loggerName +:+ ".log" in
      r ← os_OpenFile fileName;
      match r.2 with
      | Some e => log_Fatal ("failed to open log file: " +:+ e)
      | None =>
          let logFile := r.1 in
          (λ w, Returns tt (set_quitRotation false w));;
          (λ w, Returns tt
             (spawn (mkTask logDir fileName logFile rotateBySize maxSize
                            maxLogFiles rotationInterval) w));;
          let destroyFunc : Go unit :=
            (λ w, Returns tt (set_quitRotation true w));;
            match logFile with
            | Some _ => file_Close logFile;; mret tt
            | None => mret tt
            end in
          logger ← log_New EnableConsoleLog (loggerName +:+ ": ")
                           (Z.lor LstdFlags Lshortfile);
          currentFlags ← log_Flags logger;
          let newFlags := Z.ldiff currentFlags (Z.lor Lshortfile Llongfile) in
          log_SetFlags logger newFlags;;
          mret (logger, destroyFunc)
      end
  end.

(** [createSysLogger]; closing the connection in the shutdown hook leaves
    nothing to observe here. *)
Definition createSysLogger (loggerName host : string) (port : Z)
    (protocol : string) : Go (option SyslogWriter * option (Go unit)) :=
  if decide (protocol ≠ "udp" ∧ protocol ≠ "tcp") then
    fmt_Print ("invalid syslog protocol: " +:+ protocol +:+
               ". Use 'udp' or 'tcp'.");;
    mret (None, None)
  else
    let connStr := host +:+ ":" +:+ fmt_d port in
    r ← srslog_Dial protocol connStr loggerName;
    match r with
    | (_, Some e) =>
        fmt_Print ("failed to connect to syslog: " +:+ e);;
        mret (None, None)
    | (syslogWriter, None) =>
        let destroyFunc : Go unit := mret tt in
        mret (syslogWriter, Some destroyFunc)
    end.

(** ** The facade *)

Record Logger := mkLogger {
  logger : option nat;
  prefix : string;
  syslogger : option SyslogWriter;
  Destroy : Go unit;
  loglevel : Z;
}.

Definition Debugf (l : Logger) (callers : CallStack) (format : string)
    (v : list any) : Go unit :=
  if decide (LogLevelDebug ≤ loglevel l) then
    let caller := getCallerFuncName callers +:+ ": " in
    match syslogger l with
    | Some _ =>
        syslog_Send SevDebug (prefix l +:+ caller +:+ "debug: " +:+ format) v
    | None => mret tt
    end;;
    match logger l with
    | Some lg => log_Printf lg (prefix l +:+ caller +:+ "debug: " +:+ format) v
    | None => mret tt
    end
  else mret tt.

Definition Infof (l : Logger) (callers : CallStack) (format : string)
    (v : list any) : Go unit :=
  if decide (LogLevelInfo ≤ loglevel l) then
    let caller :=
      if decide (LogLevelDebug ≤ loglevel l)
      then getCallerFuncName callers +:+ ": " else "" in
    match syslogger l with
    | Some _ =>
        syslog_Send SevInfo (prefix l +:+ caller +:+ "info: " +:+ format) v
    | None => mret tt
    end;;
    match logger l with
    | Some lg => log_Printf lg (prefix l +:+ caller +:+ "info: " +:+ format) v
    | None => mret tt
    end
  else mret tt.

Definition Errorf (l : Logger) (callers : CallStack) (format : string)
    (v : list any) : Go unit :=
  let caller :=
    if decide (LogLevelDebug ≤ loglevel l)
    then getCallerFuncName callers +:+ ": " else "" in
  match syslogger l with
  | Some _ =>
      syslog_Send SevErr (prefix l +:+ caller +:+ "error: " +:+ format) v
  | None => mret tt
  end;;
  match logger l with
  | Some lg => log_Printf lg (prefix l +:+ caller +:+ "error: " +:+ format) v
  | None => mret tt
  end.

(** ** The factory *)

Definition initLoggerFactory
    (loggerName logLevel logOutputFolder : string) (logRotationBySize : bool)
    (logMaxFileSize logMaxFiles logRotationIntervalHour : Z)
    (enableConsoleLog enableSyslog : bool) (syslogHost : string)
    (syslogPort : Z) (syslogProtocol : string) : Go (string → Logger) :=
  let loglevellc := ToLower logLevel in
  let myLogger_loglevel :=
    if decide (loglevellc = "debug") then LogLevelDebug
    else if decide (loglevellc = "info") then LogLevelInfo
    else if decide (loglevellc = "error") then LogLevelError
    else LogLevelInfo in
  let logRotationInterval := hoursDuration logRotationIntervalHour in
  r ← createCustomFileLogger loggerName logOutputFolder logRotationBySize
        logMaxFileSize logMaxFiles logRotationInterval enableConsoleLog;
  let myLogger_logger := r.1 in
  let locallogger_destroy := r.2 in
  s ← (if enableSyslog
       then createSysLogger loggerName syslogHost syslogPort syslogProtocol
       else mret (None, None));
  let myLogger_syslogger := s.1 in
  let syslogger_destroy := s.2 in
  let myLogger_Destroy : Go unit :=
    locallogger_destroy;;
    match syslogger_destroy with
    | Some d => d
    | None => mret tt
    end in
  let myLogger :=
    mkLogger (Some myLogger_logger) "" myLogger_syslogger myLogger_Destroy
             myLogger_loglevel in
  mret (λ logPrefix : string,
          let thisLogger := myLogger in
          let thisLogger_prefix :=
            if decide (logPrefix ≠ "") then logPrefix +:+ ": " else "" in
          mkLogger (logger thisLogger) thisLogger_prefix
                   (syslogger thisLogger) (Destroy thisLogger)
                   (loglevel thisLogger)).

Definition InitLoggerFactoryByObj (loggerCfg : LoggerConfig)
  : Go (string → Logger) :=
  match Validate loggerCfg with
  | Some err => log_Fatal ("invalid logger configuration: " +:+ err)
  | None =>
      initLoggerFactory
        (LoggerName loggerCfg) (Level loggerCfg) (OutputFolder loggerCfg)
        (RotationBySize loggerCfg) (MaxFileSizeMB loggerCfg)
        (MaxLogFiles loggerCfg) (RotationIntervalHour loggerCfg)
        (EnableConsoleLog loggerCfg) (EnableSyslog loggerCfg)
        (SyslogHost loggerCfg) (SyslogPort loggerCfg)
        (SyslogProtocol loggerCfg)
  end.
End world.

(** ** The predecessor of the package, [logger/logger.go]

    Its file sink always writes [kodo.log]; its retention pass, its rotate
    operation and its rotation goroutine are the ones above. *)
Module Legacy.
Section legacy.
Context `{GoLib}.

Record Logger := mkLogger {
  logger : option nat;
  syslogger : option SyslogWriter;
  Destroy : Go unit;
  loglevel : Z;
}.

Definition Debugf (l : Logger) (format : string) (v : list any) : Go unit :=
  if decide (LogLevelDebug ≤ loglevel l) then
    match syslogger l with
    | Some _ => syslog_Send SevDebug ("debug: " +:+ format) v
    | None => mret tt
    end;;
    match logger l with
    | Some lg => log_Printf lg ("debug: " +:+ format) v
    | None => mret tt
    end
  else mret tt.

Definition Infof (l : Logger) (format : string) (v : list any) : Go unit :=
  if decide (LogLevelInfo ≤ loglevel l) then
    match syslogger l with
    | Some _ => syslog_Send SevInfo ("info: " +:+ format) v
    | None => mret tt
    end;;
    match logger l with
    | Some lg => log_Printf lg ("info: " +:+ format) v
    | None => mret tt
    end
  else mret tt.

Definition Errorf (l : Logger) (format : string) (v : list any) : Go unit :=
  match syslogger l with
  | Some _ => syslog_Send SevErr ("error: " +:+ format) v
  | None => mret tt
  end;;
  match logger l with
  | Some lg => log_Printf lg ("error: " +:+ format) v
  | None => mret tt
  end.

Definition createCustomFileLogger
    (loggerName logDir : string) (rotateBySize : bool)
    (maxSize maxLogFiles rotationInterval : Z) (EnableConsoleLog : bool)
  : Go (nat * Go unit) :=
  err ← os_MkdirAll;
  match err with
  | Some e => log_Fatal ("failed to create log directory: " +:+ e)
  | None =>
      let fileName := "kodo.log" in
      r ← os_OpenFile fileName;
      match r.2 with
      | Some e => log_Fatal ("failed to open log file: " +:+ e)
      | None =>
          let logFile := r.1 in
          (λ w, Returns tt (set_quitRotation false w));;
          (λ w, Returns tt
             (spawn (mkTask logDir fileName logFile rotateBySize maxSize
                            maxLogFiles rotationInterval) w));;
          let destroyFunc : Go unit :=
            (λ w, Returns tt (set_quitRotation true w));;
            match logFile with
            | Some _ => file_Close logFile;; mret tt
            | None => mret tt
            end in
          logger ← log_New EnableConsoleLog (loggerName +:+ ": ")
                           (Z.lor LstdFlags Lshortfile);
          mret (logger, destroyFunc)
      end
  end.

(** The constructor it returns hands out the one shared [Logger] after
    overwriting the prefix of the shared [*log.Logger]. *)
Definition InitLoggerFactory
    (loggerName logLevel logOutputFolder : string) (logRotationBySize : bool)
    (logMaxFileSize logMaxFiles logRotationIntervalHour : Z)
    (enableConsoleLog enableSyslog : bool) (syslogHost : string)
    (syslogPort : Z) (syslogProtocol : string)
  : Go (string → Go Logger) :=
  let loglevellc := ToLower logLevel in
  let myLogger_loglevel :=
    if decide (loglevellc = "debug") then LogLevelDebug
    else if decide (loglevellc = "info") then LogLevelInfo
    else if decide (loglevellc = "error") then LogLevelError
    else LogLevelInfo in
  let logRotationInterval := hoursDuration logRotationIntervalHour in
  r ← createCustomFileLogger loggerName logOutputFolder logRotationBySize
        logMaxFileSize logMaxFiles logRotationInterval enableConsoleLog;
  let myLogger_logger := r.1 in
  let locallogger_destroy := r.2 in
  s ← (if enableSyslog
       then createSysLogger loggerName syslogHost syslogPort syslogProtocol
       else mret (None, None));
  let myLogger_syslogger := s.1 in
  let syslogger_destroy := s.2 in
  let myLogger_Destroy : Go unit :=
    locallogger_destroy;;
    match syslogger_destroy with
    | Some d => d
    | None => mret tt
    end in
  let myLogger :=
    mkLogger (Some myLogger_logger) myLogger_syslogger myLogger_Destroy
             myLogger_loglevel in
  mret (λ logPrefix : string,
          match logger myLogger with
          | Some lg => log_SetPrefix lg (logPrefix +:+ ": ")
          | None =>
              panic "invalid memory address or nil pointer dereference"
          end;;
          mret myLogger).
End legacy.
End Legacy.

(** ** Vocabulary of the properties *)

(** Decimal digits written out, as the specification words the timestamp. *)
Definition dec2 (n : Z) : string :=
  String (digit (n / 10)) (String (digit (n `mod` 10)) "").

Definition dec4 (n : Z) : string :=
  String (digit (n / 1000))
         (String (digit ((n / 100) `mod` 10)) (dec2 (n `mod` 100))).

(** The suffix of a rotated file in the words of the specification:
    4-digit year, 2-digit month, 2-digit day, 2-digit hour, nothing else. *)
Definition suffix_YYYYMMDDHH (t : Time) : string :=
  dec4 (year t) +:+ dec2 (month t) +:+ dec2 (day t) +:+ dec2 (hour t).

(** The same digits with a hyphen between the day and the hour. *)
Definition suffix_YYYYMMDD_HH (t : Time) : string :=
  dec4 (year t) +:+ dec2 (month t) +:+ dec2 (day t) +:+ "-" +:+ dec2 (hour t).

(** The readings [time.Now] can give before the year 10000. *)
Definition validTime (t : Time) : Prop :=
  0 ≤ year t ≤ 9999 ∧ 1 ≤ month t ≤ 12 ∧ 1 ≤ day t ≤ 31 ∧ 0 ≤ hour t ≤ 23.

Section vocabulary.
Context `{GoLib}.

(** The value of [logFiles] after the sort, in a pass over directory [d]. *)
Definition logFilesOf (d : gmap string Entry) : list string :=
  sort_Strings
    (Name <$> filter (λ file : DirEntry,
                        Name file ≠ "kodo.log" ∧ IsDir file = false)
                     (merge_sort (λ a b, String.le (Name a) (Name b))
                                 (map_to_list d))).

(** The value of [filesToDelete]. *)
Definition filesToDeleteOf (maxLogFiles : Z) (d : gmap string Entry)
  : list string :=
  take (Z.to_nat (len (logFilesOf d) - maxLogFiles)) (logFilesOf d).

(** The line a failed removal leaves on the diagnostic stream. *)
Definition deleteFailure (folder file : string) (e : error) : Event :=
  Stdout ("failed to delete old log file " +:+ filepath_Join folder file
          +:+ ": " +:+ e).

(** The world after the removal loop has gone through [l]. *)
Fixpoint removals (folder : string) (l : list string) (w : World) : World :=
  match l with
  | [] => w
  | n :: l' =>
      removals folder l'
        (match removeErr (faults w) n with
         | Some e => emit (deleteFailure folder n e) w
         | None => set_dir (delete n (dir w)) w
         end)
  end.

(** The rotated files of logger [loggerName] in directory [d]: the regular
    files other than the main log file [loggerName.log]. *)
Definition rotatedFiles (loggerName : string) (d : gmap string Entry)
  : gset string :=
  dom (filter (λ f : DirEntry,
                 Name f ≠ loggerName +:+ ".log" ∧ IsDir f = false) d).

Definition emitAll (evs : list Event) (w : World) : World :=
  foldl (λ w e, emit e w) w evs.

(** What a call with composed format [format] hands to the sinks of view
    [l] in world [w]: one send per sink that is not nil. *)
Definition toSyslog (l : Logger) (sev : Severity) (format : string)
    (v : list any) : list Event :=
  match syslogger l with
  | Some _ => [SyslogSend sev format v]
  | None => []
  end.

Definition toLogger (l : Logger) (w : World) (format : string)
    (v : list any) : list Event :=
  match logger l ≫= (λ id, logs w !! id) with
  | Some lg => [LogLine lg format v]
  | None => []
  end.

(** The [*log.Logger] of the view, when it has one, is allocated. *)
Definition logger_ok (l : Logger) (w : World) : Prop :=
  ∀ id, logger l = Some id → is_Some (logs w !! id).

(** The composed format string a sink was handed. *)
Definition event_format (e : Event) : option string :=
  match e with
  | SyslogSend _ f _ | LogLine _ f _ => Some f
  | Stdout _ | Stderr _ => None
  end.

Inductive Method := MDebugf | MInfof | MErrorf.

Definition call (m : Method) :=
  match m with MDebugf => Debugf | MInfof => Infof | MErrorf => Errorf end.

Definition tag (m : Method) : string :=
  match m with
  | MDebugf => "debug: " | MInfof => "info: " | MErrorf => "error: "
  end.

Definition severity (m : Method) : Severity :=
  match m with MDebugf => SevDebug | MInfof => SevInfo | MErrorf => SevErr end.

(** A call is accepted when the threshold of the view lets it through. *)
Definition accepted (m : Method) (l : Logger) : Prop :=
  match m with
  | MDebugf => LogLevelDebug ≤ loglevel l
  | MInfof => LogLevelInfo ≤ loglevel l
  | MErrorf => True
  end.

Global Instance accepted_dec m l : Decision (accepted m l) :=
  match m with
  | MDebugf => decide (LogLevelDebug ≤ loglevel l)
  | MInfof => decide (LogLevelInfo ≤ loglevel l)
  | MErrorf => left I
  end.

Definition callerSegment (l : Logger) (callers : CallStack) : string :=
  if decide (LogLevelDebug ≤ loglevel l)
  then getCallerFuncName callers +:+ ": " else "".
End vocabulary.

(** ** Vocabulary of the further properties *)

(** Whether byte [c] occurs in [s]. *)
Fixpoint occurs (c : ascii) (s : string) : bool :=
  match s with
  | EmptyString => false
  | String a s' => bool_decide (a = c) || occurs c s'
  end.

(** The two bytes [getCallerFuncName] cuts a qualified name at. *)
Definition isSeparator (c : ascii) : Prop := c = "/"%char ∨ c = "."%char.

Section further_vocabulary.
Context `{GoLib}.

(** The shutdown hook of a file sink whose file is [logFile]. *)
Definition shutdownFile (logFile : option nat) : Go unit :=
  (λ w, Returns tt (set_quitRotation true w));;
  match logFile with
  | Some _ => file_Close logFile;; mret tt
  | None => mret tt
  end.

(** The syslog writer a factory ends up with. *)
Definition syslogSink (enableSyslog : bool) (loggerName host : string)
    (port : Z) (protocol : string) (f : Faults) : option SyslogWriter :=
  if enableSyslog then
    if decide (protocol = "udp" ∨ protocol = "tcp") then
      match dialErr f with
      | None =>
          Some (mkSyslogWriter protocol (host +:+ ":" +:+ fmt_d port)
                               loggerName)
      | Some _ => None
      end
    else None
  else None.

(** What the factory prints while it sets up syslog. *)
Definition syslogDiagnostic (enableSyslog : bool) (protocol : string)
    (f : Faults) : list Event :=
  if enableSyslog then
    if decide (protocol = "udp" ∨ protocol = "tcp") then
      match dialErr f with
      | None => []
      | Some e => [Stdout ("failed to connect to syslog: " +:+ e)]
      end
    else [Stdout ("invalid syslog protocol: " +:+ protocol +:+
                  ". Use 'udp' or 'tcp'.")]
  else [].

(** The threshold the factory derives from the level string. *)
Definition thresholdOf (logLevel : string) : Z :=
  if decide (ToLower logLevel = "debug") then LogLevelDebug
  else if decide (ToLower logLevel = "error") then LogLevelError
  else LogLevelInfo.

(** The directory after [os.OpenFile] with [O_CREATE] and without
    [O_TRUNC]. *)
Definition opened (name : string) (d : gmap string Entry)
  : gmap string Entry :=
  match d !! name with
  | None => <[name := File ""]> d
  | Some _ => d
  end.

(** The facade method of the predecessor that corresponds to [m]. *)
Definition legacyCall (m : Method) :=
  match m with
  | MDebugf => Legacy.Debugf
  | MInfof => Legacy.Infof
  | MErrorf => Legacy.Errorf
  end.

(** A view of the current package over the sinks of a legacy logger. *)
Definition upgrade (p : string) (l : Legacy.Logger) : Logger :=
  mkLogger (Legacy.logger l) p (Legacy.syslogger l) (Legacy.Destroy l)
           (Legacy.loglevel l).
End further_vocabulary.

(** ** Concrete inputs *)

(** A runtime for running the definitions: variadic payloads are strings, and
    the non-ASCII fallback of [strings.ToLower] is the identity. *)
Definition plainLib : GoLib := {| any := string; unicode_ToLower := id |}.

(** A clock that always shows the same instant. *)
Definition frozen (t : Time) : nat → Time := λ _, t.

(** A directory of regular files, each holding its own name. *)
Definition filesOf (names : list string) : gmap string Entry :=
  list_to_map ((λ n, (n, File n)) <$> names).

Definition world0 `{GoLib} (d : gmap string Entry) (t : Time) (f : Faults)
  : World :=
  mkWorld d ∅ ∅ [] (frozen t) O false [] f.

Definition t0 : Time := mkTime 2024 3 7 9.

Definition w_fresh : @World plainLib := world0 ∅ t0 noFaults.

(** Two rotated files of an earlier run of logger [app]. *)
Definition w_prev2 : @World plainLib :=
  world0 (filesOf ["app.log.20240101-00"; "app.log.20240101-01"]) t0 noFaults.

(** Removing [name] is refused; everything else succeeds. *)
Definition denyRemove (name : string) : Faults :=
  mkFaults None None None None None
    (λ n, if decide (n = name) then Some "operation not permitted" else None)
    None (inl 0).

Definition w_kodo3 : @World plainLib :=
  world0 (filesOf ["kodo.log"; "kodo.log.20240101-00"; "kodo.log.20240101-01";
                   "kodo.log.20240101-02"])
         t0 (denyRemove "kodo.log.20240101-00").

Definition w_kodo5 : @World plainLib :=
  world0 (<["archive" := Dir]>
            (filesOf ["kodo.log"; "kodo.log.20240101-00";
                      "kodo.log.20240101-01"; "kodo.log.20240101-02";
                      "kodo.log.20240101-03"; "kodo.log.20240101-04"]))
         t0 noFaults.

(** The main log file of logger [app], open under handle 0. *)
Definition w_rot : @World plainLib :=
  mkWorld (filesOf ["app.log"]) {[ O := mkHandle "app.log" true ]} ∅ []
          (frozen t0) O false [] noFaults.

Definition w_noon : @World plainLib :=
  mkWorld (filesOf ["app.log"]) {[ O := mkHandle "app.log" true ]} ∅ []
          (frozen (mkTime 2024 3 7 12)) O false [] noFaults.

Definition task_6h : Task :=
  mkTask "logs" "app.log" (Some O) false 0 3 (hoursDuration 6).

Definition cfg_warn : LoggerConfig :=
  mkLoggerConfig "app" "warn" false false "" 0 "" "logs" true 10 3 0.

Definition cfg_minimal : LoggerConfig :=
  mkLoggerConfig "app" "info" false false "" 0 "" "" true 10 3 0.

(** Time-based rotation every 2^51 hours. *)
Definition cfg_huge : LoggerConfig :=
  mkLoggerConfig "app" "info" false false "" 0 "" "logs" false 0 3 (2 ^ 51).

Definition view_db : @Logger plainLib :=
  mkLogger (Some O) "db: " None (mret tt) LogLevelDebug.

Definition w_logger : @World plainLib :=
  mkWorld ∅ ∅ {[ O := mkLogObj "app: " LstdFlags false ]} []
          (frozen t0) O false [] noFaults.

(** Every call succeeds and the open log file is [n] bytes long. *)
Definition sizeFaults (n : Z) : Faults :=
  mkFaults None None None None None (λ _, None) None (inl n).

(** Logger [app] with one rotated file, its main log file open under handle
    0 and 100 bytes long. *)
Definition w_app2 : @World plainLib :=
  mkWorld (filesOf ["app.log"; "app.log.20240101-00"])
          {[ O := mkHandle "app.log" true ]} ∅ []
          (frozen t0) O false [] (sizeFaults 100).

Definition task_size : Task :=
  mkTask "logs" "app.log" (Some O) true 10 2 0.


(** The main log file is no longer in the folder. *)
Definition w_gone : @World plainLib :=
  mkWorld ∅ {[ O := mkHandle "app.log" true ]} ∅ []
          (frozen t0) O false [] noFaults.

(** No file can be opened. *)
Definition w_nofd : @World plainLib :=
  mkWorld (filesOf ["app.log"]) {[ O := mkHandle "app.log" true ]} ∅ []
          (frozen t0) O false []
          (mkFaults None (Some "too many open files") None None None
                    (λ _, None) None (inl 0)).

Definition task_48h : Task :=
  mkTask "logs" "app.log" (Some O) false 0 3 (hoursDuration 48).

(** Syslog over [UDP], spelled in capitals. *)
Definition cfg_upper : LoggerConfig :=
  mkLoggerConfig "app" "INFO" false true "loghost" 514 "UDP" "logs" true 10 3 0.

Definition legacy_view : @Legacy.Logger plainLib :=
  Legacy.mkLogger (Some O) None (mret tt) LogLevelInfo.

(** Time-based rotation every 2^51 + 1 hours. *)
Definition cfg_wrap : LoggerConfig :=
  mkLoggerConfig "app" "info" false false "" 0 "" "logs" false 0 3
                 (2 ^ 51 + 1).

(** The size limit of [task_size] raised above the 100 bytes of [w_app2]. *)
Definition task_roomy : Task :=
  mkTask "logs" "app.log" (Some O) true 1000 2 0.

(** [cfg_minimal] with other values in the fields that are not in use. *)
Definition cfg_other : LoggerConfig :=
  mkLoggerConfig "app" "info" true false "ignored" 99999 "smtp" "/var/log"
                 true 10 3 (-5).

(** * Properties *)

Section properties.
Context `{GoLib}.

(** ** Running the monad *)

Lemma bind_Returns {A B} (m : Go A) (f : A → Go B) w a w' :
  m w = Returns a w' → (m ≫= f) w = f a w'.
Proof. intros E. unfold mbind, Go_bind. by rewrite E. Qed.

Lemma forEach_cons {A} (x : A) l body w :
  forEach (x :: l) body w
  = match body x w with
    | Returns _ w' => forEach l body w'
    | Panics r w' => Panics r w'
    | Exits c w' => Exits c w'
    end.
Proof. reflexivity. Qed.

(** ** Strings and timestamps *)

Lemma app_cons a s1 s2 : String a s1 +:+ s2 = String a (s1 +:+ s2).
Proof. reflexivity. Qed.

Lemma app_empty_r s : s +:+ "" = s.
Proof. induction s as [|a s IH]; [done|]. by rewrite app_cons, IH. Qed.

Lemma length_app s1 s2 :
  String.length (s1 +:+ s2) = (String.length s1 + String.length s2)%nat.
Proof.
  induction s1 as [|a s1 IH]; [done|]. rewrite app_cons. simpl. by rewrite IH.
Qed.

Lemma app_ne_self s a x : s +:+ String a x ≠ s.
Proof.
  intros Heq. apply (f_equal String.length) in Heq.
  rewrite length_app in Heq. simpl in Heq. lia.
Qed.

Lemma prepend_ne_self p x a y rest :
  p +:+ (x +:+ String a y) +:+ rest ≠ p +:+ rest.
Proof.
  intros Heq%(inj (String.app p)).
  apply (f_equal String.length) in Heq.
  rewrite !length_app in Heq. simpl in Heq. lia.
Qed.

Lemma decimal_step fuel u acc :
  10 ≤ u →
  decimal (S fuel) u acc = decimal fuel (u / 10) (String (digit (u `mod` 10)) acc).
Proof. intros Hu. simpl. by rewrite bool_decide_eq_true_2. Qed.

Lemma decimal_last fuel u acc :
  u < 10 → decimal (S fuel) u acc = String (digit u) acc.
Proof. intros Hu. simpl. by rewrite bool_decide_eq_false_2 by lia. Qed.

Lemma appendInt_2 x : 0 ≤ x < 100 → appendInt x 2 = dec2 x.
Proof.
  intros Hx. unfold appendInt, dec2.
  rewrite bool_decide_eq_false_2 by lia. rewrite Z.abs_eq by lia.
  destruct (decide (x < 10)) as [Hs|Hs].
  - rewrite decimal_last by done.
    rewrite Z.div_small, Z.mod_small by lia. reflexivity.
  - rewrite decimal_step by lia.
    rewrite decimal_last by (Z.div_mod_to_equations; lia).
    reflexivity.
Qed.

Lemma appendInt_4 x : 0 ≤ x < 10000 → appendInt x 4 = dec4 x.
Proof.
  intros Hx. unfold appendInt, dec4, dec2.
  rewrite bool_decide_eq_false_2 by lia. rewrite Z.abs_eq by lia.
  assert (H1 : x / 10 / 10 = x / 100) by (rewrite Z.div_div by lia; done).
  assert (H2 : x / 100 / 10 = x / 1000) by (rewrite Z.div_div by lia; done).
  assert (H3 : (x `mod` 100) / 10 = (x / 10) `mod` 10)
    by (Z.div_mod_to_equations; lia).
  assert (H4 : (x `mod` 100) `mod` 10 = x `mod` 10)
    by (Z.div_mod_to_equations; lia).
  rewrite H3, H4.
  destruct (decide (x < 10)) as [Ha|Ha].
  { rewrite decimal_last by done.
    rewrite (Z.div_small x 1000), (Z.div_small x 100), (Z.div_small x 10),
      (Z.mod_small x 10), (Z.mod_small 0 10) by lia.
    reflexivity. }
  rewrite decimal_step by lia.
  destruct (decide (x < 100)) as [Hb|Hb].
  { rewrite decimal_last by (Z.div_mod_to_equations; lia).
    rewrite (Z.div_small x 1000), (Z.div_small x 100), (Z.mod_small 0 10),
      (Z.mod_small (x / 10) 10) by (Z.div_mod_to_equations; lia).
    reflexivity. }
  rewrite decimal_step by (Z.div_mod_to_equations; lia).
  rewrite H1.
  destruct (decide (x < 1000)) as [Hc|Hc].
  { rewrite decimal_last by (Z.div_mod_to_equations; lia).
    rewrite (Z.div_small x 1000) by lia.
    rewrite (Z.mod_small (x / 100) 10) by (Z.div_mod_to_equations; lia).
    reflexivity. }
  rewrite decimal_step by (Z.div_mod_to_equations; lia).
  rewrite H2.
  rewrite decimal_last by (Z.div_mod_to_equations; lia).
  reflexivity.
Qed.

(** The layout of [rotateLogFile] puts a hyphen before the hour. *)
Lemma Format_layout t :
  validTime t → Format t "20060102-15" = suffix_YYYYMMDD_HH t.
Proof.
  intros (Hy & Hm & Hd & Hh).
  change (Format t "20060102-15")
    with (appendInt (year t) 4 +:+ appendInt (month t) 2 +:+
          appendInt (day t) 2 +:+ "-" +:+ appendInt (hour t) 2 +:+ "").
  rewrite app_empty_r.
  rewrite appendInt_4, !appendInt_2 by lia. done.
Qed.

(** ** Durations *)

Lemma wrap64_id x : int64_range x → wrap64 x = x.
Proof. unfold int64_range, wrap64. intros Hx. rewrite Z.mod_small; lia. Qed.

(** Up to 2562047 hours the conversion to a duration and back is exact. *)
Lemma intHours_hoursDuration n :
  -2562047 ≤ n ≤ 2562047 → intHours (hoursDuration n) = n.
Proof.
  intros Hn. unfold intHours, hoursDuration.
  rewrite (wrap64_id n) by (unfold int64_range; lia).
  rewrite wrap64_id by (unfold int64_range, Hour; lia).
  apply Z.quot_mul. unfold Hour. lia.
Qed.

(** ** The validator *)

Lemma outside_levels x :
  x ≠ "error" ∧ x ≠ "info" ∧ x ≠ "debug" ↔ x ∉ ["error"; "info"; "debug"].
Proof. rewrite !not_elem_of_cons. pose proof (not_elem_of_nil x). tauto. Qed.

Lemma outside_protocols x :
  x ≠ "udp" ∧ x ≠ "tcp" ↔ x ∉ ["udp"; "tcp"].
Proof. rewrite !not_elem_of_cons. pose proof (not_elem_of_nil x). tauto. Qed.

(** C4, as amended.  [Validate] compares the severity and the syslog
    protocol after [strings.ToLower], so letter case does not matter.  It
    returns an error exactly for the configurations with an empty name, or a
    severity that lower-cased is outside error, info, debug, or syslog
    enabled with an empty host, a port outside 1..65535 or a protocol that
    lower-cased is outside udp, tcp, or by-size rotation with a maximal size
    that is not positive, or by-time rotation with an interval that is not
    positive, or a retention count that is not positive; and it returns nil
    for every configuration with a name, Level=info, syslog disabled,
    RotationBySize=true, MaxFileSizeMB=10 and MaxLogFiles=3. *)
Theorem Validate_rejects_invalid_accepts_minimal :
  (∀ c,
     is_Some (Validate c) ↔
       LoggerName c = ""
       ∨ ToLower (Level c) ∉ ["error"; "info"; "debug"]
       ∨ (EnableSyslog c = true
          ∧ (SyslogHost c = ""
             ∨ ¬ (1 ≤ SyslogPort c ≤ 65535)
             ∨ ToLower (SyslogProtocol c) ∉ ["udp"; "tcp"]))
       ∨ (RotationBySize c = true ∧ MaxFileSizeMB c ≤ 0)
       ∨ (RotationBySize c = false ∧ RotationIntervalHour c ≤ 0)
       ∨ MaxLogFiles c ≤ 0)
  ∧ (∀ c,
       LoggerName c ≠ "" → Level c = "info" → EnableSyslog c = false →
       RotationBySize c = true → MaxFileSizeMB c = 10 → MaxLogFiles c = 3 →
       Validate c = None).
Proof.
  split.
  - intros c. unfold Validate.
    destruct (decide (LoggerName c = "")) as [Hn|Hn];
      [split; [intros _; by left|by eauto]|].
    destruct (decide (_ ∧ _ ∧ _)) as [Hl|Hl];
      [split; [intros _; right; left; by apply outside_levels|by eauto]|].
    rewrite outside_levels in Hl.
    destruct (EnableSyslog c) eqn:Hsys.
    + destruct (decide (SyslogHost c = "")) as [Hh|Hh];
        [split; [intros _; tauto|by eauto]|].
      destruct (decide (_ ∨ _)) as [Hp|Hp];
        [split; [intros _; right; right; left; split; [done|]; right; left; lia
                |by eauto]|].
      destruct (decide (_ ∧ _)) as [Hq|Hq];
        [split; [intros _; right; right; left; split; [done|]; right; right;
                 by apply outside_protocols|by eauto]|].
      rewrite outside_protocols in Hq.
      destruct (RotationBySize c).
      * destruct (decide (MaxFileSizeMB c ≤ 0));
          [split; [intros _; tauto|by eauto]|].
        destruct (decide (MaxLogFiles c ≤ 0));
          [split; [intros _; tauto|by eauto]|].
        split; [by intros [? ?]|].
        intros [?|[?|[[_ [?|[?|?]]]|[[_ ?]|[[? _]|?]]]]]; try done. lia.
      * destruct (decide (RotationIntervalHour c ≤ 0));
          [split; [intros _; tauto|by eauto]|].
        destruct (decide (MaxLogFiles c ≤ 0));
          [split; [intros _; tauto|by eauto]|].
        split; [by intros [? ?]|].
        intros [?|[?|[[_ [?|[?|?]]]|[[? _]|[[_ ?]|?]]]]]; try done. lia.
    + destruct (RotationBySize c).
      * destruct (decide (MaxFileSizeMB c ≤ 0));
          [split; [intros _; tauto|by eauto]|].
        destruct (decide (MaxLogFiles c ≤ 0));
          [split; [intros _; tauto|by eauto]|].
        split; [by intros [? ?]|].
        intros [?|[?|[[? _]|[[_ ?]|[[? _]|?]]]]]; done.
      * destruct (decide (RotationIntervalHour c ≤ 0));
          [split; [intros _; tauto|by eauto]|].
        destruct (decide (MaxLogFiles c ≤ 0));
          [split; [intros _; tauto|by eauto]|].
        split; [by intros [? ?]|].
        intros [?|[?|[[? _]|[[? _]|[[_ ?]|?]]]]]; done.
  - intros c Hname Hlevel Hsys Hrot Hsize Hfiles. unfold Validate.
    rewrite Hlevel, Hsys, Hrot, Hsize, Hfiles.
    change (ToLower "info") with "info".
    rewrite decide_False by done.
    rewrite decide_False by (intros (_ & ? & _); done).
    rewrite decide_False by lia.
    by rewrite decide_False by lia.
Qed.

(** ** The retention pass *)


Lemma logFilesOf_perm d :
  logFilesOf d ≡ₚ
    Name <$> filter (λ file : DirEntry,
                       Name file ≠ "kodo.log" ∧ IsDir file = false)
                    (map_to_list d).
Proof.
  unfold logFilesOf, sort_Strings.
  rewrite merge_sort_Permutation.
  by rewrite merge_sort_Permutation.
Qed.

Lemma isFile_IsDir (f : DirEntry) :
  IsDir f = false ↔ ∃ data, f.2 = File data.
Proof.
  destruct f as [n [data|]]; unfold IsDir; simpl;
    (split; [intros ?|intros [? ?]]); try done; eauto.
Qed.

Lemma elem_of_logFilesOf d n :
  n ∈ logFilesOf d ↔ n ≠ "kodo.log" ∧ ∃ data, d !! n = Some (File data).
Proof.
  rewrite logFilesOf_perm, list_elem_of_fmap. split.
  - intros (f & -> & Hin). apply list_elem_of_filter in Hin as [[Hne Hf] Hin].
    destruct f as [n' e]. apply elem_of_map_to_list in Hin. apply isFile_IsDir in Hf as [data Hd].
    simpl in *. subst e. eauto.
  - intros [Hne [data Hd]]. exists (n, File data). split; [done|].
    apply list_elem_of_filter. split; [done|]. by apply elem_of_map_to_list.
Qed.

Lemma NoDup_logFilesOf d : NoDup (logFilesOf d).
Proof.
  rewrite logFilesOf_perm.
  apply (sublist_NoDup _ ((map_to_list d).*1)).
  - apply NoDup_fst_map_to_list.
  - apply fmap_sublist, sublist_filter.
Qed.

Lemma Sorted_logFilesOf d : StronglySorted String.le (logFilesOf d).
Proof. apply (StronglySorted_merge_sort _). Qed.

Lemma faults_removals folder l w : faults (removals folder l w) = faults w.
Proof.
  revert w. induction l as [|n l IH]; intros w; simpl; [done|].
  rewrite IH. by destruct (removeErr (faults w) n).
Qed.

Lemma dir_removals folder l w n :
  dir (removals folder l w) !! n
  = if decide (n ∈ l ∧ removeErr (faults w) n = None)
    then None else dir w !! n.
Proof.
  revert w. induction l as [|m l IH]; intros w; cbn [removals].
  - rewrite decide_False; [done|]. intros [Hd _]. by apply elem_of_nil in Hd.
  - rewrite IH.
    destruct (removeErr (faults w) m) as [e|] eqn:Em; cbn [faults dir emit set_dir].
    + destruct (decide (n ∈ l ∧ _)) as [[? ?]|Hn].
      * rewrite decide_True; [done|]. split; [set_solver|done].
      * rewrite decide_False; [done|]. intros [[->|?]%elem_of_cons ?]; [congruence|].
        by apply Hn.
    + destruct (decide (n ∈ l ∧ _)) as [[? ?]|Hn].
      * rewrite decide_True; [done|]. split; [set_solver|done].
      * destruct (decide (n = m)) as [->|Hne].
        -- rewrite decide_True by (split; [set_solver|done]).
           by rewrite lookup_delete_eq.
        -- rewrite lookup_delete_ne by done.
           rewrite decide_False; [done|].
           intros [[->|?]%elem_of_cons ?]; [done|]. by apply Hn.
Qed.

Lemma trace_removals folder l w :
  trace (removals folder l w)
  = trace w ++ omap (λ n, deleteFailure folder n <$> removeErr (faults w) n) l.
Proof.
  revert w. induction l as [|m l IH]; intros w; simpl.
  - by rewrite app_nil_r.
  - rewrite IH. destruct (removeErr (faults w) m) as [e|] eqn:Em; simpl.
    + by rewrite <-app_assoc.
    + done.
Qed.

Lemma removal_loop folder l w :
  NoDup l →
  (∀ n, n ∈ l → ∃ data, dir w !! n = Some (File data)) →
  forEach l (λ file,
    let filePath := filepath_Join folder file in
    err ← os_Remove file;
    match err with
    | Some e =>
        fmt_Print ("failed to delete old log file " +:+ filePath +:+
                   ": " +:+ e)
    | None => mret tt
    end) w
  = Returns tt (removals folder l w).
Proof.
  revert w. induction l as [|n l IH]; intros w Hnd Hfiles; [done|].
  apply NoDup_cons in Hnd as [Hn Hnd].
  rewrite forEach_cons.
  destruct (Hfiles n) as [data Hd]; [set_solver|].
  unfold mbind, Go_bind, os_Remove. rewrite Hd. simpl.
  destruct (removeErr (faults w) n) as [e|] eqn:Em; simpl.
  - apply IH; [done|]. intros m Hm. apply Hfiles. set_solver.
  - apply IH; [done|]. intros m Hm. simpl.
    rewrite lookup_delete_ne by set_solver. apply Hfiles. set_solver.
Qed.

Lemma filesToDeleteOf_sub k d n :
  n ∈ filesToDeleteOf k d → n ∈ logFilesOf d.
Proof.
  unfold filesToDeleteOf. intros Hn.
  eapply elem_of_sublist; [exact Hn|apply sublist_take].
Qed.

Lemma cleanup_run folder k w :
  readDirErr (faults w) = None → 0 ≤ k →
  cleanupLogFiles folder k w
  = Returns tt (removals folder (filesToDeleteOf k (dir w)) w).
Proof.
  intros Hrd Hk. unfold cleanupLogFiles, mbind, Go_bind, os_ReadDir.
  rewrite Hrd. fold (logFilesOf (dir w)).
  case_decide as Hlen.
  - rewrite decide_False by lia.
    apply removal_loop.
    + eapply sublist_NoDup; [apply NoDup_logFilesOf|apply sublist_take].
    + intros n Hn%filesToDeleteOf_sub. by apply elem_of_logFilesOf in Hn as [_ ?].
  - unfold filesToDeleteOf. replace (Z.to_nat _) with O by lia. done.
Qed.

Lemma cleanup_listing_fails folder k w e :
  readDirErr (faults w) = Some e →
  cleanupLogFiles folder k w
  = Returns tt
      (emit (Stdout ("failed to read log output folder: " +:+ e +:+ nl)) w).
Proof.
  intros Hrd. unfold cleanupLogFiles, mbind, Go_bind, os_ReadDir.
  by rewrite Hrd.
Qed.

Lemma elem_of_rotatedFiles loggerName d n :
  n ∈ rotatedFiles loggerName d
  ↔ n ≠ loggerName +:+ ".log" ∧ ∃ data, d !! n = Some (File data).
Proof.
  unfold rotatedFiles. rewrite elem_of_dom. unfold is_Some.
  setoid_rewrite map_lookup_filter_Some. split.
  - intros (e & He & Hne & Hf). apply isFile_IsDir in Hf as [data Hd].
    simpl in *. subst e. eauto.
  - intros (Hne & data & Hd). exists (File data). done.
Qed.

Lemma logFilesOf_split k d :
  logFilesOf d
  = filesToDeleteOf k d ++ drop (Z.to_nat (len (logFilesOf d) - k)) (logFilesOf d).
Proof. unfold filesToDeleteOf. by rewrite take_drop. Qed.

Lemma kept_iff k d n :
  n ∈ drop (Z.to_nat (len (logFilesOf d) - k)) (logFilesOf d)
  ↔ n ∈ logFilesOf d ∧ n ∉ filesToDeleteOf k d.
Proof.
  pose proof (NoDup_logFilesOf d) as Hnd.
  rewrite (logFilesOf_split k d) in Hnd. apply NoDup_app in Hnd as (_ & Hdisj & _).
  assert (n ∈ logFilesOf d ↔ n ∈ filesToDeleteOf k d ∨
          n ∈ drop (Z.to_nat (len (logFilesOf d) - k)) (logFilesOf d)) as ->.
  { by rewrite <-elem_of_app, <-logFilesOf_split. }
  split; [|tauto]. intros Hn. split; [tauto|]. intros Hd. by apply (Hdisj n).
Qed.

Lemma deleted_before_kept k d n m :
  n ∈ filesToDeleteOf k d →
  m ∈ drop (Z.to_nat (len (logFilesOf d) - k)) (logFilesOf d) →
  String.le n m ∧ n ≠ m.
Proof.
  intros Hn Hm. split.
  - pose proof (Sorted_logFilesOf d) as Hs.
    rewrite (logFilesOf_split k d) in Hs.
    by apply (StronglySorted_app_1_elem_of _ _ _ _ _ Hs).
  - intros ->. by apply kept_iff in Hm as [_ ?].
Qed.

(** C3, as amended.  For every MaxLogFiles k > 0 and every directory state in
    which the listing and every removal succeed and in which the name the
    pass leaves out stands for the main log file, after one cleanup pass at
    most k rotated files (regular files other than the main log file)
    remain: as many as there were, or k if there were more.  What the pass
    deletes are rotated files, every deleted name is smaller than every
    remaining one, every other entry is left as it was, and when at most k
    rotated files are present the directory is unchanged. *)
Theorem cleanup_keeps_newest loggerName folder k w :
  0 < k →
  readDirErr (faults w) = None →
  (∀ n, removeErr (faults w) n = None) →
  (∀ n data, dir w !! n = Some (File data) →
             n = "kodo.log" ↔ n = loggerName +:+ ".log") →
  ∃ w', cleanupLogFiles folder k w = Returns tt w' ∧
    let before := rotatedFiles loggerName (dir w) in
    let after := rotatedFiles loggerName (dir w') in
    let deleted := before ∖ after in
    Z.of_nat (size after) ≤ k ∧
    size after = (size before `min` Z.to_nat k)%nat ∧
    after ⊆ before ∧
    (∀ n, n ∈ deleted → dir w' !! n = None) ∧
    (∀ n, n ∉ deleted → dir w' !! n = dir w !! n) ∧
    (∀ n m, n ∈ deleted → m ∈ after → String.le n m ∧ n ≠ m) ∧
    (Z.of_nat (size before) ≤ k → dir w' = dir w).
Proof.
  intros Hk Hrd Hrm Hagree.
  exists (removals folder (filesToDeleteOf k (dir w)) w).
  split; [apply cleanup_run; [done|lia]|].
  set (L := logFilesOf (dir w)).
  set (D := filesToDeleteOf k (dir w)).
  set (K := drop (Z.to_nat (len L - k)) L).
  assert (F1 : ∀ n, dir (removals folder D w) !! n
                    = if decide (n ∈ D) then None else dir w !! n).
  { intros n. rewrite dir_removals.
    destruct (decide (n ∈ D)) as [Hn|Hn].
    - by rewrite decide_True.
    - rewrite decide_False; [done|]. by intros [? _]. }
  assert (F2 : ∀ n, n ∈ rotatedFiles loggerName (dir w) ↔ n ∈ L).
  { intros n. unfold L. rewrite elem_of_rotatedFiles, elem_of_logFilesOf.
    split; intros (Hne & data & Hd); (split; [|by eauto]);
      intros Heq; apply Hne; by apply (Hagree n data Hd). }
  assert (F3 : ∀ n, n ∈ rotatedFiles loggerName (dir (removals folder D w))
                    ↔ n ∈ K).
  { intros n. unfold K, L. rewrite kept_iff. fold L D. rewrite <-F2.
    rewrite !elem_of_rotatedFiles, F1.
    destruct (decide (n ∈ D)); [|tauto].
    split; [intros (_ & ? & ?); done | tauto]. }
  assert (Hbefore : rotatedFiles loggerName (dir w) = list_to_set L).
  { apply set_eq. intros n. by rewrite F2, elem_of_list_to_set. }
  assert (Hafter : rotatedFiles loggerName (dir (removals folder D w))
                   = list_to_set K).
  { apply set_eq. intros n. by rewrite F3, elem_of_list_to_set. }
  assert (HndL : NoDup L) by apply NoDup_logFilesOf.
  assert (HndK : NoDup K).
  { eapply sublist_NoDup; [exact HndL|apply sublist_drop]. }
  assert (Hdel : ∀ n, n ∈ rotatedFiles loggerName (dir w)
                        ∖ rotatedFiles loggerName (dir (removals folder D w))
                      ↔ n ∈ D).
  { intros n. rewrite elem_of_difference, F2, F3. unfold K, L.
    rewrite kept_iff. fold L D.
    split.
    - intros [HL Hn]. destruct (decide (n ∈ D)); [done|]. exfalso; tauto.
    - intros Hn. split; [by apply (filesToDeleteOf_sub k)|tauto]. }
  cbv zeta. rewrite Hbefore, Hafter, !size_list_to_set by done.
  rewrite <-Hbefore, <-Hafter.
  unfold K at 1 2. rewrite length_drop. unfold len.
  split_and!.
  - lia.
  - lia.
  - intros n. rewrite F2, F3. unfold K. apply subseteq_drop.
  - intros n Hn%Hdel. rewrite F1. by rewrite decide_True.
  - intros n Hn. rewrite F1. rewrite decide_False; [done|]. by rewrite <-Hdel.
  - intros n m Hn%Hdel Hm%F3. by apply (deleted_before_kept k (dir w)).
  - intros Hle. apply map_eq. intros n. rewrite F1.
    rewrite decide_False; [done|]. unfold D, filesToDeleteOf. fold L.
    replace (Z.to_nat (len L - k)) with O by (unfold len; lia).
    apply not_elem_of_nil.
Qed.

(** C9.  Retention failures are not fatal.  When listing the output folder
    fails, [cleanupLogFiles] writes the failure to the diagnostic stream and
    returns with the directory unchanged.  When the listing succeeds it
    returns as well, and every candidate it set out to delete is dealt with
    on its own: one whose removal fails is still there and has its failure
    on the diagnostic stream, one whose removal succeeds is gone, whatever
    happened to the candidates before it; all other entries are untouched.
    In both cases the call returns: it neither panics nor exits. *)
Theorem cleanup_failures_are_not_fatal folder k w :
  0 ≤ k →
  (∀ e, readDirErr (faults w) = Some e →
     ∃ w', cleanupLogFiles folder k w = Returns tt w' ∧
       dir w' = dir w ∧
       trace w' = trace w ++
         [Stdout ("failed to read log output folder: " +:+ e +:+ nl)])
  ∧ (readDirErr (faults w) = None →
     ∃ w', cleanupLogFiles folder k w = Returns tt w' ∧
       (∀ n, n ∈ filesToDeleteOf k (dir w) →
          match removeErr (faults w) n with
          | Some e => dir w' !! n = dir w !! n
                      ∧ deleteFailure folder n e ∈ trace w'
          | None => dir w' !! n = None
          end)
       ∧ (∀ n, n ∉ filesToDeleteOf k (dir w) → dir w' !! n = dir w !! n)).
Proof.
  intros Hk. split.
  - intros e He. eexists. split; [by apply cleanup_listing_fails|done].
  - intros Hrd. eexists. split; [by apply cleanup_run|]. split.
    + intros n Hn. destruct (removeErr (faults w) n) as [e|] eqn:Hr.
      * split.
        -- rewrite dir_removals. rewrite decide_False; [done|].
           intros [_ ?]. congruence.
        -- rewrite trace_removals. apply elem_of_app. right.
           apply list_elem_of_omap. exists n. split; [done|]. by rewrite Hr.
      * rewrite dir_removals. by rewrite decide_True.
    + intros n Hn. rewrite dir_removals. rewrite decide_False; [done|].
      by intros [? _].
Qed.

(** The one name the pass never deletes. *)
Lemma cleanup_keeps_kodo_log folder k w :
  0 ≤ k →
  ∃ w', cleanupLogFiles folder k w = Returns tt w' ∧
        dir w' !! "kodo.log" = dir w !! "kodo.log".
Proof.
  intros Hk. destruct (readDirErr (faults w)) as [e|] eqn:Hrd.
  - eexists. split; [by apply cleanup_listing_fails|done].
  - eexists. split; [by apply cleanup_run|].
    rewrite dir_removals. rewrite decide_False; [done|].
    intros [Hn%filesToDeleteOf_sub%elem_of_logFilesOf _]. by destruct Hn.
Qed.

(** ** The rotate operation *)


Lemma file_Close_ok f h w :
  handles w !! f = Some h → h_open h = true → closeErr (faults w) = None →
  file_Close (Some f) w
  = Returns None
      (set_handles (alter (λ h, mkHandle (h_name h) false) f (handles w)) w).
Proof.
  intros Hh Ho Hc. unfold file_Close. cbn [mbind option_bind default].
  by rewrite Hh, Ho, Hc.
Qed.

Lemma os_Rename_ok old new data w :
  dir w !! old = Some (File data) →
  dir w !! new ≠ Some Dir →
  renameErr (faults w) = None →
  os_Rename old new w
  = Returns None (set_dir (<[new := File data]> (delete old (dir w))) w).
Proof.
  intros Hold Hnew Hr. unfold os_Rename. rewrite Hold, Hr.
  by destruct (dir w !! new) as [[|]|].
Qed.

Lemma os_OpenFile_new name w :
  dir w !! name = None → openErr (faults w) = None →
  os_OpenFile name w
  = Returns (Some (fresh_handle w), None)
      (set_handles (<[fresh_handle w := mkHandle name true]> (handles w))
                   (set_dir (<[name := File ""]> (dir w)) w)).
Proof. intros Hn Ho. unfold os_OpenFile. by rewrite Hn, Ho. Qed.

(** C2, as amended.  For every rotation performed at wall-clock time t (a
    reading before the year 10000) in which the close, the rename and the
    reopen succeed, the rotate operation renames the current file to exactly
    <mainfile>.<YYYYMMDD-HH>: t formatted as 4-digit year, 2-digit month,
    2-digit day, a hyphen, and 2-digit hour, with no other characters; it
    then opens a fresh, empty file at the original path and leaves the
    handle of the sink open on it. *)
Theorem rotate_renames_with_hour_stamp logFile fileName w h data :
  let t := clock w (ticks w) in
  let rotatedFileName := fileName +:+ "." +:+ suffix_YYYYMMDD_HH t in
  validTime t →
  handles w !! logFile = Some h → h_open h = true →
  closeErr (faults w) = None →
  renameErr (faults w) = None →
  openErr (faults w) = None →
  dir w !! fileName = Some (File data) →
  dir w !! rotatedFileName ≠ Some Dir →
  ∃ w', rotateLogFile (Some logFile) fileName w = Returns tt w'
    ∧ dir w' = <[fileName := File ""]>
                 (<[rotatedFileName := File data]> (delete fileName (dir w)))
    ∧ dir w' !! rotatedFileName = Some (File data)
    ∧ dir w' !! fileName = Some (File "")
    ∧ handles w' !! logFile = Some (mkHandle fileName true).
Proof.
  intros t rotatedFileName Ht Hh Hopen Hclose Hrename Hopenf Hmain Htarget.
  assert (Hne : rotatedFileName ≠ fileName) by apply app_ne_self.
  unfold rotateLogFile.
  erewrite bind_Returns by (by apply (file_Close_ok logFile h)).
  cbv beta iota.
  erewrite bind_Returns by reflexivity.
  cbv beta iota zeta. cbn [clock ticks set_handles tick].
  rewrite (Format_layout (clock w (ticks w)) Ht).
  fold t. fold rotatedFileName.
  erewrite bind_Returns; cycle 1.
  { eapply os_Rename_ok; cbn [dir faults]; eauto. }
  cbv beta iota.
  erewrite bind_Returns by reflexivity.
  cbv beta iota.
  erewrite bind_Returns; cycle 1.
  { apply os_OpenFile_new; cbn [dir faults set_dir]; [|done].
    rewrite lookup_insert_ne by done. apply lookup_delete_eq. }
  cbv beta iota. cbn [fst snd].
  erewrite bind_Returns by reflexivity.
  unfold file_assign, fresh_handle.
  cbn [mbind option_bind handles set_handles set_dir].
  rewrite lookup_insert_eq.
  eexists. split; [reflexivity|].
  cbn [dir handles set_handles set_dir tick].
  split_and!.
  - done.
  - rewrite lookup_insert_ne by done. apply lookup_insert_eq.
  - apply lookup_insert_eq.
  - apply lookup_insert_eq.
Qed.

(** ** The rotation loop *)

(** C7, as amended.  In time-based rotation mode, for a configured interval
    of 1 to 2562047 hours (the values whose conversion to a duration does
    not wrap around, so that the divisor of the hour check is the configured
    interval), a pass through the loop rotates the file if and only if the
    observed wall-clock hour differs from the last-observed hour and the new
    hour modulo the configured interval is 0: in that case it announces the
    rotation, rotates and runs the retention pass; otherwise it touches
    nothing.  Either way the last-observed hour becomes the new hour. *)
Theorem time_rotation_decision t lastHour w n :
  t_rotateBySize t = false →
  quitRotation w = false →
  t_rotationInterval t = hoursDuration n →
  1 ≤ n ≤ 2562047 →
  let currentHour := hour (clock w (ticks w)) in
  intHours (t_rotationInterval t) = n
  ∧ ((currentHour ≠ lastHour ∧ currentHour `mod` n = 0) →
       rotationIteration t lastHour w
       = (fmt_Print ("rotating log file by time" +:+ nl);;
          rotateLogFile (t_logFile t) (t_fileName t);;
          cleanupLogFiles (t_logDir t) (t_maxLogFiles t);;
          mret (Some currentHour)) (tick w))
  ∧ (¬ (currentHour ≠ lastHour ∧ currentHour `mod` n = 0) →
       rotationIteration t lastHour w = Returns (Some currentHour) (tick w)).
Proof.
  intros Hmode Hquit Hint Hn currentHour.
  assert (Hdivisor : intHours (t_rotationInterval t) = n).
  { rewrite Hint. apply intHours_hoursDuration. lia. }
  assert (Hnz : n ≠ 0) by lia.
  assert (Hdiv : Z.rem currentHour n = 0 ↔ currentHour `mod` n = 0).
  { rewrite Z.rem_divide, Z.mod_divide by done. done. }
  split; [exact Hdivisor|].
  unfold rotationIteration. rewrite Hquit, Hmode.
  erewrite bind_Returns by reflexivity. cbv beta zeta.
  cbn [clock ticks]. fold currentHour. rewrite Hdivisor.
  split.
  - intros [Hne Hmul]. rewrite decide_True by done.
    rewrite (decide_False (P := n = 0)) by done.
    rewrite decide_True by (by apply Hdiv).
    unfold mbind, Go_bind, fmt_Print.
    destruct (rotateLogFile _ _ _); [|done..].
    by destruct (cleanupLogFiles _ _ _).
  - intros Hnot. destruct (decide (currentHour ≠ lastHour)) as [Hne|Heq].
    + rewrite (decide_False (P := n = 0)) by done.
      rewrite decide_False by (rewrite Hdiv; tauto).
      reflexivity.
    + apply dec_stable in Heq. by rewrite Heq.
Qed.

(** ** The facade and the factory *)


Lemma emitAll_app evs1 evs2 w :
  emitAll (evs1 ++ evs2) w = emitAll evs2 (emitAll evs1 w).
Proof. apply foldl_app. Qed.

Lemma logs_emitAll evs w : logs (emitAll evs w) = logs w.
Proof. revert w. induction evs as [|e evs IH]; intros w; [done|]. simpl. by rewrite IH. Qed.

Lemma trace_emitAll evs w : trace (emitAll evs w) = trace w ++ evs.
Proof.
  revert w. induction evs as [|e evs IH]; intros w; simpl.
  - by rewrite app_nil_r.
  - rewrite IH. simpl. by rewrite <-app_assoc.
Qed.

Lemma sinks_run l sev format v w :
  logger_ok l w →
  (match syslogger l with
   | Some _ => syslog_Send sev format v
   | None => mret tt
   end;;
   match logger l with
   | Some lg => log_Printf lg format v
   | None => mret tt
   end) w
  = Returns tt (emitAll (toSyslog l sev format v ++ toLogger l w format v) w).
Proof.
  intros Hok. unfold toSyslog, toLogger, mbind, Go_bind, logger_ok in *.
  destruct (syslogger l), (logger l) as [id|]; simpl;
    try (destruct (Hok id eq_refl) as [lg Hlg]);
    unfold syslog_Send, log_Printf; simpl; rewrite ?Hlg; done.
Qed.

Lemma call_run m l callers format v w :
  logger_ok l w →
  call m l callers format v w
  = if decide (accepted m l)
    then let f := prefix l +:+ callerSegment l callers +:+ tag m +:+ format in
         Returns tt (emitAll (toSyslog l (severity m) f v
                              ++ toLogger l w f v) w)
    else Returns tt w.
Proof.
  intros Hok.
  destruct m; cbn [call tag severity];
    unfold Debugf, Infof, Errorf, callerSegment;
    repeat case_decide;
    unfold accepted, LogLevelDebug, LogLevelInfo in *;
    try lia; try done; by apply sinks_run.
Qed.

Lemma createCustomFileLogger_logger
    loggerName logDir rotateBySize maxSize maxLogFiles rotationInterval
    console w r w' :
  createCustomFileLogger loggerName logDir rotateBySize maxSize maxLogFiles
    rotationInterval console w = Returns r w' →
  is_Some (logs w' !! r.1).
Proof.
  unfold createCustomFileLogger, mbind, Go_bind, os_MkdirAll, log_Fatal.
  destruct (mkdirErr (faults w)); [done|].
  destruct (os_OpenFile _ w) as [[f [e|]] w1| |]; try done.
  cbn [snd fst].
  unfold log_New, log_Flags, log_SetFlags, log_update.
  cbn [logs set_logs set_quitRotation spawn mret Go_ret].
  repeat first [rewrite lookup_insert_eq | progress cbn [logs set_logs]].
  intros [= <- <-]. cbn [fst logs set_logs].
  rewrite lookup_insert_eq. eauto.
Qed.

Lemma createSysLogger_logs loggerName host port protocol w s w' :
  createSysLogger loggerName host port protocol w = Returns s w' →
  logs w' = logs w.
Proof.
  unfold createSysLogger, mbind, Go_bind, fmt_Print, srslog_Dial.
  case_decide; cbn [mret Go_ret].
  - by intros [= <- <-].
  - destruct (dialErr (faults w)); by intros [= <- <-].
Qed.

Lemma initLoggerFactory_view
    loggerName logLevel folder bySize maxSize maxFiles interval console
    enableSyslog host port protocol w mk w1 p :
  initLoggerFactory loggerName logLevel folder bySize maxSize maxFiles
    interval console enableSyslog host port protocol w = Returns mk w1 →
  loglevel (mk p)
    = (if decide (ToLower logLevel = "debug") then LogLevelDebug
       else if decide (ToLower logLevel = "info") then LogLevelInfo
       else if decide (ToLower logLevel = "error") then LogLevelError
       else LogLevelInfo)
  ∧ prefix (mk p) = (if decide (p ≠ "") then p +:+ ": " else "")
  ∧ logger_ok (mk p) w1.
Proof.
  unfold initLoggerFactory. unfold mbind at 1, Go_bind at 1.
  destruct (createCustomFileLogger _ _ _ _ _ _ _ w) as [r w'| |] eqn:E1;
    [|done..].
  unfold mbind at 1, Go_bind at 1.
  destruct enableSyslog.
  - destruct (createSysLogger _ _ _ _ w') as [s w''| |] eqn:E2; [|done..].
    intros [= <- <-]. cbn [loglevel prefix logger]. split_and!; [done..|].
    intros id [= <-]. rewrite (createSysLogger_logs _ _ _ _ _ _ _ E2).
    by eapply createCustomFileLogger_logger.
  - cbn [mret Go_ret]. intros [= <- <-]. split_and!; [done..|].
    intros id [= <-]. by eapply createCustomFileLogger_logger.
Qed.

(** C5.  For every view built by the factory: each call writes to each sink
    of the view that is not nil, and the file logger of a view is never nil.
    With Level=debug each of Debugf, Infof and Errorf produces output; with
    Level=error Debugf and Infof produce none (the world is unchanged) and
    only Errorf produces output; and Errorf produces output whatever the
    level was. *)
Theorem severity_gating
    loggerName logLevel folder bySize maxSize maxFiles interval console
    enableSyslog host port protocol w0 mk w1 p :
  initLoggerFactory loggerName logLevel folder bySize maxSize maxFiles
    interval console enableSyslog host port protocol w0 = Returns mk w1 →
  let l := mk p in
  ∀ callers format v w, logger_ok l w →
    let out (sev : Severity) (f : string) :=
      emitAll (toSyslog l sev f v ++ toLogger l w f v) w in
    (∀ sev f, ∃ lg, toLogger l w f v = [LogLine lg f v]
                    ∧ trace (out sev f)
                      = trace w ++ toSyslog l sev f v ++ [LogLine lg f v])
    ∧ (logLevel = "debug" →
         let caller := getCallerFuncName callers +:+ ": " in
         Debugf l callers format v w
           = Returns tt (out SevDebug
                           (prefix l +:+ caller +:+ "debug: " +:+ format))
         ∧ Infof l callers format v w
           = Returns tt (out SevInfo
                           (prefix l +:+ caller +:+ "info: " +:+ format))
         ∧ Errorf l callers format v w
           = Returns tt (out SevErr
                           (prefix l +:+ caller +:+ "error: " +:+ format)))
    ∧ (logLevel = "error" →
         Debugf l callers format v w = Returns tt w
         ∧ Infof l callers format v w = Returns tt w
         ∧ Errorf l callers format v w
           = Returns tt (out SevErr (prefix l +:+ "error: " +:+ format)))
    ∧ (∃ f, Errorf l callers format v w = Returns tt (out SevErr f)).
Proof.
  intros Hrun l callers format v w Hok out.
  destruct (initLoggerFactory_view _ _ _ _ _ _ _ _ _ _ _ _ _ _ _ p Hrun)
    as (Hlevel & _ & Hok1).
  fold l in Hlevel, Hok1.
  assert (Hlg : ∃ id, logger l = Some id).
  { unfold l. clear -Hrun.
    unfold initLoggerFactory, mbind, Go_bind in Hrun.
    destruct (createCustomFileLogger _ _ _ _ _ _ _ w0); [|done..].
    destruct (if enableSyslog then _ else _); [|done..].
    injection Hrun as <- _. eauto. }
  destruct Hlg as [id Hid].
  pose proof (call_run MDebugf l callers format v w Hok) as HD.
  pose proof (call_run MInfof l callers format v w Hok) as HI.
  pose proof (call_run MErrorf l callers format v w Hok) as HE.
  cbn [call tag severity] in HD, HI, HE.
  split_and!.
  - intros sev f. destruct (Hok id Hid) as [lg Hlg].
    exists lg. unfold out. rewrite trace_emitAll. unfold toLogger.
    rewrite Hid. cbn [mbind option_bind]. by rewrite Hlg.
  - intros ->. change (ToLower "debug") with "debug" in Hlevel.
    rewrite decide_True in Hlevel by done.
    rewrite decide_True in HD by (unfold accepted; rewrite Hlevel; unfold LogLevelDebug, LogLevelInfo, LogLevelError; lia).
    rewrite decide_True in HI by (unfold accepted; rewrite Hlevel; unfold LogLevelDebug, LogLevelInfo, LogLevelError; lia).
    rewrite decide_True in HE by done.
    unfold callerSegment in HD, HI, HE.
    rewrite decide_True in HD by (rewrite Hlevel; unfold LogLevelDebug, LogLevelInfo, LogLevelError; lia).
    rewrite decide_True in HI by (rewrite Hlevel; unfold LogLevelDebug, LogLevelInfo, LogLevelError; lia).
    rewrite decide_True in HE by (rewrite Hlevel; unfold LogLevelDebug, LogLevelInfo, LogLevelError; lia).
    done.
  - intros ->. change (ToLower "error") with "error" in Hlevel.
    rewrite decide_False, decide_False, decide_True in Hlevel by done.
    rewrite decide_False in HD by (unfold accepted; rewrite Hlevel; unfold LogLevelDebug, LogLevelInfo, LogLevelError; lia).
    rewrite decide_False in HI by (unfold accepted; rewrite Hlevel; unfold LogLevelDebug, LogLevelInfo, LogLevelError; lia).
    rewrite decide_True in HE by done.
    unfold callerSegment in HE.
    rewrite decide_False in HE by (rewrite Hlevel; unfold LogLevelDebug, LogLevelInfo, LogLevelError; lia).
    done.
  - eexists. rewrite HE. by rewrite decide_True.
Qed.

(** C6.  For every view and every accepted call of Debugf, Infof or Errorf,
    each message handed to a sink carries the caller-function-name segment
    (the name, a colon and a blank, between the prefix and the level tag) if
    and only if the threshold of the view is at or above debug, and is the
    prefix followed directly by the level tag if and only if the threshold
    is below debug. *)
Theorem caller_name_iff_debug_threshold m l callers format v w :
  logger_ok l w → accepted m l →
  ∃ evs, call m l callers format v w = Returns tt (emitAll evs w)
    ∧ ∀ e, e ∈ evs →
        (event_format e
           = Some (prefix l +:+ (getCallerFuncName callers +:+ ": ")
                   +:+ tag m +:+ format)
         ↔ LogLevelDebug ≤ loglevel l)
        ∧ (event_format e = Some (prefix l +:+ tag m +:+ format)
           ↔ loglevel l < LogLevelDebug).
Proof.
  intros Hok Hacc. rewrite call_run by done. rewrite decide_True by done.
  cbv zeta. eexists. split; [reflexivity|].
  intros e He.
  assert (Hf : event_format e
               = Some (prefix l +:+ callerSegment l callers +:+ tag m +:+ format)).
  { unfold toSyslog, toLogger in He.
    destruct (syslogger l), (logger l ≫= _);
      repeat (apply elem_of_cons in He as [->|He]; [done|]);
      by apply elem_of_nil in He. }
  rewrite Hf. unfold callerSegment.
  destruct (decide (LogLevelDebug ≤ loglevel l)) as [Hd|Hd].
  - split; [done|]. split; [|lia]. intros [= Heq].
    by apply prepend_ne_self in Heq.
  - split; [|split; [lia|done]]. split; [|done]. intros [= Heq].
    symmetry in Heq. by apply prepend_ne_self in Heq.
Qed.

(** The constructor of the current factory: no prefix text for the empty
    prefix, the prefix and a separator otherwise. *)
Lemma initLoggerFactory_prefix
    loggerName logLevel folder bySize maxSize maxFiles interval console
    enableSyslog host port protocol w0 mk w1 :
  initLoggerFactory loggerName logLevel folder bySize maxSize maxFiles
    interval console enableSyslog host port protocol w0 = Returns mk w1 →
  prefix (mk "") = ""
  ∧ ∀ p, p ≠ "" → prefix (mk p) = p +:+ ": ".
Proof.
  intros Hrun. split.
  - by destruct (initLoggerFactory_view _ _ _ _ _ _ _ _ _ _ _ _ _ _ _ "" Hrun)
      as (_ & -> & _).
  - intros p Hp.
    destruct (initLoggerFactory_view _ _ _ _ _ _ _ _ _ _ _ _ _ _ _ p Hrun)
      as (_ & -> & _). by rewrite decide_True.
Qed.
End properties.

(** * Further properties *)

Section further_properties.
Context `{GoLib}.

(** ** Call-site introspection *)

Lemma lastIndexFrom_absent i found c s :
  occurs c s = false → lastIndexFrom i found c s = found.
Proof.
  revert i found. induction s as [|a s IH]; intros i found Hs; [done|].
  cbn in Hs. apply orb_false_iff in Hs as [Ha Hs].
  apply bool_decide_eq_false in Ha.
  cbn. rewrite decide_False by done. by apply IH.
Qed.

Lemma lastIndexFrom_present i found c s :
  occurs c s = true →
  ∃ p r, s = p +:+ String c r ∧ occurs c r = false
         ∧ lastIndexFrom i found c s = i + Z.of_nat (String.length p).
Proof.
  revert i found. induction s as [|a s IH]; intros i found Hs; [done|].
  cbn [lastIndexFrom].
  destruct (occurs c s) eqn:Hrest.
  - destruct (IH (i + 1) (if decide (a = c) then i else found) eq_refl)
      as (p & r & -> & Hr & ->).
    exists (String a p), r. split_and!; [done..|]. cbn [String.length]. lia.
  - cbn in Hs. rewrite Hrest, orb_false_r in Hs.
    apply bool_decide_eq_true in Hs as ->.
    exists "", s. split_and!; [done..|].
    rewrite decide_True by done. rewrite lastIndexFrom_absent by done.
    cbn. lia.
Qed.

Lemma append_assoc s1 s2 s3 : (s1 +:+ s2) +:+ s3 = s1 +:+ s2 +:+ s3.
Proof. induction s1 as [|a s1 IH]; [done|]. by rewrite !app_cons, IH. Qed.

Lemma sliceFrom_app p s :
  sliceFrom (String.length p) (p +:+ s) = s.
Proof. induction p as [|a p IH]; [by destruct s|done]. Qed.

Lemma sliceFrom_after p c r :
  sliceFrom (S (String.length p)) (p +:+ String c r) = r.
Proof. induction p as [|a p IH]; [by destruct r|done]. Qed.

Lemma occurs_app c p s : occurs c (p +:+ s) = occurs c p || occurs c s.
Proof.
  induction p as [|a p IH]; [done|].
  rewrite app_cons. cbn [occurs]. by rewrite IH, orb_assoc.
Qed.

(** The part of [s] after its last [c], as the two steps of
    [getCallerFuncName] compute it. *)
Lemma afterLast_spec c s :
  let r := if decide (0 ≤ LastIndex s c)
           then sliceFrom (Z.to_nat (LastIndex s c + 1)) s else s in
  occurs c r = false
  ∧ ((occurs c s = false ∧ r = s) ∨ ∃ p, s = p +:+ String c r).
Proof.
  unfold LastIndex. destruct (occurs c s) eqn:Hs.
  - destruct (lastIndexFrom_present 0 (-1) c s Hs) as (p & r & -> & Hr & ->).
    rewrite decide_True by lia.
    replace (Z.to_nat (0 + Z.of_nat (String.length p) + 1))
      with (S (String.length p)) by lia.
    rewrite sliceFrom_after. cbn zeta. split; [done|]. right. by exists p.
  - rewrite lastIndexFrom_absent by done. rewrite decide_False by lia.
    cbn zeta. split; [done|]. by left.
Qed.

(** X1.  The name [getCallerFuncName] reports is the last segment of the
    qualified name of the calling function: the longest suffix that holds
    neither a slash nor a dot.  It is cut right after the last separator, so
    for a method or a closure only the last component is left; and it is
    "unknown" when the runtime reports no frame or no function. *)
Theorem getCallerFuncName_last_segment callers :
  let r := getCallerFuncName callers in
  occurs "/" r = false ∧ occurs "." r = false
  ∧ (∀ name rest, callers = Some name :: rest →
       ∃ pre, name = pre +:+ r
         ∧ (pre = "" ∨ ∃ p c, pre = p +:+ String c "" ∧ isSeparator c))
  ∧ (callers = [] ∨ (∃ rest, callers = None :: rest) → r = "unknown").
Proof.
  destruct callers as [|[name|] rest]; cbn zeta.
  1,3: split_and!; [done..|by intros ?? [=]| done].
  unfold getCallerFuncName.
  pose proof (afterLast_spec "/" name) as [Hs1 Hs2].
  set (n1 := if decide (0 ≤ LastIndex name "/")
             then sliceFrom (Z.to_nat (LastIndex name "/" + 1)) name else name)
    in *.
  pose proof (afterLast_spec "." n1) as [Hd1 Hd2].
  set (r := if decide (0 ≤ LastIndex n1 ".")
            then sliceFrom (Z.to_nat (LastIndex n1 "." + 1)) n1 else n1) in *.
  assert (Hslash : occurs "/" r = false).
  { destruct Hd2 as [[_ ->]|[p Hp]]; [done|].
    rewrite Hp, occurs_app in Hs1. apply orb_false_iff in Hs1 as [_ Hs1].
    cbn in Hs1. done. }
  split_and!; [done..| |].
  - intros ? ? [= <- <-].
    destruct Hd2 as [[_ Hr]|[p Hp]].
    + rewrite Hr. destruct Hs2 as [[_ ->]|[q Hq]].
      * exists "". split; [done|by left].
      * exists (q +:+ String "/" ""). split.
        { by rewrite append_assoc. }
        right. exists q, "/"%char. split; [done|by left].
    + destruct Hs2 as [[_ Hn]|[q Hq]].
      * exists (p +:+ String "." ""). split.
        { rewrite append_assoc, <- Hn. exact Hp. }
        right. exists p, "."%char. split; [done|by right].
      * exists (q +:+ String "/" p +:+ String "." ""). split.
        { rewrite Hq at 1. rewrite Hp at 1.
          rewrite !append_assoc. done. }
        right. exists (q +:+ String "/" p), "."%char.
        split; [by rewrite !append_assoc|by right].
  - intros [[=]|[? [=]]].
Qed.

(** ** The retention pass *)

Lemma removals_frame folder l w :
  handles (removals folder l w) = handles w
  ∧ logs (removals folder l w) = logs w
  ∧ tasks (removals folder l w) = tasks w
  ∧ ticks (removals folder l w) = ticks w
  ∧ clock (removals folder l w) = clock w
  ∧ quitRotation (removals folder l w) = quitRotation w.
Proof.
  revert w. induction l as [|n l IH]; intros w; cbn [removals]; [done|].
  destruct (IH (match removeErr (faults w) n with
                | Some e => emit (deleteFailure folder n e) w
                | None => set_dir (delete n (dir w)) w
                end)) as (-> & -> & -> & -> & -> & ->).
  by destruct (removeErr (faults w) n).
Qed.

Lemma failures_are_lines folder (errOf : string → option error)
    (l : list string) :
  omap (λ n, deleteFailure folder n <$> errOf n) l
  = Stdout <$> omap (λ n, (λ e, "failed to delete old log file "
                                  +:+ filepath_Join folder n +:+ ": " +:+ e)
                          <$> errOf n) l.
Proof.
  induction l as [|n l IH]; [done|]. cbn [omap list_omap].
  rewrite IH. by destruct (errOf n).
Qed.

(** X2.  The retention pass, whatever the operating system answers: it returns;
    the only entries it takes out of the folder are regular files not named
    kodo.log; it adds and changes no entry, leaves every subdirectory in
    place, touches no open file, logger, task or clock reading, and what it
    writes goes to the diagnostic stream. *)
Theorem cleanup_only_removes_regular_files folder k w :
  0 ≤ k →
  ∃ w', cleanupLogFiles folder k w = Returns tt w'
    ∧ dir w' ⊆ dir w
    ∧ (∀ n, dir w' !! n ≠ dir w !! n →
         n ≠ "kodo.log" ∧ dir w' !! n = None
         ∧ ∃ data, dir w !! n = Some (File data))
    ∧ (∀ n, dir w !! n = Some Dir → dir w' !! n = Some Dir)
    ∧ handles w' = handles w ∧ logs w' = logs w ∧ tasks w' = tasks w
    ∧ ticks w' = ticks w ∧ quitRotation w' = quitRotation w
    ∧ ∃ lines, trace w' = trace w ++ (Stdout <$> lines).
Proof.
  intros Hk. destruct (readDirErr (faults w)) as [e|] eqn:Hrd.
  - eexists. split; [by apply cleanup_listing_fails|].
    cbn [dir handles logs tasks ticks quitRotation trace emit].
    split_and!; try done. by eexists [_].
  - eexists. split; [by apply cleanup_run|].
    set (D := filesToDeleteOf k (dir w)).
    assert (Hchg : ∀ n, dir (removals folder D w) !! n ≠ dir w !! n →
              n ≠ "kodo.log" ∧ dir (removals folder D w) !! n = None
              ∧ ∃ data, dir w !! n = Some (File data)).
    { intros n. rewrite dir_removals. case_decide as Hn; [|done].
      destruct Hn as [Hn%filesToDeleteOf_sub%elem_of_logFilesOf _].
      by destruct Hn. }
    destruct (removals_frame folder D w) as (-> & -> & -> & -> & _ & ->).
    split_and!; try done.
    + apply map_subseteq_spec. intros n e. rewrite dir_removals.
      by case_decide.
    + intros n Hd. rewrite dir_removals. case_decide as Hn; [|done].
      destruct Hn as [Hn%filesToDeleteOf_sub%elem_of_logFilesOf _].
      destruct Hn as [_ [data Hf]]. congruence.
    + rewrite trace_removals, failures_are_lines. by eexists.
Qed.

(** X3.  After a pass in which every removal succeeds, at most [maxLogFiles]
    regular files other than kodo.log are left, the main log file of the
    logger counted among them, and a second pass right after the first
    changes nothing. *)
Theorem cleanup_bounds_candidates_and_is_idempotent folder k w :
  0 ≤ k →
  readDirErr (faults w) = None →
  (∀ n, removeErr (faults w) n = None) →
  ∃ w', cleanupLogFiles folder k w = Returns tt w'
    ∧ len (logFilesOf (dir w')) = Z.min (len (logFilesOf (dir w))) k
    ∧ cleanupLogFiles folder k w' = Returns tt w'
    ∧ (cleanupLogFiles folder k;; cleanupLogFiles folder k) w
      = cleanupLogFiles folder k w.
Proof.
  intros Hk Hrd Hrm.
  set (w' := removals folder (filesToDeleteOf k (dir w)) w).
  assert (Hrun : cleanupLogFiles folder k w = Returns tt w')
    by (by apply cleanup_run).
  assert (Hlen : len (logFilesOf (dir w')) = Z.min (len (logFilesOf (dir w))) k).
  { assert (Hperm : logFilesOf (dir w')
              ≡ₚ drop (Z.to_nat (len (logFilesOf (dir w)) - k))
                      (logFilesOf (dir w))).
    { apply NoDup_Permutation.
      - apply NoDup_logFilesOf.
      - eapply sublist_NoDup; [apply NoDup_logFilesOf|apply sublist_drop].
      - intros n. rewrite kept_iff, !elem_of_logFilesOf.
        unfold w'. rewrite dir_removals.
        case_decide as Hn.
        + destruct Hn as [Hn _]. split; [by intros [_ [? ?]]|tauto].
        + split; [|tauto]. intros Hc. split; [done|]. intros Hd. apply Hn.
          split; [done|apply Hrm]. }
    unfold len at 1. rewrite Hperm, length_drop. unfold len. lia. }
  assert (Hagain : cleanupLogFiles folder k w' = Returns tt w').
  { rewrite cleanup_run; [|by unfold w'; rewrite faults_removals|done].
    unfold filesToDeleteOf. replace (Z.to_nat _) with O by lia. done. }
  exists w'. split_and!; [done..|].
  unfold mbind, Go_bind. by rewrite Hrun.
Qed.

(** Byte-wise order puts a string before every string it is a prefix of. *)
Lemma le_prefix s x : String.le s (s +:+ x).
Proof.
  unfold String.le, String.leb.
  induction s as [|a s IH]; [by destruct x|].
  rewrite app_cons. cbn [String.compare].
  assert (Ha : Ascii.compare a a = Eq).
  { destruct (Ascii.compare a a) eqn:E; [done|..];
      pose proof (Ascii.compare_antisym a a) as Hanti;
      rewrite E in Hanti; discriminate. }
  by rewrite Ha.
Qed.

Lemma append_cancel_r s s' t : s +:+ t = s' +:+ t → s = s'.
Proof.
  revert s'. induction s as [|a s IH]; intros [|a' s'] Heq.
  - done.
  - exfalso. apply (f_equal String.length) in Heq.
    rewrite !length_app in Heq. cbn [String.length] in Heq. lia.
  - exfalso. apply (f_equal String.length) in Heq.
    rewrite !length_app in Heq. cbn [String.length] in Heq. lia.
  - rewrite !app_cons in Heq. injection Heq as -> Heq. f_equal. by apply IH.
Qed.

(** The first file the pass deletes is the least candidate. *)
Lemma least_candidate_deleted k d n :
  0 ≤ k → k < len (logFilesOf d) →
  n ∈ logFilesOf d → (∀ m, m ∈ logFilesOf d → String.le n m) →
  n ∈ filesToDeleteOf k d.
Proof.
  intros Hk Hlen Hn Hmin. unfold filesToDeleteOf.
  pose proof (Sorted_logFilesOf d) as Hs.
  unfold len in *.
  destruct (logFilesOf d) as [|x L]; [by apply elem_of_nil in Hn|].
  assert (n = x) as ->.
  { apply StronglySorted_inv in Hs as [_ Hx].
    destruct (proj1 (elem_of_cons _ _ _) Hn) as [Heq|Hin]; [done|].
    apply (anti_symm String.le).
    - apply Hmin. apply elem_of_cons. by left.
    - rewrite Forall_forall in Hx. by apply Hx. }
  cbn [length] in *.
  replace (Z.to_nat _) with (S (Z.to_nat (Z.of_nat (length L) - k))) by lia.
  cbn [take]. apply elem_of_cons. by left.
Qed.

(** X4.  With a logger name other than kodo the main log file is a candidate of
    the retention pass like any other regular file, and as a prefix of the
    names of its rotated files it sorts first: when the folder holds it and
    at least [maxLogFiles] rotated files of it, the pass deletes it. *)
Theorem cleanup_deletes_live_log_first loggerName folder k w data :
  let main := loggerName +:+ ".log" in
  0 ≤ k →
  readDirErr (faults w) = None →
  removeErr (faults w) main = None →
  loggerName ≠ "kodo" →
  dir w !! main = Some (File data) →
  (∀ m d, dir w !! m = Some (File d) → m ≠ "kodo.log" → ∃ x, m = main +:+ x) →
  k < len (logFilesOf (dir w)) →
  ∃ w', cleanupLogFiles folder k w = Returns tt w' ∧ dir w' !! main = None.
Proof.
  intros main Hk Hrd Hrm Hname Hmain Hothers Hmore.
  assert (Hne : main ≠ "kodo.log").
  { intros Heq. apply Hname. by apply (append_cancel_r _ "kodo" ".log"). }
  eexists. split; [by apply cleanup_run|].
  rewrite dir_removals. rewrite decide_True; [done|]. split; [|done].
  apply least_candidate_deleted; [done..| |].
  - apply elem_of_logFilesOf. eauto.
  - intros m [Hm [d Hd]]%elem_of_logFilesOf.
    destruct (Hothers m d Hd Hm) as [x ->]. apply le_prefix.
Qed.

(** ** The rotate operation, step by step *)

Lemma os_OpenFile_existing name e w :
  dir w !! name = Some e → e ≠ Dir → openErr (faults w) = None →
  os_OpenFile name w
  = Returns (Some (fresh_handle w), None)
      (set_handles (<[fresh_handle w := mkHandle name true]> (handles w))
                   (set_dir (dir w) w)).
Proof.
  intros Hn He Ho. unfold os_OpenFile. rewrite Hn, Ho. by destruct e.
Qed.

(** A rotation in which the close, the rename and the reopen succeed. *)
Lemma rotate_ok logFile fileName w h data :
  let rotatedFileName :=
    fileName +:+ "." +:+ Format (clock w (ticks w)) "20060102-15" in
  handles w !! logFile = Some h → h_open h = true →
  closeErr (faults w) = None →
  renameErr (faults w) = None →
  openErr (faults w) = None →
  dir w !! fileName = Some (File data) →
  dir w !! rotatedFileName ≠ Some Dir →
  ∃ w', rotateLogFile (Some logFile) fileName w = Returns tt w'
    ∧ dir w' = <[fileName := File ""]>
                 (<[rotatedFileName := File data]> (delete fileName (dir w)))
    ∧ handles w' !! logFile = Some (mkHandle fileName true)
    ∧ faults w' = faults w ∧ clock w' = clock w ∧ ticks w' = S (ticks w)
    ∧ trace w' = trace w ∧ logs w' = logs w ∧ tasks w' = tasks w
    ∧ quitRotation w' = quitRotation w.
Proof.
  intros rotatedFileName Hh Hopen Hclose Hrename Hopenf Hmain Htarget.
  assert (Hne : rotatedFileName ≠ fileName) by apply app_ne_self.
  unfold rotateLogFile.
  erewrite bind_Returns by (by apply (file_Close_ok logFile h)).
  cbv beta iota.
  erewrite bind_Returns by reflexivity.
  cbv beta iota zeta. cbn [clock ticks set_handles tick].
  fold rotatedFileName.
  erewrite bind_Returns; cycle 1.
  { eapply os_Rename_ok; cbn [dir faults]; eauto. }
  cbv beta iota.
  erewrite bind_Returns by reflexivity.
  cbv beta iota.
  erewrite bind_Returns; cycle 1.
  { apply os_OpenFile_new; cbn [dir faults set_dir]; [|done].
    rewrite lookup_insert_ne by done. apply lookup_delete_eq. }
  cbv beta iota. cbn [fst snd].
  erewrite bind_Returns by reflexivity.
  unfold file_assign, fresh_handle.
  cbn [mbind option_bind handles set_handles set_dir].
  rewrite lookup_insert_eq.
  eexists. split; [reflexivity|].
  cbn [dir handles set_handles set_dir tick faults clock ticks trace logs
       tasks quitRotation].
  split_and!; try done. apply lookup_insert_eq.
Qed.


(** X6.  When the rename fails the rotate operation reports it and goes on: it
    reopens the main log file, creating it when it is missing and leaving
    its content in place when it exists, and the handle of the sink is open
    again.  No rotated file appears. *)
Theorem rotate_reopens_when_rename_fails logFile fileName w h :
  handles w !! logFile = Some h → h_open h = true →
  closeErr (faults w) = None →
  openErr (faults w) = None →
  (dir w !! fileName = None →
   ∃ w', rotateLogFile (Some logFile) fileName w = Returns tt w'
     ∧ dir w' = <[fileName := File ""]> (dir w)
     ∧ handles w' !! logFile = Some (mkHandle fileName true)
     ∧ trace w' = trace w ++
         [Stdout ("log rotation: failed to rotate log file: "
                  +:+ "no such file or directory")])
  ∧ (∀ data e, dir w !! fileName = Some (File data) →
       renameErr (faults w) = Some e →
       ∃ e' w', rotateLogFile (Some logFile) fileName w = Returns tt w'
         ∧ dir w' = dir w
         ∧ handles w' !! logFile = Some (mkHandle fileName true)
         ∧ trace w' = trace w ++
             [Stdout ("log rotation: failed to rotate log file: " +:+ e')]).
Proof.
  intros Hh Hopen Hclose Hopenf. split.
  - intros Hmain. unfold rotateLogFile.
    erewrite bind_Returns by (by apply (file_Close_ok logFile h)).
    cbv beta iota.
    erewrite bind_Returns by reflexivity.
    cbv beta iota zeta.
    erewrite bind_Returns; cycle 1.
    { unfold os_Rename. cbn [dir set_handles tick]. by rewrite Hmain. }
    cbv beta iota.
    erewrite bind_Returns by reflexivity.
    erewrite bind_Returns; cycle 1.
    { apply os_OpenFile_new; cbn [dir faults emit set_handles tick]; done. }
    cbv beta iota. cbn [fst snd].
    erewrite bind_Returns by reflexivity.
    unfold file_assign, fresh_handle.
    cbn [mbind option_bind handles set_handles set_dir emit tick].
    rewrite lookup_insert_eq.
    eexists. split; [reflexivity|].
    cbn [dir handles trace set_handles set_dir emit tick].
    split_and!; try done. apply lookup_insert_eq.
  - intros data e Hmain Hren. unfold rotateLogFile.
    erewrite bind_Returns by (by apply (file_Close_ok logFile h)).
    cbv beta iota.
    erewrite bind_Returns by reflexivity.
    cbv beta iota zeta.
    set (target := fileName +:+ "." +:+ _).
    assert (∃ e', os_Rename fileName target
                    (tick (set_handles
                       (alter (λ h, mkHandle (h_name h) false) logFile
                              (handles w)) w))
                  = Returns (Some e')
                      (tick (set_handles
                         (alter (λ h, mkHandle (h_name h) false) logFile
                                (handles w)) w))) as [e' He'].
    { unfold os_Rename. cbn [dir faults set_handles tick].
      rewrite Hmain, Hren. destruct (dir w !! target) as [[|]|]; eauto. }
    exists e'.
    erewrite bind_Returns by exact He'.
    cbv beta iota.
    erewrite bind_Returns by reflexivity.
    erewrite bind_Returns; cycle 1.
    { eapply os_OpenFile_existing; cbn [dir faults emit set_handles tick];
        [exact Hmain|done|done]. }
    cbv beta iota. cbn [fst snd].
    erewrite bind_Returns by reflexivity.
    unfold file_assign, fresh_handle.
    cbn [mbind option_bind handles set_handles set_dir emit tick].
    rewrite lookup_insert_eq.
    eexists. split; [reflexivity|].
    cbn [dir handles trace set_handles set_dir emit tick].
    split_and!; try done. apply lookup_insert_eq.
Qed.

(** X7.  When the main log file cannot be reopened after a successful rename, the
    rotate operation reports the error and then dereferences the nil file it
    was given: the call panics, with the log already moved away and the
    handle of the sink closed. *)
Theorem rotate_panics_when_reopen_fails logFile fileName w h data e :
  let rotatedFileName :=
    fileName +:+ "." +:+ Format (clock w (ticks w)) "20060102-15" in
  handles w !! logFile = Some h → h_open h = true →
  closeErr (faults w) = None →
  renameErr (faults w) = None →
  openErr (faults w) = Some e →
  dir w !! fileName = Some (File data) →
  dir w !! rotatedFileName ≠ Some Dir →
  ∃ w', rotateLogFile (Some logFile) fileName w
        = Panics "invalid memory address or nil pointer dereference" w'
    ∧ dir w' = <[rotatedFileName := File data]> (delete fileName (dir w))
    ∧ dir w' !! fileName = None
    ∧ handles w' !! logFile = Some (mkHandle (h_name h) false)
    ∧ trace w' = trace w ++
        [Stdout ("log rotation: failed to open new log file: " +:+ e)].
Proof.
  intros rotatedFileName Hh Hopen Hclose Hrename Hopenf Hmain Htarget.
  assert (Hne : rotatedFileName ≠ fileName) by apply app_ne_self.
  unfold rotateLogFile.
  erewrite bind_Returns by (by apply (file_Close_ok logFile h)).
  cbv beta iota.
  erewrite bind_Returns by reflexivity.
  cbv beta iota zeta. cbn [clock ticks set_handles tick].
  fold rotatedFileName.
  erewrite bind_Returns; cycle 1.
  { eapply os_Rename_ok; cbn [dir faults]; eauto. }
  cbv beta iota.
  erewrite bind_Returns by reflexivity.
  cbv beta iota.
  erewrite bind_Returns; cycle 1.
  { unfold os_OpenFile. cbn [dir faults set_dir].
    rewrite lookup_insert_ne by done. rewrite lookup_delete_eq.
    cbn [faults set_dir set_handles tick]. rewrite Hopenf. reflexivity. }
  cbv beta iota. cbn [fst snd].
  erewrite bind_Returns by reflexivity.
  unfold file_assign. cbn [mbind option_bind].
  eexists. split; [reflexivity|].
  cbn [dir handles trace set_handles set_dir emit tick].
  split_and!; try done.
  - rewrite lookup_insert_ne by done. apply lookup_delete_eq.
  - rewrite lookup_alter_eq. by rewrite Hh.
Qed.

(** X8.  Two rotations whose clock readings fall in the same hour use the same
    rotated name: the second rename replaces the file the first one made, so
    what the log held at the first rotation is no longer in the folder. *)
Theorem rotating_twice_in_one_hour_overwrites logFile fileName w h data :
  let rotatedFileName :=
    fileName +:+ "." +:+ Format (clock w (ticks w)) "20060102-15" in
  clock w (S (ticks w)) = clock w (ticks w) →
  handles w !! logFile = Some h → h_open h = true →
  closeErr (faults w) = None →
  renameErr (faults w) = None →
  openErr (faults w) = None →
  dir w !! fileName = Some (File data) →
  dir w !! rotatedFileName ≠ Some Dir →
  ∃ w1, rotateLogFile (Some logFile) fileName w = Returns tt w1
    ∧ dir w1 !! rotatedFileName = Some (File data)
    ∧ ∀ written, ∃ w2,
        rotateLogFile (Some logFile) fileName
          (set_dir (<[fileName := File written]> (dir w1)) w1)
        = Returns tt w2
        ∧ dir w2 = <[fileName := File ""]>
                     (<[rotatedFileName := File written]>
                        (delete fileName (dir w)))
        ∧ dir w2 !! rotatedFileName = Some (File written).
Proof.
  intros rotatedFileName Hsame Hh Hopen Hclose Hrename Hopenf Hmain Htarget.
  assert (Hne : rotatedFileName ≠ fileName) by apply app_ne_self.
  destruct (rotate_ok logFile fileName w h data)
    as (w1 & Hrun & Hdir & Hh1 & Hf1 & Hc1 & Ht1 & _); [done..|].
  fold rotatedFileName in Hdir.
  exists w1. split_and!; [done| |].
  { rewrite Hdir. rewrite lookup_insert_ne by done. apply lookup_insert_eq. }
  intros written.
  set (w1' := set_dir (<[fileName := File written]> (dir w1)) w1).
  destruct (rotate_ok logFile fileName w1' (mkHandle fileName true) written)
    as (w2 & Hrun2 & Hdir2 & _).
  - done.
  - done.
  - cbn [faults w1' set_dir]. congruence.
  - cbn [faults w1' set_dir]. congruence.
  - cbn [faults w1' set_dir]. congruence.
  - cbn [dir w1' set_dir]. apply lookup_insert_eq.
  - cbn [dir clock ticks w1' set_dir]. rewrite Hc1, Ht1, Hsame.
    fold rotatedFileName. rewrite lookup_insert_ne by done.
    rewrite Hdir. rewrite lookup_insert_ne by done.
    by rewrite lookup_insert_eq.
  - cbn [dir clock ticks w1' set_dir] in Hdir2.
    rewrite Hc1, Ht1, Hsame in Hdir2. fold rotatedFileName in Hdir2.
    exists w2. split_and!; [done| |].
    + rewrite Hdir2, Hdir. apply map_eq. intros n.
      destruct (decide (n = fileName)) as [->|Hn1].
      { by rewrite !lookup_insert_eq. }
      rewrite !(lookup_insert_ne _ fileName) by done.
      destruct (decide (n = rotatedFileName)) as [->|Hn2].
      { by rewrite !lookup_insert_eq. }
      rewrite !(lookup_insert_ne _ rotatedFileName) by done.
      rewrite !lookup_delete_ne by done.
      rewrite !(lookup_insert_ne _ fileName) by done.
      rewrite !(lookup_insert_ne _ rotatedFileName) by done.
      by rewrite lookup_delete_ne.
    + rewrite Hdir2. rewrite lookup_insert_ne by done. apply lookup_insert_eq.
Qed.

(** ** The passes of the rotation loop *)

Lemma length_suffix t :
  validTime t → String.length (suffix_YYYYMMDD_HH t) = 11%nat.
Proof. intros _. reflexivity. Qed.

(** X9.  In size-based rotation mode, with a main log file not named kodo.log in
    a folder whose other regular files are its rotated files: a pass that
    rotates when the folder already holds [maxLogFiles] such files creates
    the fresh main log file and deletes it again in the retention pass that
    follows, the fresh file being the least name of [maxLogFiles] + 1
    candidates.  The handle of the sink stays open on a file that is no
    longer in the folder. *)
Theorem rotation_pass_unlinks_the_fresh_log t lastHour w f h data size :
  let main := t_fileName t in
  let now := clock w (ticks w) in
  let rotatedFileName := main +:+ "." +:+ suffix_YYYYMMDD_HH now in
  t_rotateBySize t = true →
  quitRotation w = false →
  t_logFile t = Some f → handles w !! f = Some h → h_open h = true →
  statSize (faults w) = inl size → t_maxSize t ≤ size →
  closeErr (faults w) = None →
  renameErr (faults w) = None →
  openErr (faults w) = None →
  readDirErr (faults w) = None →
  removeErr (faults w) main = None →
  validTime now →
  main ≠ "kodo.log" →
  dir w !! main = Some (File data) →
  dir w !! rotatedFileName = None →
  (∀ m d, dir w !! m = Some (File d) → m ≠ "kodo.log" → ∃ x, m = main +:+ x) →
  0 ≤ t_maxLogFiles t ≤ len (logFilesOf (dir w)) →
  ∃ w', rotationIteration t lastHour w = Returns (Some lastHour) w'
    ∧ dir w' !! main = None
    ∧ handles w' !! f = Some (mkHandle main true).
Proof.
  intros main now rotatedFileName Hmode Hquit Hf Hh Hopen Hstat Hsize Hclose
    Hrename Hopenf Hrd Hrm Hnow Hkodo Hmain Hnew Hothers Hk.
  assert (Hfmt : main +:+ "." +:+ Format now "20060102-15" = rotatedFileName).
  { unfold rotatedFileName. by rewrite Format_layout. }
  destruct (rotate_ok f main w h data) as
    (w1 & Hrun & Hdir & Hh1 & Hf1 & _); [done..| |].
  { fold now. rewrite Hfmt, Hnew. done. }
  fold now in Hdir. rewrite Hfmt in Hdir.
  assert (Hne : rotatedFileName ≠ main) by apply app_ne_self.
  assert (Hrk : rotatedFileName ≠ "kodo.log").
  { intros Heq. apply (f_equal String.length) in Heq.
    unfold rotatedFileName in Heq. rewrite !length_app in Heq.
    rewrite length_suffix in Heq by done. cbn in Heq. lia. }
  assert (Hcand : ∀ n, n ∈ logFilesOf (dir w1)
                       ↔ n = rotatedFileName ∨ n ∈ logFilesOf (dir w)).
  { intros n. rewrite !elem_of_logFilesOf, Hdir.
    destruct (decide (n = main)) as [->|Hn1].
    { rewrite lookup_insert_eq. split; [|by eauto]. intros _. right. eauto. }
    rewrite lookup_insert_ne by done.
    destruct (decide (n = rotatedFileName)) as [->|Hn2].
    { rewrite lookup_insert_eq. split; [by left|]. eauto. }
    rewrite lookup_insert_ne by done. rewrite lookup_delete_ne by done.
    split; [by right|]. by intros [?|?]. }
  assert (Hlen : t_maxLogFiles t < len (logFilesOf (dir w1))).
  { assert (rotatedFileName :: logFilesOf (dir w) ⊆+ logFilesOf (dir w1))
      as Hsub%submseteq_length.
    { apply NoDup_submseteq.
      - apply NoDup_cons. split; [|apply NoDup_logFilesOf].
        rewrite elem_of_logFilesOf, Hnew. by intros [_ [? ?]].
      - intros n Hn. apply Hcand. by apply elem_of_cons in Hn. }
    cbn [length] in Hsub. unfold len in *. lia. }
  assert (Hdel : main ∈ filesToDeleteOf (t_maxLogFiles t) (dir w1)).
  { apply least_candidate_deleted; [lia|done| |].
    - apply Hcand. right. apply elem_of_logFilesOf. eauto.
    - intros m [->|[Hm [d Hd]]%elem_of_logFilesOf]%Hcand.
      + unfold rotatedFileName. apply le_prefix.
      + destruct (Hothers m d Hd Hm) as [x ->]. apply le_prefix. }
  exists (removals (t_logDir t) (filesToDeleteOf (t_maxLogFiles t) (dir w1)) w1).
  split_and!.
  - unfold rotationIteration. rewrite Hquit, Hmode, Hf.
    unfold mbind at 1, Go_bind at 1, mbind at 1, Go_bind at 1, file_Stat_Size.
    rewrite Hstat. rewrite decide_True by done.
    unfold mbind at 1, Go_bind at 1. fold main. rewrite Hrun.
    rewrite cleanup_run; [done|congruence|lia].
  - rewrite dir_removals. rewrite decide_True; [done|].
    split; [done|]. by rewrite Hf1.
  - by destruct (removals_frame (t_logDir t)
                   (filesToDeleteOf (t_maxLogFiles t) (dir w1)) w1) as (-> & _).
Qed.

(** X10.  In size-based rotation mode nothing happens as long as the size
    of the open file cannot be read or is below the configured maximum:
    whatever the number of passes, the loop leaves the state as it found it.
    It rotates nothing, runs no retention pass, prints nothing and does not
    read the clock, and a failing Stat is skipped in silence. *)
Theorem no_rotation_below_the_size_limit fuel t lastHour w :
  t_rotateBySize t = true →
  quitRotation w = false →
  (∀ f size, t_logFile t = Some f → statSize (faults w) = inl size →
             size < t_maxSize t) →
  rotationLoop fuel t lastHour w = Returns tt w.
Proof.
  intros Hmode Hquit Hsmall. induction fuel as [|fuel IH]; [done|].
  cbn [rotationLoop]. unfold mbind at 1, Go_bind.
  assert (Hpass : rotationIteration t lastHour w = Returns (Some lastHour) w).
  { unfold rotationIteration. rewrite Hquit, Hmode.
    unfold mbind at 1, Go_bind, file_Stat_Size.
    destruct (t_logFile t) as [f|] eqn:Hf; [|done].
    destruct (statSize (faults w)) as [size|e] eqn:Hstat; [|done].
    rewrite decide_False; [done|].
    specialize (Hsmall f size eq_refl eq_refl). lia. }
  rewrite Hpass. exact IH.
Qed.

(** X11.  In time-based rotation mode nothing happens as long as the clock shows
    the last-observed hour: every pass only reads the clock.  The interval
    is not looked at, so this holds for every interval, and in particular
    for the passes that follow start-up within the same hour. *)
Theorem no_rotation_within_the_hour fuel t lastHour w :
  t_rotateBySize t = false →
  quitRotation w = false →
  (∀ i, (i < fuel)%nat → hour (clock w (ticks w + i)) = lastHour) →
  rotationLoop fuel t lastHour w = Returns tt (Nat.iter fuel tick w).
Proof.
  intros Hmode. revert w. induction fuel as [|fuel IH]; intros w Hquit Hsame.
  - done.
  - cbn [rotationLoop]. unfold mbind at 1, Go_bind.
    unfold rotationIteration. rewrite Hquit, Hmode.
    erewrite bind_Returns by reflexivity. cbv beta zeta.
    rewrite decide_False; cycle 1.
    { intros Hne. apply Hne. rewrite <- (Hsame O) by lia. f_equal. f_equal. lia. }
    cbn [mret Go_ret]. rewrite IH; cbn [tick quitRotation clock ticks].
    + by rewrite Nat.iter_succ_r.
    + done.
    + intros i Hi. rewrite <- (Hsame (S i)) by lia. f_equal. f_equal. lia.
Qed.

(** X12.  In time-based rotation mode the boundaries are hours of the day that
    are multiples of the interval, whenever the process started: with any
    interval of 1 to 2562047 hours the pass that sees the hour become 0
    rotates, and with an interval of 24 hours or more no other pass does. *)
Theorem time_rotation_is_aligned_to_midnight t lastHour w n :
  t_rotateBySize t = false →
  quitRotation w = false →
  t_rotationInterval t = hoursDuration n →
  1 ≤ n ≤ 2562047 →
  let currentHour := hour (clock w (ticks w)) in
  (currentHour = 0 → lastHour ≠ 0 →
     rotationIteration t lastHour w
     = (fmt_Print ("rotating log file by time" +:+ nl);;
        rotateLogFile (t_logFile t) (t_fileName t);;
        cleanupLogFiles (t_logDir t) (t_maxLogFiles t);;
        mret (Some 0)) (tick w))
  ∧ (24 ≤ n → 1 ≤ currentHour ≤ 23 →
     rotationIteration t lastHour w = Returns (Some currentHour) (tick w)).
Proof.
  intros Hmode Hquit Hint Hn currentHour.
  assert (Hdiv : intHours (t_rotationInterval t) = n).
  { rewrite Hint. apply intHours_hoursDuration. lia. }
  unfold rotationIteration. rewrite Hquit, Hmode.
  erewrite bind_Returns by reflexivity. cbv beta zeta.
  cbn [clock ticks]. fold currentHour. rewrite Hdiv.
  split.
  - intros -> Hlast. rewrite decide_True by done.
    rewrite (decide_False (P := n = 0)) by lia.
    rewrite decide_True by (by rewrite Z.rem_0_l by lia).
    unfold mbind, Go_bind, fmt_Print.
    destruct (rotateLogFile _ _ _); [|done..].
    by destruct (cleanupLogFiles _ _ _).
  - intros Hlong Hcur. destruct (decide (currentHour ≠ lastHour)) as [Hne|Heq].
    + rewrite (decide_False (P := n = 0)) by lia.
      rewrite decide_False; [done|].
      rewrite Z.rem_small by lia. lia.
    + apply dec_stable in Heq. by rewrite Heq.
Qed.

(** ** The sinks and the factory *)

Lemma os_OpenFile_ok name w :
  dir w !! name ≠ Some Dir → openErr (faults w) = None →
  os_OpenFile name w
  = Returns (Some (fresh_handle w), None)
      (set_handles (<[fresh_handle w := mkHandle name true]> (handles w))
                   (set_dir (opened name (dir w)) w)).
Proof.
  intros Hn Ho. unfold os_OpenFile, opened. rewrite Ho.
  by destruct (dir w !! name) as [[|]|].
Qed.

Lemma os_OpenFile_refused name w :
  dir w !! name = Some Dir ∨ is_Some (openErr (faults w)) →
  ∃ e, os_OpenFile name w = Returns (None, Some e) w.
Proof.
  unfold os_OpenFile. intros [Hd|[e He]].
  - rewrite Hd. eauto.
  - rewrite He. destruct (dir w !! name) as [[|]|]; eauto.
Qed.

(** The flags the file logger ends up with: [LstdFlags|Lshortfile] with
    [Lshortfile] and [Llongfile] cleared. *)
Lemma flags_cleared :
  Z.ldiff (Z.lor LstdFlags Lshortfile) (Z.lor Lshortfile Llongfile)
  = LstdFlags.
Proof. reflexivity. Qed.

Lemma createCustomFileLogger_run
    loggerName logDir rotateBySize maxSize maxLogFiles rotationInterval
    console w :
  let main := loggerName +:+ ".log" in
  mkdirErr (faults w) = None →
  openErr (faults w) = None →
  dir w !! main ≠ Some Dir →
  ∃ w', createCustomFileLogger loggerName logDir rotateBySize maxSize
          maxLogFiles rotationInterval console w
        = Returns (size (logs w), shutdownFile (Some (fresh_handle w))) w'
    ∧ dir w' = opened main (dir w)
    ∧ handles w' = <[fresh_handle w := mkHandle main true]> (handles w)
    ∧ logs w' = <[size (logs w) :=
                    mkLogObj (loggerName +:+ ": ") LstdFlags console]> (logs w)
    ∧ tasks w' = tasks w ++
        [mkTask logDir main (Some (fresh_handle w)) rotateBySize maxSize
                maxLogFiles rotationInterval]
    ∧ quitRotation w' = false
    ∧ trace w' = trace w ∧ faults w' = faults w
    ∧ clock w' = clock w ∧ ticks w' = ticks w.
Proof.
  intros main Hmk Hop Hmain. unfold createCustomFileLogger.
  erewrite bind_Returns by reflexivity. rewrite Hmk.
  fold main.
  erewrite bind_Returns by (by apply os_OpenFile_ok).
  cbn [fst snd].
  erewrite bind_Returns by reflexivity.
  erewrite bind_Returns by reflexivity.
  erewrite bind_Returns by reflexivity.
  erewrite bind_Returns; cycle 1.
  { unfold log_Flags. cbn [logs set_logs spawn set_quitRotation set_handles
                            set_dir].
    rewrite lookup_insert_eq. reflexivity. }
  cbn [lg_flags].
  erewrite bind_Returns; cycle 1.
  { unfold log_SetFlags, log_update.
    cbn [logs set_logs spawn set_quitRotation set_handles set_dir].
    rewrite lookup_insert_eq. reflexivity. }
  eexists. split; [reflexivity|].
  cbn [dir handles logs tasks quitRotation trace faults clock ticks
       set_logs spawn set_quitRotation set_handles set_dir
       lg_prefix lg_console].
  split_and!; try done.
  by rewrite insert_insert_eq, flags_cleared.
Qed.

Lemma createSysLogger_run loggerName host port protocol w :
  createSysLogger loggerName host port protocol w
  = Returns
      (syslogSink true loggerName host port protocol (faults w),
       match syslogSink true loggerName host port protocol (faults w) with
       | Some _ => Some (mret tt)
       | None => None
       end)
      (emitAll (syslogDiagnostic true protocol (faults w)) w).
Proof.
  unfold createSysLogger, syslogSink, syslogDiagnostic.
  destruct (decide (protocol = "udp" ∨ protocol = "tcp")) as [Hgood|Hbad].
  - rewrite decide_False by (intros [? ?]; destruct Hgood; done).
    unfold mbind, Go_bind, srslog_Dial.
    by destruct (dialErr (faults w)).
  - rewrite decide_True by (split; intros ->; apply Hbad; tauto).
    reflexivity.
Qed.

Lemma Go_bind_skip (m : Go unit) w : (m;; mret tt) w = m w.
Proof. unfold mbind, Go_bind. by destruct (m w) as [[] ?| |]. Qed.

Lemma emitAll_frame evs w :
  dir (emitAll evs w) = dir w
  ∧ handles (emitAll evs w) = handles w
  ∧ tasks (emitAll evs w) = tasks w
  ∧ quitRotation (emitAll evs w) = quitRotation w
  ∧ faults (emitAll evs w) = faults w
  ∧ clock (emitAll evs w) = clock w
  ∧ ticks (emitAll evs w) = ticks w.
Proof.
  revert w. induction evs as [|e evs IH]; intros w; [done|].
  cbn [emitAll foldl]. apply (IH (emit e w)).
Qed.

(** The factory, when the folder and the main log file can be opened. *)
Lemma initLoggerFactory_run
    loggerName logLevel folder bySize maxSize maxFiles interval console
    enableSyslog host port protocol w :
  let main := loggerName +:+ ".log" in
  mkdirErr (faults w) = None →
  openErr (faults w) = None →
  dir w !! main ≠ Some Dir →
  ∃ mk w1 hook,
    initLoggerFactory loggerName logLevel folder bySize maxSize maxFiles
      interval console enableSyslog host port protocol w = Returns mk w1
    ∧ (∀ p, mk p
         = mkLogger (Some (size (logs w)))
             (if decide (p ≠ "") then p +:+ ": " else "")
             (syslogSink enableSyslog loggerName host port protocol
                         (faults w))
             hook (thresholdOf logLevel))
    ∧ (∀ w', hook w' = shutdownFile (Some (fresh_handle w)) w')
    ∧ dir w1 = opened main (dir w)
    ∧ handles w1 = <[fresh_handle w := mkHandle main true]> (handles w)
    ∧ logs w1 = <[size (logs w) :=
                    mkLogObj (loggerName +:+ ": ") LstdFlags console]> (logs w)
    ∧ tasks w1 = tasks w ++
        [mkTask folder main (Some (fresh_handle w)) bySize maxSize maxFiles
                (hoursDuration interval)]
    ∧ quitRotation w1 = false
    ∧ trace w1 = trace w ++ syslogDiagnostic enableSyslog protocol (faults w)
    ∧ faults w1 = faults w.
Proof.
  intros main Hmk Hop Hmain.
  destruct (createCustomFileLogger_run loggerName folder bySize maxSize
              maxFiles (hoursDuration interval) console w Hmk Hop Hmain)
    as (w' & Hrun & Hd & Hh & Hl & Ht & Hq & Htr & Hf & _).
  assert (Hlevel : (if decide (ToLower logLevel = "debug") then LogLevelDebug
                    else if decide (ToLower logLevel = "info") then LogLevelInfo
                    else if decide (ToLower logLevel = "error")
                         then LogLevelError
                    else LogLevelInfo) = thresholdOf logLevel).
  { unfold thresholdOf. repeat case_decide; congruence. }
  unfold initLoggerFactory.
  erewrite bind_Returns by exact Hrun. cbn [fst snd].
  destruct enableSyslog.
  - erewrite bind_Returns by apply createSysLogger_run. cbn [fst snd].
    eexists _, _, _. split; [reflexivity|].
    cbn [logger syslogger Destroy loglevel].
    rewrite Hlevel, Hf.
    destruct (emitAll_frame (syslogDiagnostic true protocol (faults w)) w')
      as (-> & -> & -> & -> & -> & _).
    rewrite logs_emitAll.
    split_and!; try done.
    + intros w2. destruct (syslogSink _ _ _ _ _ _); apply Go_bind_skip.
    + by rewrite trace_emitAll, Htr.
  - erewrite bind_Returns by reflexivity. cbn [fst snd].
    eexists _, _, _. split; [reflexivity|].
    cbn [logger syslogger Destroy loglevel syslogSink syslogDiagnostic].
    rewrite Hlevel.
    split_and!; try done.
    + intros w2. apply Go_bind_skip.
    + by rewrite Htr, app_nil_r.
Qed.

(** X13.  [createSysLogger] never ends the call: it hands back a connected writer
    exactly when the protocol is spelled udp or tcp and the dial succeeds,
    and otherwise a nil writer and a nil hook after one line on the
    diagnostic stream. *)
Theorem createSysLogger_is_best_effort loggerName host port protocol w :
  ∃ sink hook w',
    createSysLogger loggerName host port protocol w = Returns (sink, hook) w'
    ∧ (is_Some sink ↔ (protocol = "udp" ∨ protocol = "tcp")
                       ∧ dialErr (faults w) = None)
    ∧ (is_Some sink →
         sink = Some (mkSyslogWriter protocol (host +:+ ":" +:+ fmt_d port)
                                     loggerName)
         ∧ is_Some hook ∧ w' = w)
    ∧ (sink = None → hook = None ∧ ∃ line, w' = emit (Stdout line) w).
Proof.
  eexists _, _, _. split; [apply createSysLogger_run|].
  unfold syslogSink, syslogDiagnostic.
  destruct (decide (protocol = "udp" ∨ protocol = "tcp")) as [Hgood|Hbad].
  - destruct (dialErr (faults w)) as [e|]; cbn [emitAll foldl].
    + split_and!.
      * split; [by intros [? ?]|by intros [_ ?]].
      * by intros [? ?].
      * intros _. split; [done|]. by eexists.
    + split_and!; [done| |done]. intros _. split_and!; [done| |done]. by eexists.
  - cbn [emitAll foldl]. split_and!.
    + split; [by intros [? ?]|tauto].
    + by intros [? ?].
    + intros _. split; [done|]. by eexists.
Qed.

(** X14.  [createCustomFileLogger] either opens the sink or ends the process.
    When the folder can be made and the main log file opened, it returns: an
    existing main log file keeps its content and a missing one is created
    empty, the handle is open on it, exactly one rotation task is started on
    that handle, and the logger it hands back has the prefix loggerName
    followed by a colon and a space and the flags for date and time only.
    In every other case the process exits with code 1 after one line on the
    standard logger, with no task started. *)
Theorem createCustomFileLogger_opens_or_exits
    loggerName logDir rotateBySize maxSize maxLogFiles rotationInterval
    console w :
  let main := loggerName +:+ ".log" in
  let run := createCustomFileLogger loggerName logDir rotateBySize maxSize
               maxLogFiles rotationInterval console w in
  (mkdirErr (faults w) = None → openErr (faults w) = None →
   dir w !! main ≠ Some Dir →
   ∃ lg hook w', run = Returns (lg, hook) w'
     ∧ (∀ e, dir w !! main = Some e → dir w' = dir w)
     ∧ (dir w !! main = None → dir w' = <[main := File ""]> (dir w))
     ∧ handles w' !! fresh_handle w = Some (mkHandle main true)
     ∧ logs w' !! lg = Some (mkLogObj (loggerName +:+ ": ") LstdFlags console)
     ∧ Z.land LstdFlags (Z.lor Lshortfile Llongfile) = 0
     ∧ tasks w' = tasks w ++
         [mkTask logDir main (Some (fresh_handle w)) rotateBySize maxSize
                 maxLogFiles rotationInterval]
     ∧ quitRotation w' = false
     ∧ trace w' = trace w)
  ∧ (is_Some (mkdirErr (faults w)) ∨ is_Some (openErr (faults w))
     ∨ dir w !! main = Some Dir →
     ∃ line, run = Exits 1 (emit (Stderr line) w)).
Proof.
  intros main run. split.
  - intros Hmk Hop Hmain.
    destruct (createCustomFileLogger_run loggerName logDir rotateBySize
                maxSize maxLogFiles rotationInterval console w Hmk Hop Hmain)
      as (w' & Hrun & Hd & Hh & Hl & Ht & Hq & Htr & _).
    eexists _, _, w'. split; [exact Hrun|].
    fold main in Hd, Hh, Ht. rewrite Hd, Hh, Hl. unfold opened.
    split_and!; try done.
    + by intros e ->.
    + by intros ->.
    + apply lookup_insert_eq.
    + apply lookup_insert_eq.
  - intros Hbad. unfold run, createCustomFileLogger.
    erewrite bind_Returns by reflexivity.
    destruct (mkdirErr (faults w)) as [e|] eqn:Hmk; [by eexists|].
    destruct (os_OpenFile_refused main w) as [e He].
    { destruct Hbad as [[? [=]]|[?|?]]; [by right|by left]. }
    fold main. erewrite bind_Returns by exact He. by eexists.
Qed.

(** X15.  Every view of one factory call holds the same file logger (the one with
    prefix loggerName, colon, space and the flags for date and time), the
    same syslog writer, the same threshold and the same shutdown hook; views
    differ in their prefix only, which is empty for the empty name and the
    name followed by a colon and a space otherwise. *)
Theorem views_share_the_sinks
    loggerName logLevel folder bySize maxSize maxFiles interval console
    enableSyslog host port protocol w :
  mkdirErr (faults w) = None →
  openErr (faults w) = None →
  dir w !! (loggerName +:+ ".log") ≠ Some Dir →
  ∃ mk w1 lg,
    initLoggerFactory loggerName logLevel folder bySize maxSize maxFiles
      interval console enableSyslog host port protocol w = Returns mk w1
    ∧ logs w1 !! lg = Some (mkLogObj (loggerName +:+ ": ") LstdFlags console)
    ∧ ∀ p q,
        logger (mk p) = Some lg
        ∧ logger (mk q) = logger (mk p)
        ∧ syslogger (mk q) = syslogger (mk p)
        ∧ loglevel (mk q) = loglevel (mk p)
        ∧ Destroy (mk q) = Destroy (mk p)
        ∧ prefix (mk p) = (if decide (p = "") then "" else p +:+ ": ").
Proof.
  intros Hmk Hop Hmain.
  destruct (initLoggerFactory_run loggerName logLevel folder bySize maxSize
              maxFiles interval console enableSyslog host port protocol w
              Hmk Hop Hmain)
    as (mk & w1 & hook & Hrun & Hview & _ & _ & _ & Hl & _).
  exists mk, w1, (size (logs w)). split_and!; [done| |].
  - rewrite Hl. apply lookup_insert_eq.
  - intros p q. rewrite !Hview. cbn [logger syslogger loglevel Destroy prefix].
    split_and!; try done. by repeat case_decide.
Qed.

(** X16.  A level that lower-cases to neither debug nor error (info, or any
    unrecognised word handed to [initLoggerFactory]) gives the info
    threshold: Debugf writes nothing, and Infof and Errorf hand the view
    prefix, the level tag and the format to the sinks, without a caller
    name. *)
Theorem level_defaults_to_info
    loggerName logLevel folder bySize maxSize maxFiles interval console
    enableSyslog host port protocol w p :
  mkdirErr (faults w) = None →
  openErr (faults w) = None →
  dir w !! (loggerName +:+ ".log") ≠ Some Dir →
  ToLower logLevel ≠ "debug" → ToLower logLevel ≠ "error" →
  ∃ mk w1,
    initLoggerFactory loggerName logLevel folder bySize maxSize maxFiles
      interval console enableSyslog host port protocol w = Returns mk w1
    ∧ loglevel (mk p) = LogLevelInfo
    ∧ ∀ callers format v w', logger_ok (mk p) w' →
        let l := mk p in
        let out (sev : Severity) (f : string) :=
          emitAll (toSyslog l sev f v ++ toLogger l w' f v) w' in
        Debugf l callers format v w' = Returns tt w'
        ∧ Infof l callers format v w'
          = Returns tt (out SevInfo (prefix l +:+ "info: " +:+ format))
        ∧ Errorf l callers format v w'
          = Returns tt (out SevErr (prefix l +:+ "error: " +:+ format)).
Proof.
  intros Hmk Hop Hmain Hnd Hne.
  destruct (initLoggerFactory_run loggerName logLevel folder bySize maxSize
              maxFiles interval console enableSyslog host port protocol w
              Hmk Hop Hmain)
    as (mk & w1 & hook & Hrun & Hview & _).
  assert (Hlevel : loglevel (mk p) = LogLevelInfo).
  { rewrite Hview. cbn [loglevel]. unfold thresholdOf.
    by rewrite !decide_False. }
  exists mk, w1. split_and!; [done..|].
  intros callers format v w' Hok l out.
  pose proof (call_run MDebugf l callers format v w' Hok) as HD.
  pose proof (call_run MInfof l callers format v w' Hok) as HI.
  pose proof (call_run MErrorf l callers format v w' Hok) as HE.
  cbn [call tag severity] in HD, HI, HE.
  unfold callerSegment, accepted in *. fold l in Hlevel.
  rewrite Hlevel in *. unfold LogLevelInfo, LogLevelDebug in *.
  rewrite decide_False in HD by lia.
  rewrite decide_True in HI by lia. rewrite decide_False in HI by lia.
  rewrite decide_True in HE by done. rewrite decide_False in HE by lia.
  done.
Qed.

Lemma file_Close_returns f w :
  ∃ r w', file_Close f w = Returns r w'
    ∧ dir w' = dir w ∧ trace w' = trace w ∧ tasks w' = tasks w
    ∧ quitRotation w' = quitRotation w
    ∧ (∀ h hd, f = Some h → handles w !! h = Some hd → h_open hd = true →
               closeErr (faults w) = None →
               handles w' !! h = Some (mkHandle (h_name hd) false))
    ∧ ∃ r', file_Close f w' = Returns r' w'.
Proof.
  unfold file_Close.
  destruct (f ≫= (λ n, handles w !! n)) as [hd|] eqn:Hf.
  - destruct (h_open hd) eqn:Ho.
    + destruct (closeErr (faults w)) as [e|] eqn:Hc.
      * eexists _, w. split_and!; try done.
        rewrite Hf, Ho, Hc. by eexists.
      * destruct f as [h|]; [|done]. cbn [mbind option_bind] in Hf.
        eexists _, _. split; [reflexivity|].
        cbn [dir trace tasks quitRotation handles faults set_handles default
             from_option id mbind option_bind].
        split_and!; try done.
        -- intros h0 hd0 Heq Hh0 _ _.
           assert (h0 = h) as -> by congruence.
           assert (hd0 = hd) as -> by congruence.
           by rewrite lookup_alter_eq, Hf.
        -- unfold file_Close.
           cbn [handles set_handles mbind option_bind].
           rewrite lookup_alter_eq, Hf.
           cbn [fmap option_fmap option_map h_open]. by eexists.
    + eexists _, w. split_and!; try done.
      * intros h hd' ->. cbn [mbind option_bind] in Hf. congruence.
      * rewrite Hf, Ho. by eexists.
  - eexists _, w. split_and!; try done.
    + intros h hd' ->. cbn [mbind option_bind] in Hf. congruence.
    + rewrite Hf. by eexists.
Qed.

Lemma shutdownFile_run h w :
  ∃ w', shutdownFile (Some h) w = Returns tt w'
    ∧ quitRotation w' = true
    ∧ dir w' = dir w ∧ trace w' = trace w ∧ tasks w' = tasks w
    ∧ (∀ hd, handles w !! h = Some hd → h_open hd = true →
             closeErr (faults w) = None →
             handles w' !! h = Some (mkHandle (h_name hd) false))
    ∧ shutdownFile (Some h) w' = Returns tt w'.
Proof.
  destruct (file_Close_returns (Some h) (set_quitRotation true w))
    as (r & w' & Hrun & Hd & Htr & Ht & Hq & Hh & r' & Hagain).
  exists w'. unfold shutdownFile.
  erewrite bind_Returns by reflexivity.
  erewrite bind_Returns by exact Hrun.
  split_and!; try done.
  - intros hd Hhd Ho Hc. by apply (Hh h hd).
  - destruct w' as [d hs ls tr c tk q ts fs]. cbn in Hq. subst q.
    erewrite bind_Returns by reflexivity.
    unfold set_quitRotation.
    cbn [dir handles logs trace clock ticks tasks faults].
    by erewrite bind_Returns by exact Hagain.
Qed.

(** X17.  The shutdown hook of a view always returns.  It sets the quit flag and
    closes the log file; from then on a pass of the rotation loop returns at
    once without touching anything, so the loop ends at its next pass; and a
    second call of the hook changes nothing. *)
Theorem Destroy_stops_the_rotation_task
    loggerName logLevel folder bySize maxSize maxFiles interval console
    enableSyslog host port protocol w0 p :
  mkdirErr (faults w0) = None →
  openErr (faults w0) = None →
  dir w0 !! (loggerName +:+ ".log") ≠ Some Dir →
  ∃ mk w1 t,
    initLoggerFactory loggerName logLevel folder bySize maxSize maxFiles
      interval console enableSyslog host port protocol w0 = Returns mk w1
    ∧ tasks w1 = tasks w0 ++ [t]
    ∧ ∀ w, ∃ w',
        Destroy (mk p) w = Returns tt w'
        ∧ quitRotation w' = true
        ∧ dir w' = dir w ∧ trace w' = trace w
        ∧ (∀ f hd, t_logFile t = Some f → handles w !! f = Some hd →
             h_open hd = true → closeErr (faults w) = None →
             handles w' !! f = Some (mkHandle (h_name hd) false))
        ∧ (∀ lastHour, rotationIteration t lastHour w' = Returns None w')
        ∧ (∀ fuel lastHour, rotationLoop fuel t lastHour w' = Returns tt w')
        ∧ Destroy (mk p) w' = Returns tt w'.
Proof.
  intros Hmk Hop Hmain.
  destruct (initLoggerFactory_run loggerName logLevel folder bySize maxSize
              maxFiles interval console enableSyslog host port protocol w0
              Hmk Hop Hmain)
    as (mk & w1 & hook & Hrun & Hview & Hhook & _ & _ & _ & Ht & _).
  eexists mk, w1, _. split_and!; [done..|].
  intros w. rewrite Hview. cbn [Destroy t_logFile]. rewrite Hhook.
  destruct (shutdownFile_run (fresh_handle w0) w)
    as (w' & Hrun' & Hq & Hd & Htr & _ & Hh & Hagain).
  exists w'. rewrite Hhook.
  assert (Hpass : ∀ lastHour,
            rotationIteration
              (mkTask folder (loggerName +:+ ".log") (Some (fresh_handle w0))
                      bySize maxSize maxFiles (hoursDuration interval))
              lastHour w' = Returns None w').
  { intros lastHour. unfold rotationIteration. by rewrite Hq. }
  split_and!; try done.
  - intros f hd [= <-]. apply Hh.
  - intros [|fuel] lastHour; [done|].
    cbn [rotationLoop]. unfold mbind, Go_bind. by rewrite Hpass.
Qed.

Lemma Validate_accepts c :
  Validate c = None →
  LoggerName c ≠ ""
  ∧ (EnableSyslog c = true →
       SyslogHost c ≠ "" ∧ 1 ≤ SyslogPort c ≤ 65535
       ∧ (ToLower (SyslogProtocol c) = "udp"
          ∨ ToLower (SyslogProtocol c) = "tcp"))
  ∧ (RotationBySize c = true → 0 < MaxFileSizeMB c)
  ∧ (RotationBySize c = false → 0 < RotationIntervalHour c)
  ∧ 0 < MaxLogFiles c.
Proof.
  unfold Validate.
  destruct (decide (LoggerName c = "")); [done|].
  destruct (decide (_ ∧ _ ∧ _)); [done|].
  destruct (EnableSyslog c).
  - destruct (decide (SyslogHost c = "")); [done|].
    destruct (decide (_ ∨ _)); [done|].
    destruct (decide (_ ∧ _)) as [|Hp]; [done|].
    destruct (RotationBySize c).
    + destruct (decide (MaxFileSizeMB c ≤ 0)); [done|].
      destruct (decide (MaxLogFiles c ≤ 0)); [done|].
      intros _. split_and!; try done; try lia.
      intros _. split_and!; try done; try lia.
      destruct (decide (ToLower (SyslogProtocol c) = "udp")); [by left|].
      destruct (decide (ToLower (SyslogProtocol c) = "tcp")); [by right|].
      tauto.
    + destruct (decide (RotationIntervalHour c ≤ 0)); [done|].
      destruct (decide (MaxLogFiles c ≤ 0)); [done|].
      intros _. split_and!; try done; try lia.
      intros _. split_and!; try done; try lia.
      destruct (decide (ToLower (SyslogProtocol c) = "udp")); [by left|].
      destruct (decide (ToLower (SyslogProtocol c) = "tcp")); [by right|].
      tauto.
  - destruct (RotationBySize c).
    + destruct (decide (MaxFileSizeMB c ≤ 0)); [done|].
      destruct (decide (MaxLogFiles c ≤ 0)); [done|].
      intros _. split_and!; try done; lia.
    + destruct (decide (RotationIntervalHour c ≤ 0)); [done|].
      destruct (decide (MaxLogFiles c ≤ 0)); [done|].
      intros _. split_and!; try done; lia.
Qed.

(** X18.  The validator compares the syslog protocol in lower case, the factory
    as it is spelled.  A configuration with syslog enabled whose protocol is
    udp or tcp in another letter case passes validation, and the factory
    then reports an invalid protocol, does not dial, and hands out views
    without a syslog writer. *)
Theorem protocol_case_disables_syslog cfg w :
  Validate cfg = None →
  EnableSyslog cfg = true →
  SyslogProtocol cfg ≠ "udp" → SyslogProtocol cfg ≠ "tcp" →
  mkdirErr (faults w) = None →
  openErr (faults w) = None →
  dir w !! (LoggerName cfg +:+ ".log") ≠ Some Dir →
  (ToLower (SyslogProtocol cfg) = "udp" ∨ ToLower (SyslogProtocol cfg) = "tcp")
  ∧ ∃ mk w1,
      InitLoggerFactoryByObj cfg w = Returns mk w1
      ∧ (∀ p, syslogger (mk p) = None)
      ∧ trace w1 = trace w ++
          [Stdout ("invalid syslog protocol: " +:+ SyslogProtocol cfg +:+
                   ". Use 'udp' or 'tcp'.")].
Proof.
  intros HV Hsys Hudp Htcp Hmk Hop Hmain.
  destruct (Validate_accepts cfg HV) as (_ & Hs & _).
  split; [by apply Hs|].
  unfold InitLoggerFactoryByObj. rewrite HV.
  destruct (initLoggerFactory_run (LoggerName cfg) (Level cfg)
              (OutputFolder cfg) (RotationBySize cfg) (MaxFileSizeMB cfg)
              (MaxLogFiles cfg) (RotationIntervalHour cfg)
              (EnableConsoleLog cfg) (EnableSyslog cfg) (SyslogHost cfg)
              (SyslogPort cfg) (SyslogProtocol cfg) w Hmk Hop Hmain)
    as (mk & w1 & hook & Hrun & Hview & _ & _ & _ & _ & _ & _ & Htr & _).
  exists mk, w1. split_and!; [done| |].
  - intros p. rewrite Hview. cbn [syslogger]. unfold syslogSink.
    rewrite Hsys. by rewrite decide_False by (intros [?|?]; done).
  - rewrite Htr. unfold syslogDiagnostic. rewrite Hsys.
    by rewrite decide_False by (intros [?|?]; done).
Qed.


(** ** The validator *)

(** X20.  The validator reads the fields in use and no other: the console switch
    and the output folder are never looked at (an empty folder is accepted),
    the syslog host, port and protocol only when syslog is enabled, the size
    limit only in size-based mode and the interval only in time-based mode.
    Two configurations that agree on the fields in use get the same
    verdict. *)
Theorem Validate_reads_only_fields_in_use c c' :
  LoggerName c = LoggerName c' →
  Level c = Level c' →
  EnableSyslog c = EnableSyslog c' →
  (EnableSyslog c = true →
     SyslogHost c = SyslogHost c' ∧ SyslogPort c = SyslogPort c'
     ∧ SyslogProtocol c = SyslogProtocol c') →
  RotationBySize c = RotationBySize c' →
  (RotationBySize c = true → MaxFileSizeMB c = MaxFileSizeMB c') →
  (RotationBySize c = false →
     RotationIntervalHour c = RotationIntervalHour c') →
  MaxLogFiles c = MaxLogFiles c' →
  Validate c = Validate c'.
Proof.
  intros Hn Hl Hs Hsys Hr Hsz Hint Hf. unfold Validate.
  rewrite <- Hn, <- Hl, <- Hs, <- Hr, <- Hf.
  destruct (EnableSyslog c);
    [destruct (Hsys eq_refl) as (<- & <- & <-)|];
    (destruct (RotationBySize c);
       [rewrite <- (Hsz eq_refl)|rewrite <- (Hint eq_refl)]);
    reflexivity.
Qed.

(** ** The predecessor *)

(** X21.  The facade of the current package extends the one of its predecessor:
    on the same sinks, with an empty view prefix and a threshold below
    debug, Debugf, Infof and Errorf do exactly what the legacy methods do,
    whatever the call stack. *)
Theorem facade_extends_legacy m (l : Legacy.Logger) callers format v w :
  Legacy.loglevel l < LogLevelDebug →
  call m (upgrade "" l) callers format v w = legacyCall m l format v w.
Proof.
  intros Hlevel. unfold LogLevelDebug in Hlevel.
  destruct m; cbn [call legacyCall];
    unfold Debugf, Infof, Errorf, Legacy.Debugf, Legacy.Infof, Legacy.Errorf,
           upgrade, LogLevelDebug, LogLevelInfo in *;
    cbn [loglevel logger syslogger prefix];
    repeat case_decide; try lia; reflexivity.
Qed.

Lemma legacy_createCustomFileLogger_run
    loggerName logDir rotateBySize maxSize maxLogFiles rotationInterval
    console w :
  mkdirErr (faults w) = None →
  openErr (faults w) = None →
  dir w !! "kodo.log" ≠ Some Dir →
  ∃ w', Legacy.createCustomFileLogger loggerName logDir rotateBySize maxSize
          maxLogFiles rotationInterval console w
        = Returns (size (logs w), shutdownFile (Some (fresh_handle w))) w'
    ∧ dir w' = opened "kodo.log" (dir w)
    ∧ handles w' = <[fresh_handle w := mkHandle "kodo.log" true]> (handles w)
    ∧ logs w' = <[size (logs w) :=
                    mkLogObj (loggerName +:+ ": ") (Z.lor LstdFlags Lshortfile)
                             console]> (logs w)
    ∧ tasks w' = tasks w ++
        [mkTask logDir "kodo.log" (Some (fresh_handle w)) rotateBySize maxSize
                maxLogFiles rotationInterval]
    ∧ trace w' = trace w ∧ faults w' = faults w
    ∧ clock w' = clock w ∧ ticks w' = ticks w.
Proof.
  intros Hmk Hop Hmain. unfold Legacy.createCustomFileLogger.
  erewrite bind_Returns by reflexivity. rewrite Hmk.
  erewrite bind_Returns by (by apply os_OpenFile_ok).
  cbn [fst snd].
  erewrite bind_Returns by reflexivity.
  erewrite bind_Returns by reflexivity.
  erewrite bind_Returns by reflexivity.
  eexists. split; [reflexivity|].
  cbn [dir handles logs tasks quitRotation trace faults clock ticks
       set_logs spawn set_quitRotation set_handles set_dir].
  split_and!; done.
Qed.

(** X22.  The file sink of the predecessor writes kodo.log whatever the logger is
    called, and its logger keeps the flag for the file and line of the call
    site.  kodo.log is the one name the retention pass skips, so the pass
    that runs when the rotation task starts leaves the main log file in
    place. *)
Theorem legacy_sink_keeps_its_main_log
    loggerName logDir rotateBySize maxSize maxLogFiles rotationInterval
    console w :
  mkdirErr (faults w) = None →
  openErr (faults w) = None →
  dir w !! "kodo.log" ≠ Some Dir →
  0 ≤ maxLogFiles →
  ∃ lg hook w1 t lastHour w2 e,
    Legacy.createCustomFileLogger loggerName logDir rotateBySize maxSize
      maxLogFiles rotationInterval console w = Returns (lg, hook) w1
    ∧ tasks w1 = tasks w ++ [t]
    ∧ t_fileName t = "kodo.log"
    ∧ logs w1 !! lg
      = Some (mkLogObj (loggerName +:+ ": ") (Z.lor LstdFlags Lshortfile)
                       console)
    ∧ Z.land (Z.lor LstdFlags Lshortfile) Lshortfile = Lshortfile
    ∧ dir w1 !! "kodo.log" = Some e ∧ e ≠ Dir
    ∧ rotationStart t w1 = Returns lastHour w2
    ∧ dir w2 !! "kodo.log" = Some e.
Proof.
  intros Hmk Hop Hmain Hk.
  destruct (legacy_createCustomFileLogger_run loggerName logDir rotateBySize
              maxSize maxLogFiles rotationInterval console w Hmk Hop Hmain)
    as (w1 & Hrun & Hd & _ & Hl & Ht & _).
  assert (∃ e, dir w1 !! "kodo.log" = Some e ∧ e ≠ Dir) as (e & He & Hne).
  { rewrite Hd. unfold opened.
    destruct (dir w !! "kodo.log") as [e|] eqn:Hkodo.
    - exists e. split; [done|]. intros ->. done.
    - exists (File ""). by rewrite lookup_insert_eq. }
  destruct (cleanup_keeps_kodo_log logDir maxLogFiles w1 Hk)
    as (w2 & Hclean & Hkept).
  eexists _, _, w1, _, _, _, e. split; [exact Hrun|].
  split_and!; [exact Ht|done| |done|done|done| |].
  - rewrite Hl. apply lookup_insert_eq.
  - unfold rotationStart. cbn [t_logDir t_maxLogFiles].
    erewrite bind_Returns by exact Hclean.
    erewrite bind_Returns by reflexivity. reflexivity.
  - cbn [dir tick]. by rewrite Hkept.
Qed.

Lemma legacy_InitLoggerFactory_run
    loggerName logLevel folder bySize maxSize maxFiles interval console
    enableSyslog host port protocol w :
  mkdirErr (faults w) = None →
  openErr (faults w) = None →
  dir w !! "kodo.log" ≠ Some Dir →
  ∃ mk w1 l,
    Legacy.InitLoggerFactory loggerName logLevel folder bySize maxSize
      maxFiles interval console enableSyslog host port protocol w
    = Returns mk w1
    ∧ Legacy.logger l = Some (size (logs w))
    ∧ Legacy.loglevel l = thresholdOf logLevel
    ∧ (∀ p, mk p = (log_SetPrefix (size (logs w)) (p +:+ ": ");; mret l))
    ∧ logs w1 = <[size (logs w) :=
                    mkLogObj (loggerName +:+ ": ") (Z.lor LstdFlags Lshortfile)
                             console]> (logs w).
Proof.
  intros Hmk Hop Hmain.
  destruct (legacy_createCustomFileLogger_run loggerName folder bySize
              maxSize maxFiles (hoursDuration interval) console w Hmk Hop
              Hmain)
    as (w' & Hrun & _ & _ & Hl & _).
  assert (Hlevel : (if decide (ToLower logLevel = "debug") then LogLevelDebug
                    else if decide (ToLower logLevel = "info") then LogLevelInfo
                    else if decide (ToLower logLevel = "error")
                         then LogLevelError
                    else LogLevelInfo) = thresholdOf logLevel).
  { unfold thresholdOf. repeat case_decide; congruence. }
  unfold Legacy.InitLoggerFactory.
  erewrite bind_Returns by exact Hrun. cbn [fst snd].
  destruct enableSyslog.
  - erewrite bind_Returns by apply createSysLogger_run. cbn [fst snd].
    eexists _, _, _. split; [reflexivity|].
    rewrite logs_emitAll, Hlevel.
    split_and!; try done; reflexivity.
  - erewrite bind_Returns by reflexivity. cbn [fst snd].
    eexists _, _, _. split; [reflexivity|].
    rewrite Hlevel.
    split_and!; try done; reflexivity.
Qed.

(** X23.  The constructor of the predecessor hands out one shared logger and
    overwrites the prefix of its one file logger on every call: after views
    were asked for under the names p and then q, the two views are the same
    value, and a line written through either carries the prefix q, colon,
    space; neither p nor the logger name is on it. *)
Theorem legacy_views_share_one_prefix
    loggerName logLevel folder bySize maxSize maxFiles interval console
    enableSyslog host port protocol w p q :
  mkdirErr (faults w) = None →
  openErr (faults w) = None →
  dir w !! "kodo.log" ≠ Some Dir →
  ∃ mk w1 l w2 w3 lg,
    Legacy.InitLoggerFactory loggerName logLevel folder bySize maxSize
      maxFiles interval console enableSyslog host port protocol w
    = Returns mk w1
    ∧ mk p w1 = Returns l w2
    ∧ mk q w2 = Returns l w3
    ∧ Legacy.logger l = Some lg
    ∧ logs w2 !! lg
      = Some (mkLogObj (p +:+ ": ") (Z.lor LstdFlags Lshortfile) console)
    ∧ logs w3 !! lg
      = Some (mkLogObj (q +:+ ": ") (Z.lor LstdFlags Lshortfile) console)
    ∧ ∀ format v, ∃ w4,
        Legacy.Errorf l format v w3 = Returns tt w4
        ∧ last (trace w4)
          = Some (LogLine (mkLogObj (q +:+ ": ") (Z.lor LstdFlags Lshortfile)
                                    console)
                          ("error: " +:+ format) v).
Proof.
  intros Hmk Hop Hmain.
  destruct (legacy_InitLoggerFactory_run loggerName logLevel folder bySize
              maxSize maxFiles interval console enableSyslog host port
              protocol w Hmk Hop Hmain)
    as (mk & w1 & l & Hrun & Hlg & _ & Hview & Hl).
  eexists mk, w1, l, _, _, (size (logs w)).
  split; [exact Hrun|].
  rewrite !Hview. unfold log_SetPrefix, log_update.
  split_and!.
  - unfold mbind, Go_bind. rewrite Hl, lookup_insert_eq. reflexivity.
  - unfold mbind, Go_bind. cbn [logs set_logs]. rewrite lookup_insert_eq.
    reflexivity.
  - done.
  - cbn [logs set_logs lg_flags lg_console]. apply lookup_insert_eq.
  - cbn [logs set_logs lg_flags lg_console]. apply lookup_insert_eq.
  - intros format v. unfold Legacy.Errorf. rewrite Hlg.
    unfold mbind, Go_bind, syslog_Send, log_Printf.
    destruct (Legacy.syslogger l);
      cbn [logs set_logs emit mret Go_ret lg_flags lg_console];
      rewrite lookup_insert_eq;
      (eexists; split; [reflexivity|]); cbn [trace emit set_logs];
      apply last_snoc.
Qed.
End further_properties.

(** * The properties on concrete inputs *)

#[local] Existing Instance plainLib.

(** C1.  The retention pass does delete the live main log file: logger
    [app] starts in a folder that holds two rotated files of an earlier
    run, with MaxLogFiles = 2; its sink creates [app.log], and the pass the
    rotation goroutine runs first removes it, the only name it leaves out
    being [kodo.log]. *)
Theorem cleanup_deletes_main_log :
  ∃ r w1 t lastHour w2,
    createCustomFileLogger "app" "logs" true 10 2 0 false w_prev2 = Returns r w1
    ∧ dir w1 !! "app.log" = Some (File "")
    ∧ tasks w1 = [t]
    ∧ rotationStart t w1 = Returns lastHour w2
    ∧ dir w2 !! "app.log" = None
    ∧ dir w2 !! "app.log.20240101-00" = Some (File "app.log.20240101-00")
    ∧ dir w2 !! "app.log.20240101-01" = Some (File "app.log.20240101-01").
Proof.
  eexists _, _, _, _, _.
  split; [vm_compute; reflexivity|].
  split; [vm_compute; reflexivity|].
  split; [vm_compute; reflexivity|].
  split; [vm_compute; reflexivity|].
  vm_compute. done.
Qed.

(** C2 as stated fails: a rotation at 09h on 2024-03-07 leaves no file under
    the ten-digit suffix; the rotated file carries the hyphen. *)
Lemma rotate_name_counterexample :
  ∃ w', rotateLogFile (Some O) "app.log" w_rot = Returns tt w'
    ∧ dir w' !! ("app.log" +:+ "." +:+ suffix_YYYYMMDDHH t0) = None
    ∧ dir w' !! "app.log.20240307-09" = Some (File "app.log").
Proof.
  eexists. split; [vm_compute; reflexivity|]. split; vm_compute; reflexivity.
Qed.

(** The rotation of [app.log] at 09h on 2024-03-07, all calls succeeding. *)
Lemma rotate_renames_with_hour_stamp_witness :
  validTime t0
  ∧ ∃ w', rotateLogFile (Some O) "app.log" w_rot = Returns tt w'
      ∧ dir w' !! "app.log.20240307-09" = Some (File "app.log")
      ∧ dir w' !! "app.log" = Some (File "")
      ∧ handles w' !! O = Some (mkHandle "app.log" true).
Proof.
  assert (Ht : validTime t0) by (unfold validTime; simpl; lia).
  split; [exact Ht|].
  destruct (rotate_renames_with_hour_stamp O "app.log" w_rot
              (mkHandle "app.log" true) "app.log")
    as (w' & Hrun & _ & Hrot & Hmain & Hh);
    [exact Ht | reflexivity | reflexivity | reflexivity | reflexivity
    | reflexivity | reflexivity | vm_compute; discriminate | ].
  exists w'. split; [exact Hrun|]. split; [exact Hrot|].
  split; [exact Hmain|exact Hh].
Defined.

(** C3 as stated fails: with MaxLogFiles = 1 and three rotated files of
    logger [kodo], one of which cannot be removed, two rotated files remain
    after the pass. *)
Lemma cleanup_retention_counterexample :
  ∃ w', cleanupLogFiles "logs" 1 w_kodo3 = Returns tt w'
        ∧ ¬ (Z.of_nat (size (rotatedFiles "kodo" (dir w'))) ≤ 1).
Proof.
  eexists. split; [vm_compute; reflexivity|].
  vm_compute. intros Hle; apply Hle; reflexivity.
Qed.

(** Logger [kodo] with MaxLogFiles = 2, five rotated files and a
    subdirectory: the two newest rotated files remain. *)
Lemma cleanup_keeps_newest_witness :
  0 < 2
  ∧ readDirErr (faults w_kodo5) = None
  ∧ (∀ n, removeErr (faults w_kodo5) n = None)
  ∧ (∀ n data, dir w_kodo5 !! n = Some (File data) →
               n = "kodo.log" ↔ n = "kodo" +:+ ".log")
  ∧ ∃ w', cleanupLogFiles "logs" 2 w_kodo5 = Returns tt w'
      ∧ size (rotatedFiles "kodo" (dir w_kodo5)) = 5%nat
      ∧ size (rotatedFiles "kodo" (dir w')) = 2%nat
      ∧ (∀ n, n ∈ rotatedFiles "kodo" (dir w_kodo5)
                    ∖ rotatedFiles "kodo" (dir w') →
              dir w' !! n = None)
      ∧ (∀ n m, n ∈ rotatedFiles "kodo" (dir w_kodo5)
                      ∖ rotatedFiles "kodo" (dir w') →
                m ∈ rotatedFiles "kodo" (dir w') →
                String.le n m ∧ n ≠ m).
Proof.
  assert (H1 : 0 < 2) by lia.
  assert (H2 : readDirErr (faults w_kodo5) = None) by reflexivity.
  assert (H3 : ∀ n, removeErr (faults w_kodo5) n = None) by reflexivity.
  assert (H4 : ∀ n data, dir w_kodo5 !! n = Some (File data) →
                         n = "kodo.log" ↔ n = "kodo" +:+ ".log").
  { intros n data _. reflexivity. }
  split; [exact H1|]. split; [exact H2|]. split; [exact H3|]. split; [exact H4|].
  destruct (cleanup_keeps_newest "kodo" "logs" 2 w_kodo5 H1 H2 H3 H4)
    as (w' & Hrun & _ & Hsize & _ & Hgone & _ & Horder & _).
  exists w'. split; [exact Hrun|].
  assert (H5 : size (rotatedFiles "kodo" (dir w_kodo5)) = 5%nat)
    by (vm_compute; reflexivity).
  split; [exact H5|]. split; [rewrite Hsize, H5; reflexivity|].
  split; [exact Hgone|exact Horder].
Defined.

(** C4 as stated fails: with the severity spelled INFO and syslog enabled
    over the protocol spelled UDP, neither of which is one of the listed
    values, [Validate] returns nil. *)
Lemma Validate_case_counterexample :
  (Level cfg_upper ∉ ["error"; "info"; "debug"])
  ∧ EnableSyslog cfg_upper = true
  ∧ (SyslogProtocol cfg_upper ∉ ["udp"; "tcp"])
  ∧ Validate cfg_upper = None.
Proof.
  split; [apply outside_levels; split_and!; discriminate|].
  split; [reflexivity|].
  split; [apply outside_protocols; split; discriminate|].
  vm_compute. reflexivity.
Qed.

(** Level "warn" is rejected, the minimal configuration is accepted. *)
Lemma Validate_rejects_invalid_accepts_minimal_witness :
  is_Some (Validate cfg_warn) ∧ Validate cfg_minimal = None.
Proof.
  split.
  - apply (proj1 Validate_rejects_invalid_accepts_minimal cfg_warn).
    right; left. vm_compute. intros Hin.
    repeat (apply elem_of_cons in Hin as [Hin|Hin]; [discriminate|]).
    by apply elem_of_nil in Hin.
  - apply (proj2 Validate_rejects_invalid_accepts_minimal cfg_minimal);
      reflexivity || done.
Defined.

(** A view with prefix [db] of a factory built with Level=debug and syslog
    enabled: Debugf reaches the syslog writer and the file logger. *)
Lemma severity_gating_witness :
  ∃ mk w1,
    initLoggerFactory "app" "debug" "logs" true 10 3 0 false true
      "loghost" 514 "udp" w_fresh = Returns mk w1
    ∧ logger_ok (mk "db") w1
    ∧ Debugf (mk "db") [Some "main.run"] "x" [] w1
      = Returns tt
          (emitAll [SyslogSend SevDebug "db: run: debug: x" [];
                    LogLine (mkLogObj "app: " LstdFlags false)
                            "db: run: debug: x" []] w1).
Proof.
  eexists _, _. split; [vm_compute; reflexivity|].
  match goal with
  | |- logger_ok (?mk _) ?w1 ∧ _ =>
      assert (E : initLoggerFactory "app" "debug" "logs" true 10 3 0 false true
                    "loghost" 514 "udp" w_fresh = Returns mk w1)
        by (vm_compute; reflexivity);
      assert (Hok : logger_ok (mk "db") w1)
        by (intros id [= <-]; eexists; vm_compute; reflexivity)
  end.
  split; [exact Hok|].
  destruct (severity_gating _ _ _ _ _ _ _ _ _ _ _ _ _ _ _ "db" E
              [Some "main.run"] "x" [] _ Hok) as (_ & Hdebug & _).
  destruct (Hdebug eq_refl) as (HD & _).
  etransitivity; [exact HD|]. vm_compute. reflexivity.
Defined.

(** Infof on a debug-level view, called from [main.run]. *)
Lemma caller_name_iff_debug_threshold_witness :
  logger_ok view_db w_logger
  ∧ accepted MInfof view_db
  ∧ ∃ evs,
      Infof view_db [Some "main.run"] "x" [] w_logger
      = Returns tt (emitAll evs w_logger)
      ∧ ∀ e, e ∈ evs →
          (event_format e = Some "db: run: info: x"
           ↔ LogLevelDebug ≤ loglevel view_db)
          ∧ (event_format e = Some "db: info: x"
             ↔ loglevel view_db < LogLevelDebug).
Proof.
  assert (H1 : logger_ok view_db w_logger).
  { intros id [= <-]. eexists. reflexivity. }
  assert (H2 : accepted MInfof view_db) by (vm_compute; discriminate).
  split; [exact H1|]. split; [exact H2|].
  exact (caller_name_iff_debug_threshold MInfof view_db [Some "main.run"] "x" []
           w_logger H1 H2).
Defined.

(** C7 as stated fails: the validator accepts an interval of 2^51 + 1
    hours; its conversion to a duration wraps around to one hour, so the
    pass that sees the hour go from 8 to 9 rotates, although 9 is not a
    multiple of the configured interval. *)
Lemma time_rotation_counterexample :
  Validate cfg_wrap = None
  ∧ RotationIntervalHour cfg_wrap = 2 ^ 51 + 1
  ∧ 9 `mod` RotationIntervalHour cfg_wrap ≠ 0
  ∧ ∃ mk w1 t w2,
      InitLoggerFactoryByObj cfg_wrap w_fresh = Returns mk w1
      ∧ tasks w1 = [t]
      ∧ hour (clock w1 (ticks w1)) = 9
      ∧ rotationIteration t 8 w1 = Returns (Some 9) w2
      ∧ trace w2 = [Stdout ("rotating log file by time" +:+ nl)]
      ∧ dir w2 !! "app.log.20240307-09" = Some (File "").
Proof.
  split; [vm_compute; reflexivity|].
  split; [reflexivity|].
  split; [vm_compute; discriminate|].
  eexists _, _, _, _.
  split; [vm_compute; reflexivity|].
  split; [vm_compute; reflexivity|].
  split; [vm_compute; reflexivity|].
  split; [vm_compute; reflexivity|].
  split; vm_compute; reflexivity.
Qed.

(** An interval of 6 hours: the pass that sees the hour go from 11 to 12
    rotates, the pass that sees 12 again does not; and with an interval of
    48 hours the pass that sees the hour go from 11 to 12 does not rotate
    and takes 12 as the last-observed hour. *)
Lemma time_rotation_decision_witness :
  t_rotateBySize task_6h = false
  ∧ quitRotation w_noon = false
  ∧ t_rotationInterval task_6h = hoursDuration 6
  ∧ 1 ≤ 6 ≤ 2562047
  ∧ intHours (t_rotationInterval task_6h) = 6
  ∧ rotationIteration task_6h 11 w_noon
    = (fmt_Print ("rotating log file by time" +:+ nl);;
       rotateLogFile (t_logFile task_6h) (t_fileName task_6h);;
       cleanupLogFiles (t_logDir task_6h) (t_maxLogFiles task_6h);;
       mret (Some 12)) (tick w_noon)
  ∧ rotationIteration task_6h 12 w_noon = Returns (Some 12) (tick w_noon)
  ∧ rotationIteration task_48h 11 w_noon = Returns (Some 12) (tick w_noon).
Proof.
  assert (H4 : 1 ≤ 6 ≤ 2562047) by lia.
  assert (H5 : 1 ≤ 48 ≤ 2562047) by lia.
  split; [reflexivity|]. split; [reflexivity|]. split; [reflexivity|].
  split; [exact H4|].
  split.
  - exact (proj1 (time_rotation_decision task_6h 11 w_noon 6
                    eq_refl eq_refl eq_refl H4)).
  - split.
    + apply (proj1 (proj2 (time_rotation_decision task_6h 11 w_noon 6
                             eq_refl eq_refl eq_refl H4))).
      split; [discriminate|reflexivity].
    + split.
      * apply (proj2 (proj2 (time_rotation_decision task_6h 12 w_noon 6
                               eq_refl eq_refl eq_refl H4))).
        intros [Hne _]. by apply Hne.
      * apply (proj2 (proj2 (time_rotation_decision task_48h 11 w_noon 48
                               eq_refl eq_refl eq_refl H5))).
        intros [_ Hmul]. vm_compute in Hmul. discriminate.
Defined.

(** C8.  The constructor of the earlier factory, called with the empty
    prefix, sets the prefix of the shared logger to a bare separator, so
    every line of the view starts with a colon and a blank; the constructor
    of the current factory yields a view without prefix text, whose message
    starts with the level tag. *)
Theorem legacy_empty_prefix_leaves_separator :
  (∃ mk w1 l w2 w3 lg,
     Legacy.InitLoggerFactory "app" "info" "logs" true 10 3 0 false false
       "" 0 "" w_fresh = Returns mk w1
     ∧ mk "" w1 = Returns l w2
     ∧ Legacy.Errorf l "boom" [] w2 = Returns tt w3
     ∧ trace w3 = [LogLine lg "error: boom" []]
     ∧ lg_prefix lg = ": ")
  ∧ (∃ mk w1 w3 lg,
       initLoggerFactory "app" "info" "logs" true 10 3 0 false false
         "" 0 "" w_fresh = Returns mk w1
       ∧ prefix (mk "") = ""
       ∧ Errorf (mk "") [Some "main.main"] "boom" [] w1 = Returns tt w3
       ∧ trace w3 = [LogLine lg "error: boom" []]
       ∧ lg_prefix lg = "app: ").
Proof.
  split.
  - eexists _, _, _, _, _, _.
    split; [vm_compute; reflexivity|].
    split; [vm_compute; reflexivity|].
    split; [vm_compute; reflexivity|].
    split; [vm_compute; reflexivity|].
    reflexivity.
  - eexists _, _, _, _.
    split; [vm_compute; reflexivity|].
    split; [reflexivity|].
    split; [vm_compute; reflexivity|].
    split; [vm_compute; reflexivity|].
    reflexivity.
Qed.

(** The oldest candidate cannot be removed: it stays and is reported, the
    next one is removed all the same. *)
Lemma cleanup_failures_are_not_fatal_witness :
  0 ≤ 1
  ∧ ∃ w', cleanupLogFiles "logs" 1 w_kodo3 = Returns tt w'
      ∧ dir w' !! "kodo.log.20240101-00" = dir w_kodo3 !! "kodo.log.20240101-00"
      ∧ deleteFailure "logs" "kodo.log.20240101-00" "operation not permitted"
          ∈ trace w'
      ∧ dir w' !! "kodo.log.20240101-01" = None
      ∧ dir w' !! "kodo.log" = dir w_kodo3 !! "kodo.log".
Proof.
  assert (H1 : 0 ≤ 1) by lia.
  split; [exact H1|].
  destruct (proj2 (cleanup_failures_are_not_fatal "logs" 1 w_kodo3 H1) eq_refl)
    as (w' & Hrun & Hdoomed & Hrest).
  assert (Hlist : filesToDeleteOf 1 (dir w_kodo3)
                  = ["kodo.log.20240101-00"; "kodo.log.20240101-01"])
    by (vm_compute; reflexivity).
  exists w'. split; [exact Hrun|].
  pose proof (Hdoomed "kodo.log.20240101-00") as Ha.
  pose proof (Hdoomed "kodo.log.20240101-01") as Hb.
  pose proof (Hrest "kodo.log") as Hc.
  rewrite Hlist in Ha, Hb, Hc.
  destruct Ha as [Ha1 Ha2]; [apply elem_of_cons; by left|].
  split; [exact Ha1|]. split; [exact Ha2|].
  split; [apply Hb; apply elem_of_cons; right; apply elem_of_cons; by left|].
  apply Hc. intros Hin.
  repeat (apply elem_of_cons in Hin as [Hin|Hin]; [discriminate|]).
  by apply elem_of_nil in Hin.
Defined.

(** C10.  A configuration that [Validate] accepts can still make the divisor
    of the time-based branch zero: 2^51 hours is a valid [int], the product
    with [time.Hour] wraps around to the zero duration, and the first pass
    of the loop that sees a new hour divides by zero. *)
Theorem huge_interval_divides_by_zero :
  int64_range (RotationIntervalHour cfg_huge)
  ∧ Validate cfg_huge = None
  ∧ intHours (hoursDuration (RotationIntervalHour cfg_huge)) = 0
  ∧ ∃ mk w1 t w2,
      InitLoggerFactoryByObj cfg_huge w_fresh = Returns mk w1
      ∧ tasks w1 = [t]
      ∧ rotationIteration t 8 w1 = Panics "integer divide by zero" w2.
Proof.
  split; [unfold int64_range; simpl; lia|].
  split; [vm_compute; reflexivity|].
  split; [vm_compute; reflexivity|].
  eexists _, _, _, _.
  split; [vm_compute; reflexivity|].
  split; [vm_compute; reflexivity|].
  vm_compute. reflexivity.
Qed.

(** ** The further properties on concrete inputs *)

Lemma cleanup_only_removes_regular_files_witness :
  0 ≤ 1
  ∧ ∃ w', cleanupLogFiles "logs" 1 w_kodo3 = Returns tt w'
      ∧ dir w' ⊆ dir w_kodo3
      ∧ handles w' = handles w_kodo3.
Proof.
  assert (H1 : 0 ≤ 1) by lia.
  split; [exact H1|].
  destruct (cleanup_only_removes_regular_files "logs" 1 w_kodo3 H1)
    as (w' & Hrun & Hsub & _ & _ & Hh & _).
  exists w'. split; [exact Hrun|]. split; [exact Hsub|exact Hh].
Defined.

Lemma cleanup_bounds_candidates_and_is_idempotent_witness :
  0 ≤ 2
  ∧ readDirErr (faults w_kodo5) = None
  ∧ (∀ n, removeErr (faults w_kodo5) n = None)
  ∧ ∃ w', cleanupLogFiles "logs" 2 w_kodo5 = Returns tt w'
      ∧ len (logFilesOf (dir w')) = 2
      ∧ cleanupLogFiles "logs" 2 w' = Returns tt w'.
Proof.
  assert (H1 : 0 ≤ 2) by lia.
  assert (H2 : readDirErr (faults w_kodo5) = None) by reflexivity.
  assert (H3 : ∀ n, removeErr (faults w_kodo5) n = None) by reflexivity.
  split; [exact H1|]. split; [exact H2|]. split; [exact H3|].
  destruct (cleanup_bounds_candidates_and_is_idempotent "logs" 2 w_kodo5
              H1 H2 H3) as (w' & Hrun & Hlen & Hagain & _).
  exists w'. split; [exact Hrun|]. split; [|exact Hagain].
  rewrite Hlen. vm_compute. reflexivity.
Defined.

Lemma cleanup_deletes_live_log_first_witness :
  0 ≤ 1
  ∧ readDirErr (faults w_app2) = None
  ∧ removeErr (faults w_app2) ("app" +:+ ".log") = None
  ∧ "app" ≠ "kodo"
  ∧ dir w_app2 !! ("app" +:+ ".log") = Some (File "app.log")
  ∧ (∀ m d, dir w_app2 !! m = Some (File d) → m ≠ "kodo.log" →
            ∃ x, m = ("app" +:+ ".log") +:+ x)
  ∧ 1 < len (logFilesOf (dir w_app2))
  ∧ ∃ w', cleanupLogFiles "logs" 1 w_app2 = Returns tt w'
      ∧ dir w' !! ("app" +:+ ".log") = None.
Proof.
  assert (H1 : 0 ≤ 1) by lia.
  assert (H2 : readDirErr (faults w_app2) = None) by reflexivity.
  assert (H3 : removeErr (faults w_app2) ("app" +:+ ".log") = None)
    by reflexivity.
  assert (H4 : "app" ≠ "kodo") by discriminate.
  assert (H5 : dir w_app2 !! ("app" +:+ ".log") = Some (File "app.log"))
    by (vm_compute; reflexivity).
  assert (H6 : ∀ m d, dir w_app2 !! m = Some (File d) → m ≠ "kodo.log" →
                      ∃ x, m = ("app" +:+ ".log") +:+ x).
  { intros m d Hm _. apply elem_of_list_to_map_2 in Hm.
    apply elem_of_cons in Hm as [[= -> _]|Hm]; [by exists ""|].
    apply elem_of_cons in Hm as [[= -> _]|Hm]; [by exists ".20240101-00"|].
    by apply elem_of_nil in Hm. }
  assert (H7 : 1 < len (logFilesOf (dir w_app2))) by (vm_compute; reflexivity).
  split; [exact H1|]. split; [exact H2|]. split; [exact H3|].
  split; [exact H4|]. split; [exact H5|]. split; [exact H6|].
  split; [exact H7|].
  exact (cleanup_deletes_live_log_first "app" "logs" 1 w_app2 "app.log"
           H1 H2 H3 H4 H5 H6 H7).
Defined.


Lemma rotate_reopens_when_rename_fails_witness :
  handles w_gone !! O = Some (mkHandle "app.log" true)
  ∧ closeErr (faults w_gone) = None
  ∧ openErr (faults w_gone) = None
  ∧ ∃ w', rotateLogFile (Some O) "app.log" w_gone = Returns tt w'
      ∧ dir w' = <["app.log" := File ""]> (dir w_gone)
      ∧ handles w' !! O = Some (mkHandle "app.log" true).
Proof.
  assert (H1 : handles w_gone !! O = Some (mkHandle "app.log" true))
    by reflexivity.
  split; [exact H1|]. split; [reflexivity|]. split; [reflexivity|].
  destruct (proj1 (rotate_reopens_when_rename_fails O "app.log" w_gone
                     (mkHandle "app.log" true) H1 eq_refl eq_refl eq_refl)
                  eq_refl)
    as (w' & Hrun & Hdir & Hh & _).
  exists w'. split; [exact Hrun|]. split; [exact Hdir|exact Hh].
Defined.

Lemma rotate_panics_when_reopen_fails_witness :
  handles w_nofd !! O = Some (mkHandle "app.log" true)
  ∧ openErr (faults w_nofd) = Some "too many open files"
  ∧ dir w_nofd !! "app.log" = Some (File "app.log")
  ∧ ∃ w', rotateLogFile (Some O) "app.log" w_nofd
          = Panics "invalid memory address or nil pointer dereference" w'
      ∧ dir w' !! "app.log" = None.
Proof.
  assert (H1 : handles w_nofd !! O = Some (mkHandle "app.log" true))
    by reflexivity.
  assert (H2 : dir w_nofd !! "app.log" = Some (File "app.log"))
    by (vm_compute; reflexivity).
  split; [exact H1|]. split; [reflexivity|]. split; [exact H2|].
  destruct (rotate_panics_when_reopen_fails O "app.log" w_nofd
              (mkHandle "app.log" true) "app.log" "too many open files"
              H1 eq_refl eq_refl eq_refl eq_refl H2)
    as (w' & Hrun & _ & Hmain & _).
  { vm_compute. discriminate. }
  exists w'. split; [exact Hrun|exact Hmain].
Defined.

Lemma rotating_twice_in_one_hour_overwrites_witness :
  clock w_rot (S (ticks w_rot)) = clock w_rot (ticks w_rot)
  ∧ handles w_rot !! O = Some (mkHandle "app.log" true)
  ∧ dir w_rot !! "app.log" = Some (File "app.log")
  ∧ ∃ w1, rotateLogFile (Some O) "app.log" w_rot = Returns tt w1
      ∧ ∃ w2, rotateLogFile (Some O) "app.log"
                (set_dir (<["app.log" := File "later"]> (dir w1)) w1)
              = Returns tt w2
          ∧ dir w2 !! ("app.log" +:+ "." +:+ Format t0 "20060102-15")
            = Some (File "later").
Proof.
  assert (H1 : handles w_rot !! O = Some (mkHandle "app.log" true))
    by reflexivity.
  assert (H2 : dir w_rot !! "app.log" = Some (File "app.log"))
    by (vm_compute; reflexivity).
  split; [reflexivity|]. split; [exact H1|]. split; [exact H2|].
  destruct (rotating_twice_in_one_hour_overwrites O "app.log" w_rot
              (mkHandle "app.log" true) "app.log"
              eq_refl H1 eq_refl eq_refl eq_refl eq_refl H2)
    as (w1 & Hrun & _ & Hnext).
  { vm_compute. discriminate. }
  exists w1. split; [exact Hrun|].
  destruct (Hnext "later") as (w2 & Hrun2 & _ & Hrot).
  exists w2. split; [exact Hrun2|exact Hrot].
Defined.

Lemma rotation_pass_unlinks_the_fresh_log_witness :
  t_rotateBySize task_size = true
  ∧ quitRotation w_app2 = false
  ∧ statSize (faults w_app2) = inl 100
  ∧ t_maxSize task_size ≤ 100
  ∧ validTime (clock w_app2 (ticks w_app2))
  ∧ dir w_app2 !! t_fileName task_size = Some (File "app.log")
  ∧ 0 ≤ t_maxLogFiles task_size ≤ len (logFilesOf (dir w_app2))
  ∧ ∃ w', rotationIteration task_size 9 w_app2 = Returns (Some 9) w'
      ∧ dir w' !! "app.log" = None
      ∧ handles w' !! O = Some (mkHandle "app.log" true).
Proof.
  assert (H1 : handles w_app2 !! O = Some (mkHandle "app.log" true))
    by reflexivity.
  assert (H2 : t_maxSize task_size ≤ 100) by (vm_compute; discriminate).
  assert (H3 : validTime (clock w_app2 (ticks w_app2)))
    by (unfold validTime; simpl; lia).
  assert (H4 : t_fileName task_size ≠ "kodo.log") by discriminate.
  assert (H5 : dir w_app2 !! t_fileName task_size = Some (File "app.log"))
    by (vm_compute; reflexivity).
  assert (H6 : dir w_app2 !! (t_fileName task_size +:+ "." +:+
                 suffix_YYYYMMDD_HH (clock w_app2 (ticks w_app2))) = None)
    by (vm_compute; reflexivity).
  assert (H7 : ∀ m d, dir w_app2 !! m = Some (File d) → m ≠ "kodo.log" →
                      ∃ x, m = t_fileName task_size +:+ x).
  { intros m d Hm _. apply elem_of_list_to_map_2 in Hm.
    apply elem_of_cons in Hm as [[= -> _]|Hm]; [by exists ""|].
    apply elem_of_cons in Hm as [[= -> _]|Hm]; [by exists ".20240101-00"|].
    by apply elem_of_nil in Hm. }
  assert (H8 : 0 ≤ t_maxLogFiles task_size ≤ len (logFilesOf (dir w_app2)))
    by (vm_compute; split; discriminate).
  split; [reflexivity|]. split; [reflexivity|]. split; [reflexivity|].
  split; [exact H2|]. split; [exact H3|]. split; [exact H5|].
  split; [exact H8|].
  exact (rotation_pass_unlinks_the_fresh_log task_size 9 w_app2 O
           (mkHandle "app.log" true) "app.log" 100
           eq_refl eq_refl eq_refl H1 eq_refl eq_refl H2 eq_refl eq_refl
           eq_refl eq_refl eq_refl H3 H4 H5 H6 H7 H8).
Defined.

Lemma no_rotation_below_the_size_limit_witness :
  t_rotateBySize task_roomy = true
  ∧ quitRotation w_app2 = false
  ∧ (∀ f size, t_logFile task_roomy = Some f →
               statSize (faults w_app2) = inl size →
               size < t_maxSize task_roomy)
  ∧ rotationLoop 3 task_roomy 9 w_app2 = Returns tt w_app2.
Proof.
  assert (H3 : ∀ f size, t_logFile task_roomy = Some f →
                         statSize (faults w_app2) = inl size →
                         size < t_maxSize task_roomy).
  { intros f size _ [= <-]. reflexivity. }
  split; [reflexivity|]. split; [reflexivity|]. split; [exact H3|].
  exact (no_rotation_below_the_size_limit 3 task_roomy 9 w_app2
           eq_refl eq_refl H3).
Defined.

Lemma no_rotation_within_the_hour_witness :
  t_rotateBySize task_6h = false
  ∧ quitRotation w_noon = false
  ∧ (∀ i, (i < 3)%nat → hour (clock w_noon (ticks w_noon + i)) = 12)
  ∧ rotationLoop 3 task_6h 12 w_noon = Returns tt (Nat.iter 3 tick w_noon).
Proof.
  assert (H3 : ∀ i, (i < 3)%nat →
                    hour (clock w_noon (ticks w_noon + i)) = 12)
    by (intros i _; reflexivity).
  split; [reflexivity|]. split; [reflexivity|]. split; [exact H3|].
  exact (no_rotation_within_the_hour 3 task_6h 12 w_noon eq_refl eq_refl H3).
Defined.

Lemma time_rotation_is_aligned_to_midnight_witness :
  t_rotateBySize task_48h = false
  ∧ quitRotation w_noon = false
  ∧ t_rotationInterval task_48h = hoursDuration 48
  ∧ 1 ≤ 48 ≤ 2562047
  ∧ rotationIteration task_48h 11 w_noon = Returns (Some 12) (tick w_noon).
Proof.
  assert (H4 : 1 ≤ 48 ≤ 2562047) by lia.
  split; [reflexivity|]. split; [reflexivity|]. split; [reflexivity|].
  split; [exact H4|].
  apply (proj2 (time_rotation_is_aligned_to_midnight task_48h 11 w_noon 48
                  eq_refl eq_refl eq_refl H4)).
  - lia.
  - vm_compute. split; discriminate.
Defined.

Lemma views_share_the_sinks_witness :
  mkdirErr (faults w_fresh) = None
  ∧ openErr (faults w_fresh) = None
  ∧ dir w_fresh !! ("app" +:+ ".log") ≠ Some Dir
  ∧ ∃ mk w1,
      initLoggerFactory "app" "info" "logs" true 10 3 0 false false "" 0 ""
        w_fresh = Returns mk w1
      ∧ logger (mk "web") = logger (mk "db")
      ∧ Destroy (mk "web") = Destroy (mk "db").
Proof.
  assert (H3 : dir w_fresh !! ("app" +:+ ".log") ≠ Some Dir)
    by (vm_compute; discriminate).
  split; [reflexivity|]. split; [reflexivity|]. split; [exact H3|].
  destruct (views_share_the_sinks "app" "info" "logs" true 10 3 0 false false
              "" 0 "" w_fresh eq_refl eq_refl H3)
    as (mk & w1 & lg & Hrun & _ & Hviews).
  exists mk, w1. split; [exact Hrun|].
  destruct (Hviews "db" "web") as (_ & Hl & _ & _ & Hd & _).
  split; [exact Hl|exact Hd].
Defined.

Lemma level_defaults_to_info_witness :
  mkdirErr (faults w_fresh) = None
  ∧ openErr (faults w_fresh) = None
  ∧ dir w_fresh !! ("app" +:+ ".log") ≠ Some Dir
  ∧ ToLower "warn" ≠ "debug" ∧ ToLower "warn" ≠ "error"
  ∧ ∃ mk w1,
      initLoggerFactory "app" "warn" "logs" true 10 3 0 false false "" 0 ""
        w_fresh = Returns mk w1
      ∧ loglevel (mk "db") = LogLevelInfo.
Proof.
  assert (H3 : dir w_fresh !! ("app" +:+ ".log") ≠ Some Dir)
    by (vm_compute; discriminate).
  assert (H4 : ToLower "warn" ≠ "debug") by (vm_compute; discriminate).
  assert (H5 : ToLower "warn" ≠ "error") by (vm_compute; discriminate).
  split; [reflexivity|]. split; [reflexivity|]. split; [exact H3|].
  split; [exact H4|]. split; [exact H5|].
  destruct (level_defaults_to_info "app" "warn" "logs" true 10 3 0 false
              false "" 0 "" w_fresh "db" eq_refl eq_refl H3 H4 H5)
    as (mk & w1 & Hrun & Hlevel & _).
  exists mk, w1. split; [exact Hrun|exact Hlevel].
Defined.

Lemma Destroy_stops_the_rotation_task_witness :
  mkdirErr (faults w_fresh) = None
  ∧ openErr (faults w_fresh) = None
  ∧ dir w_fresh !! ("app" +:+ ".log") ≠ Some Dir
  ∧ ∃ mk w1 t w',
      initLoggerFactory "app" "info" "logs" true 10 3 0 false false "" 0 ""
        w_fresh = Returns mk w1
      ∧ tasks w1 = tasks w_fresh ++ [t]
      ∧ Destroy (mk "db") w1 = Returns tt w'
      ∧ rotationLoop 5 t 9 w' = Returns tt w'.
Proof.
  assert (H3 : dir w_fresh !! ("app" +:+ ".log") ≠ Some Dir)
    by (vm_compute; discriminate).
  split; [reflexivity|]. split; [reflexivity|]. split; [exact H3|].
  destruct (Destroy_stops_the_rotation_task "app" "info" "logs" true 10 3 0
              false false "" 0 "" w_fresh "db" eq_refl eq_refl H3)
    as (mk & w1 & t & Hrun & Ht & Hd).
  destruct (Hd w1) as (w' & Hrun' & _ & _ & _ & _ & _ & Hloop & _).
  exists mk, w1, t, w'. split; [exact Hrun|]. split; [exact Ht|].
  split; [exact Hrun'|exact (Hloop 5%nat 9)].
Defined.

Lemma protocol_case_disables_syslog_witness :
  Validate cfg_upper = None
  ∧ EnableSyslog cfg_upper = true
  ∧ SyslogProtocol cfg_upper ≠ "udp" ∧ SyslogProtocol cfg_upper ≠ "tcp"
  ∧ mkdirErr (faults w_fresh) = None
  ∧ openErr (faults w_fresh) = None
  ∧ dir w_fresh !! (LoggerName cfg_upper +:+ ".log") ≠ Some Dir
  ∧ ∃ mk w1,
      InitLoggerFactoryByObj cfg_upper w_fresh = Returns mk w1
      ∧ (∀ p, syslogger (mk p) = None).
Proof.
  assert (H1 : Validate cfg_upper = None) by (vm_compute; reflexivity).
  assert (H3 : SyslogProtocol cfg_upper ≠ "udp") by discriminate.
  assert (H4 : SyslogProtocol cfg_upper ≠ "tcp") by discriminate.
  assert (H7 : dir w_fresh !! (LoggerName cfg_upper +:+ ".log") ≠ Some Dir)
    by (vm_compute; discriminate).
  split; [exact H1|]. split; [reflexivity|]. split; [exact H3|].
  split; [exact H4|]. split; [reflexivity|]. split; [reflexivity|].
  split; [exact H7|].
  destruct (protocol_case_disables_syslog cfg_upper w_fresh H1 eq_refl H3 H4
              eq_refl eq_refl H7) as (_ & mk & w1 & Hrun & Hsys & _).
  exists mk, w1. split; [exact Hrun|exact Hsys].
Defined.


Lemma facade_extends_legacy_witness :
  Legacy.loglevel legacy_view < LogLevelDebug
  ∧ Errorf (upgrade "" legacy_view) [Some "main.run"] "x" [] w_logger
    = Legacy.Errorf legacy_view "x" [] w_logger.
Proof.
  assert (H1 : Legacy.loglevel legacy_view < LogLevelDebug)
    by (vm_compute; reflexivity).
  split; [exact H1|].
  exact (facade_extends_legacy MErrorf legacy_view [Some "main.run"] "x" []
           w_logger H1).
Defined.

Lemma legacy_sink_keeps_its_main_log_witness :
  mkdirErr (faults w_fresh) = None
  ∧ openErr (faults w_fresh) = None
  ∧ dir w_fresh !! "kodo.log" ≠ Some Dir
  ∧ 0 ≤ 3
  ∧ ∃ lg hook w1 t lastHour w2 e,
      Legacy.createCustomFileLogger "app" "logs" true 10 3 0 false w_fresh
      = Returns (lg, hook) w1
      ∧ t_fileName t = "kodo.log"
      ∧ rotationStart t w1 = Returns lastHour w2
      ∧ dir w2 !! "kodo.log" = Some e.
Proof.
  assert (H3 : dir w_fresh !! "kodo.log" ≠ Some Dir)
    by (vm_compute; discriminate).
  assert (H4 : 0 ≤ 3) by lia.
  split; [reflexivity|]. split; [reflexivity|]. split; [exact H3|].
  split; [exact H4|].
  destruct (legacy_sink_keeps_its_main_log "app" "logs" true 10 3 0 false
              w_fresh eq_refl eq_refl H3 H4)
    as (lg & hook & w1 & t & lastHour & w2 & e & Hrun & _ & Hname & _ & _ & _
        & _ & Hstart & Hkept).
  exists lg, hook, w1, t, lastHour, w2, e.
  split; [exact Hrun|]. split; [exact Hname|]. split; [exact Hstart|exact Hkept].
Defined.

Lemma legacy_views_share_one_prefix_witness :
  mkdirErr (faults w_fresh) = None
  ∧ openErr (faults w_fresh) = None
  ∧ dir w_fresh !! "kodo.log" ≠ Some Dir
  ∧ ∃ mk w1 l w2 w3 w4,
      Legacy.InitLoggerFactory "app" "info" "logs" true 10 3 0 false false
        "" 0 "" w_fresh = Returns mk w1
      ∧ mk "db" w1 = Returns l w2
      ∧ mk "web" w2 = Returns l w3
      ∧ Legacy.Errorf l "boom" [] w3 = Returns tt w4
      ∧ last (trace w4)
        = Some (LogLine (mkLogObj "web: " (Z.lor LstdFlags Lshortfile) false)
                        "error: boom" []).
Proof.
  assert (H3 : dir w_fresh !! "kodo.log" ≠ Some Dir)
    by (vm_compute; discriminate).
  split; [reflexivity|]. split; [reflexivity|]. split; [exact H3|].
  destruct (legacy_views_share_one_prefix "app" "info" "logs" true 10 3 0
              false false "" 0 "" w_fresh "db" "web" eq_refl eq_refl H3)
    as (mk & w1 & l & w2 & w3 & lg & Hrun & Hp & Hq & _ & _ & _ & Hline).
  destruct (Hline "boom" []) as (w4 & Herr & Hlast).
  exists mk, w1, l, w2, w3, w4.
  split; [exact Hrun|]. split; [exact Hp|]. split; [exact Hq|].
  split; [exact Herr|exact Hlast].
Defined.

Lemma Validate_reads_only_fields_in_use_witness :
  LoggerName cfg_other = LoggerName cfg_minimal
  ∧ Level cfg_other = Level cfg_minimal
  ∧ EnableSyslog cfg_other = EnableSyslog cfg_minimal
  ∧ RotationBySize cfg_other = RotationBySize cfg_minimal
  ∧ MaxLogFiles cfg_other = MaxLogFiles cfg_minimal
  ∧ OutputFolder cfg_other ≠ OutputFolder cfg_minimal
  ∧ Validate cfg_other = Validate cfg_minimal.
Proof.
  split; [reflexivity|]. split; [reflexivity|]. split; [reflexivity|].
  split; [reflexivity|]. split; [reflexivity|]. split; [discriminate|].
  apply (Validate_reads_only_fields_in_use cfg_other cfg_minimal);
    try reflexivity; discriminate.
Defined.
